(** * SQL Assistant (pg-query): schema semantics, SQL extraction, repair flow

    A shallow embedding of [pg-query/streamlit.py] and of the question flow
    of [pg-query/ui/streamlit.py].

    Conventions of the embedding.
    - A Python [str] is the [string] of its UTF-8 bytes.  Equality,
      concatenation, [in], [startswith], [endswith] and [replace] are the
      same on the characters and on the bytes.  White space ([str.strip],
      the class [\s]) is the Unicode white space, recognised on the bytes;
      letter case under [re.IGNORECASE] is that of [re] for the ASCII
      letters of the source's patterns; [str.lower] beyond ASCII is a
      parameter, the case mapping of the interpreter's Unicode database.
    - A [dict] used only through [in], [get] and item assignment is a
      [gmap]; a [dict] that is iterated is an insertion-ordered association
      list.
    - The database driver and the language model are collaborators: their
      answers are inputs of the model, their calls are recorded in a log
      where a property is about which calls are made.  The connection keeps
      the transaction that psycopg2 opens: nothing in the source commits or
      rolls back, so a statement that fails leaves it aborted.
    - A run of a Streamlit script is one execution from the top; a click on
      a button starts a run in which that button alone is pressed. *)

From Stdlib Require Import String Ascii List Bool Arith Lia.
From stdpp Require Import gmap strings pretty.
Import ListNotations.

(** ** Python string operations *)

Module PyStr.

(** Truthiness of a [str]: [if s:]. *)
Definition truthy (s : string) : bool :=
  match s with
  | EmptyString => false
  | String _ _ => true
  end.

(** [s.startswith(p)]. *)
Definition startswith (s p : string) : bool := String.prefix p s.

(** [sub in s]. *)
Fixpoint contains (sub s : string) : bool :=
  String.prefix sub s ||
  match s with
  | EmptyString => false
  | String _ s' => contains sub s'
  end.

(** Drop the first [n] characters: [s[n:]]. *)
Fixpoint drop (n : nat) (s : string) : string :=
  match n, s with
  | O, _ => s
  | S _, EmptyString => EmptyString
  | S n', String _ s' => drop n' s'
  end.

(** The first [n] characters: [s[:n]]. *)
Fixpoint take (n : nat) (s : string) : string :=
  match n, s with
  | O, _ => EmptyString
  | S _, EmptyString => EmptyString
  | S n', String c s' => String c (take n' s')
  end.

(** [s.endswith(suf)]. *)
Definition endswith (s suf : string) : bool :=
  (String.length suf <=? String.length s) &&
  String.eqb (drop (String.length s - String.length suf) s) suf.

(** [s.replace(old, new)] for a non-empty [old]: occurrences are replaced
    from left to right and do not overlap.  [skip] counts the characters of
    an occurrence that are still to be passed over. *)
Fixpoint replace_from (old new : string) (skip : nat) (s : string) : string :=
  match s with
  | EmptyString => EmptyString
  | String c s' =>
      match skip with
      | S k => replace_from old new k s'
      | O =>
          if String.prefix old s
          then new +:+ replace_from old new (String.length old - 1) s'
          else String c (replace_from old new 0 s')
      end
  end.

Definition replace (old new s : string) : string := replace_from old new 0 s.

(** [c.lower()] for an ASCII character: only [A]..[Z] change. *)
Definition ascii_lower_char (c : ascii) : ascii :=
  let n := nat_of_ascii c in
  if (65 <=? n) && (n <=? 90) then ascii_of_nat (n + 32) else c.

(** [s.lower()] for a text of ASCII characters. *)
Fixpoint ascii_lower (s : string) : string :=
  match s with
  | EmptyString => EmptyString
  | String c s' => String (ascii_lower_char c) (ascii_lower s')
  end.

(** The text has ASCII characters only: every byte is below 128. *)
Fixpoint is_ascii (s : string) : bool :=
  match s with
  | EmptyString => true
  | String c s' => (nat_of_ascii c <? 128) && is_ascii s'
  end.

(** The case mapping of the interpreter beyond ASCII: [s.lower()] for a text
    with a character that is not ASCII follows the Unicode database of the
    interpreter (its version, the special casing and the rule for the final
    sigma), which the source does not fix. *)
Class Unicode : Type := { lower_other : string -> string }.

(** [s.lower()]. *)
Definition lower {U : Unicode} (s : string) : string :=
  if is_ascii s then ascii_lower s else lower_other s.

(** White space, as [str.isspace], [str.strip] and the class [\s] of [re]
    have it: the ASCII characters 9..13, 28..31 and 32, and U+0085, U+00A0,
    U+1680, U+2000..U+200A, U+2028, U+2029, U+202F, U+205F and U+3000, here
    by their bytes in UTF-8. *)
Definition space1 (c1 : ascii) : bool :=
  let n := nat_of_ascii c1 in
  ((9 <=? n) && (n <=? 13)) || ((28 <=? n) && (n <=? 32)).

Definition space2 (c1 c2 : ascii) : bool :=
  let n1 := nat_of_ascii c1 in
  let n2 := nat_of_ascii c2 in
  (n1 =? 194) && ((n2 =? 133) || (n2 =? 160)).

Definition space3 (c1 c2 c3 : ascii) : bool :=
  let n1 := nat_of_ascii c1 in
  let n2 := nat_of_ascii c2 in
  let n3 := nat_of_ascii c3 in
  ((n1 =? 225) && (n2 =? 154) && (n3 =? 128)) ||
  ((n1 =? 226) && (n2 =? 128) &&
   (((128 <=? n3) && (n3 <=? 138)) || (n3 =? 168) || (n3 =? 169) || (n3 =? 175))) ||
  ((n1 =? 226) && (n2 =? 129) && (n3 =? 159)) ||
  ((n1 =? 227) && (n2 =? 128) && (n3 =? 128)).

(** The text after the white-space character that [s] starts with, if it
    starts with one. *)
Definition drop_space (s : string) : option string :=
  match s with
  | EmptyString => None
  | String c1 s1 =>
      if space1 c1 then Some s1
      else match s1 with
           | EmptyString => None
           | String c2 s2 =>
               if space2 c1 c2 then Some s2
               else match s2 with
                    | EmptyString => None
                    | String c3 s3 => if space3 c1 c2 c3 then Some s3 else None
                    end
           end
  end.

(** [s.lstrip()]. *)
Fixpoint lstrip (s : string) : string :=
  match s with
  | EmptyString => EmptyString
  | String c1 s1 =>
      if space1 c1 then lstrip s1
      else match s1 with
           | EmptyString => s
           | String c2 s2 =>
               if space2 c1 c2 then lstrip s2
               else match s2 with
                    | EmptyString => s
                    | String c3 s3 => if space3 c1 c2 c3 then lstrip s3 else s
                    end
           end
  end.

(** The text is made of white space only. *)
Definition all_space (s : string) : bool := negb (truthy (lstrip s)).

(** [s.rstrip()]: the text without the white space that it ends with.  A
    byte is kept when what starts at it is not white space only. *)
Fixpoint rstrip (s : string) : string :=
  match s with
  | EmptyString => EmptyString
  | String c s' => if all_space s then EmptyString else String c (rstrip s')
  end.

(** [s.strip()]. *)
Definition strip (s : string) : string := rstrip (lstrip s).

(** [x in (a, b, ...)] for strings. *)
Definition member (x : string) (xs : list string) : bool :=
  existsb (String.eqb x) xs.

(** [sep.join(xs)]. *)
Fixpoint join (sep : string) (xs : list string) : string :=
  match xs with
  | [] => EmptyString
  | [x] => x
  | x :: rest => x +:+ sep +:+ join sep rest
  end.

End PyStr.

(** ** A state monad for the analyzer object

    The methods of [DatabaseAnalyzer] read and assign attributes of [self];
    a method is a function from the object's state to a result and the
    state after the call. *)

Definition State (S A : Type) : Type := S -> A * S.

Definition ret {S A : Type} (a : A) : State S A := fun s => (a, s).

Definition bind {S A B : Type} (m : State S A) (k : A -> State S B) : State S B :=
  fun s => let (a, s') := m s in k a s'.

Definition get_state {S : Type} : State S S := fun s => (s, s).

Definition modify {S : Type} (f : S -> S) : State S unit := fun s => (tt, f s).

Declare Scope state_scope.
Delimit Scope state_scope with state.
Notation "x <- m ;; k" := (bind m (fun x => k))
  (at level 62, m at next level, k at level 200, right associativity) : state_scope.
Notation "m ;;; k" := (bind m (fun _ => k))
  (at level 62, k at level 200, right associativity) : state_scope.
Open Scope state_scope.

(** Run a method on a list of arguments, in order, collecting the results. *)
Fixpoint mapM {S A B : Type} (f : A -> State S B) (xs : list A) : State S (list B) :=
  match xs with
  | [] => ret []
  | x :: rest => y <- f x ;; ys <- mapM f rest ;; ret (y :: ys)
  end.

(** ** Semantic inference: [DatabaseAnalyzer.infer_column_semantics] *)

Module Inference.

(** The comment store: the rows [(relname, attname, description)] that the
    join of [pg_description], [pg_class] and [pg_attribute] yields. *)
Definition comment_store : Type := list (string * string * string).

(** [cursor.fetchone()] of the query of [get_comment_for_column]: the first
    row for the table and the column, if any. *)
Fixpoint fetch_comment (db : comment_store) (table_name column_name : string)
  : option string :=
  match db with
  | [] => None
  | (rel, att, descr) :: rest =>
      if String.eqb rel table_name && String.eqb att column_name
      then Some descr
      else fetch_comment rest table_name column_name
  end.

(** The part of the analyzer object that inference uses: the memo
    [self.column_semantics], and a log of the comment queries sent to the
    database (the log is not in the source; it records the calls of
    [get_comment_for_column], oldest first). *)
Record analyzer : Type := {
  column_semantics : gmap string string;
  comment_queries : list (string * string)
}.

Definition fresh : analyzer :=
  {| column_semantics := ∅; comment_queries := [] |}.

Definition log_query (table_name column_name : string) (self : analyzer) : analyzer :=
  {| column_semantics := column_semantics self;
     comment_queries := comment_queries self ++ [(table_name, column_name)] |}.

Definition memoize (column_key meaning : string) (self : analyzer) : analyzer :=
  {| column_semantics := <[column_key := meaning]> (column_semantics self);
     comment_queries := comment_queries self |}.

(** [get_comment_for_column]:
    [return result[0] if result and result[0] else ""]. *)
Definition get_comment_for_column (db : comment_store) (table_name column_name : string)
  : State analyzer string :=
  modify (log_query table_name column_name) ;;;
  ret match fetch_comment db table_name column_name with
      | Some descr => if PyStr.truthy descr then descr else ""
      | None => ""
      end.

Definition date_created_patterns : list string :=
  ["created_at"; "creation_date"; "date_created"; "created_on"].
Definition date_updated_patterns : list string :=
  ["updated_at"; "modification_date"; "date_updated"; "modified_on"; "last_updated"].
Definition date_deleted_patterns : list string :=
  ["deleted_at"; "deletion_date"; "date_deleted"; "removed_on"].
Definition delivery_patterns : list string :=
  ["delivery_date"; "delivered_at"; "date_delivered"].
Definition dispatch_patterns : list string :=
  ["dispatch_date"; "dispatched_at"; "date_dispatched"; "shipped_date"; "shipped_at"].
Definition order_patterns : list string :=
  ["order_date"; "ordered_at"; "date_ordered"].
Definition payment_patterns : list string :=
  ["payment_date"; "paid_at"; "date_paid"].
Definition id_patterns : list string := ["_id"; "id"; "_key"; "uuid"; "guid"].
Definition status_patterns : list string := ["status"; "state"; "condition"].

Definition date_types : list string := ["date"; "timestamp"; "timestamptz"; "datetime"].
Definition numeric_types : list string :=
  ["integer"; "bigint"; "numeric"; "decimal"; "double precision"].
Definition string_types : list string := ["character varying"; "varchar"; "text"; "char"].

(** [any(pattern in col_lower for pattern in patterns)]. *)
Definition any_in (patterns : list string) (col_lower : string) : bool :=
  existsb (fun pattern => PyStr.contains pattern col_lower) patterns.

(** [any(col_lower.endswith(suffix) for suffix in suffixes)]. *)
Definition any_endswith (suffixes : list string) (col_lower : string) : bool :=
  existsb (fun suffix => PyStr.endswith col_lower suffix) suffixes.

(** The [if]/[elif] chain under [# Date semantics]. *)
Definition date_meaning (col_lower : string) : string :=
  if any_in date_created_patterns col_lower then
    "Timestamp when the record was created"
  else if any_in date_updated_patterns col_lower then
    "Timestamp when the record was last updated"
  else if any_in date_deleted_patterns col_lower then
    "Timestamp when the record was deleted (for soft deletes)"
  else if any_in delivery_patterns col_lower then
    "Date when items were actually delivered to the customer"
  else if any_in dispatch_patterns col_lower then
    "Date when items were dispatched from the warehouse/facility"
  else if any_in order_patterns col_lower then
    "Date when the order was placed"
  else if any_in payment_patterns col_lower then
    "Date when payment was received"
  else if PyStr.contains "due" col_lower then
    "Due date or deadline"
  else if PyStr.contains "start" col_lower then
    "Start date of an event or period"
  else if PyStr.contains "end" col_lower then
    "End date of an event or period"
  else "".

(** The chain under [# Numeric semantics]. *)
Definition numeric_meaning (col_lower : string) : string :=
  if PyStr.contains "price" col_lower || PyStr.contains "cost" col_lower
     || PyStr.contains "amount" col_lower then
    "Monetary value"
  else if PyStr.contains "quantity" col_lower || PyStr.contains "count" col_lower
          || PyStr.contains "number" col_lower then
    "Quantity or count"
  else if PyStr.contains "discount" col_lower then
    "Discount value (possibly percentage if between 0-1 or 0-100)"
  else if PyStr.contains "total" col_lower then
    "Total calculated value"
  else if any_endswith id_patterns col_lower then
    "Identifier or foreign key"
  else "".

(** The chain under [# Boolean semantics]. *)
Definition boolean_meaning (col_lower : string) : string :=
  if PyStr.contains "is_" col_lower || PyStr.contains "has_" col_lower then
    let attribute := PyStr.replace "has_" "" (PyStr.replace "is_" "" col_lower) in
    "Indicates if the record " +:+ attribute
  else if PyStr.contains "active" col_lower || PyStr.contains "enabled" col_lower then
    "Indicates if the record is active or enabled"
  else "".

(** The chain under [# String semantics]. *)
Definition string_meaning (col_lower : string) : string :=
  if any_in status_patterns col_lower then "Status or state of the record"
  else if PyStr.contains "name" col_lower then "Name or title"
  else if PyStr.contains "description" col_lower || PyStr.contains "desc" col_lower then
    "Descriptive text"
  else if PyStr.contains "code" col_lower then "Code or identifier"
  else if PyStr.contains "address" col_lower then "Address information"
  else if PyStr.contains "email" col_lower then "Email address"
  else if PyStr.contains "phone" col_lower then "Phone number"
  else "".

(** The dispatch on the declared type: the value of [meaning] when the
    block [# If no specific meaning was inferred] is reached. *)
Definition type_meaning (data_type col_lower : string) : string :=
  if PyStr.member data_type date_types then date_meaning col_lower
  else if PyStr.member data_type numeric_types then numeric_meaning col_lower
  else if String.eqb data_type "boolean" then boolean_meaning col_lower
  else if PyStr.member data_type string_types then string_meaning col_lower
  else "".

(** The block [# If no specific meaning was inferred], entered when
    [meaning] is empty. *)
Definition fallback_meaning (col_lower : string) : string :=
  if any_endswith id_patterns col_lower then
    if String.eqb col_lower "id" || PyStr.endswith col_lower "_id" then
      let relation := PyStr.replace "_id" "" col_lower in
      if PyStr.truthy relation then "Identifier for a " +:+ relation
      else "Primary identifier"
    else ""
  else "".

Section Rules.

Context {U : PyStr.Unicode}.

(** The name- and type-based rules: everything after the comment check. *)
Definition pattern_meaning (column_name data_type : string) : string :=
  let col_lower := PyStr.lower column_name in
  let meaning := type_meaning data_type col_lower in
  if PyStr.truthy meaning then meaning else fallback_meaning col_lower.

(** [column_key = f"{table_name}.{column_name}"]. *)
Definition column_key (table_name column_name : string) : string :=
  table_name +:+ "." +:+ column_name.

Definition infer_column_semantics (db : comment_store)
    (table_name column_name data_type : string) : State analyzer string :=
  let key := column_key table_name column_name in
  self <- get_state ;;
  match column_semantics self !! key with
  | Some cached => ret cached
  | None =>
      comment <- get_comment_for_column db table_name column_name ;;
      if PyStr.truthy comment then
        modify (memoize key comment) ;;; ret comment
      else
        let meaning := pattern_meaning column_name data_type in
        modify (memoize key meaning) ;;; ret meaning
  end.

(** A sequence of calls on one analyzer object, as the snapshot build makes
    them: each call is a triple (table, column, declared type). *)
Definition call : Type := string * string * string.

Definition infer_call (db : comment_store) (c : call) : State analyzer string :=
  let '(table_name, column_name, data_type) := c in
  infer_column_semantics db table_name column_name data_type.

Definition infer_all (db : comment_store) (calls : list call)
  : State analyzer (list string) :=
  mapM (infer_call db) calls.

(** *** Notions used to state the properties of inference *)

(** The label that a call computes when the memo has no entry for the key:
    the stored comment if there is one, else the label of the pattern rules. *)
Definition computed_label (db : comment_store)
    (table_name column_name data_type : string) : string :=
  let comment :=
    match fetch_comment db table_name column_name with
    | Some descr => if PyStr.truthy descr then descr else ""
    | None => ""
    end in
  if PyStr.truthy comment then comment else pattern_meaning column_name data_type.

(** The comment queries of one call: none on a hit, the one for the call's
    table and column on a miss. *)
Definition queries_of_call (cl : call) (self : analyzer) : list (string * string) :=
  let '(t, c, _) := cl in
  match column_semantics self !! column_key t c with
  | Some _ => []
  | None => [(t, c)]
  end.

(** The number of comment queries for a table and a column in a log. *)
Definition queries_for (t c : string) (log : list (string * string)) : nat :=
  length (filter (fun q => q = (t, c)) log).

(** A run is free of dots when no table name in it contains one. *)
Definition dot_free (calls : list call) : bool :=
  forallb (fun cl : call => negb (PyStr.contains "." (fst (fst cl)))) calls.

(** Every entry of the memo is the label computed for some table without a
    dot in its name, some column and some declared type. *)
Definition memo_justified (db : comment_store) (self : analyzer) : Prop :=
  forall k v,
    column_semantics self !! k = Some v ->
    exists t c ty,
      PyStr.contains "." t = false /\ k = column_key t c /\
      v = computed_label db t c ty.

(** The comment store has no comment for the column: no row, or a row with
    an empty description. *)
Definition no_comment (db : comment_store) (t c : string) : Prop :=
  fetch_comment db t c = None \/ fetch_comment db t c = Some "".

(** The date rules as an ordered table of pattern groups and labels, and its
    evaluation: the label of the first group with a pattern that occurs in
    the name. *)
Definition date_groups : list (list string * string) :=
  [ (date_created_patterns, "Timestamp when the record was created");
    (date_updated_patterns, "Timestamp when the record was last updated");
    (date_deleted_patterns, "Timestamp when the record was deleted (for soft deletes)");
    (delivery_patterns, "Date when items were actually delivered to the customer");
    (dispatch_patterns, "Date when items were dispatched from the warehouse/facility");
    (order_patterns, "Date when the order was placed");
    (payment_patterns, "Date when payment was received");
    (["due"], "Due date or deadline");
    (["start"], "Start date of an event or period");
    (["end"], "End date of an event or period") ].

Definition first_match (groups : list (list string * string)) (col_lower : string)
  : string :=
  match find (fun g : list string * string => any_in (fst g) col_lower) groups with
  | Some g => snd g
  | None => ""
  end.

(** The identifier fallback in the words of the specification: the name is
    [id] or ends with [_id]; the suffix [_id] is stripped; the labels are in
    lower case. *)
Definition strip_suffix (suffix s : string) : string :=
  if PyStr.endswith s suffix
  then PyStr.take (String.length s - String.length suffix) s
  else s.

Definition fallback_as_specified (column_name : string) : string :=
  if String.eqb column_name "id" || PyStr.endswith column_name "_id" then
    let relation := strip_suffix "_id" column_name in
    if PyStr.truthy relation then "identifier for a " +:+ relation
    else "primary identifier"
  else "".

End Rules.

End Inference.

(** ** Regular expressions: the fragment of [re] that the source uses

    A backtracking matcher in the list-of-successes style: [matches r s]
    lists the ways [r] can match at the start of [s], in the order in which
    the backtracking engine of [re] tries them, so that the head of the list
    is the match [re] reports.  A way to match is the text left after the
    match and the text of the capturing group, if the group took part.

    The source's two patterns repeat single characters only: [.*?], any
    character under [re.DOTALL], and [\s*], white space.  The matcher works
    on the bytes of the text.  For [.] this is the same as working on the
    characters: what follows [.*?] in the source starts with an ASCII
    character, and in UTF-8 the byte of an ASCII character is never part of
    another character.  White space and letter case are those of the
    characters. *)

Module Re.

Inductive regex : Type :=
| Lit (p : string)   (* the characters of [p], in sequence *)
| Cat (r1 r2 : regex)   (* [r1 r2] *)
| Alt (r1 r2 : regex)   (* [r1|r2] *)
| Opt (r : regex)       (* [r?], greedy *)
| Spaces                (* [\s*], greedy *)
| LazyAny               (* [.*?] under [re.DOTALL] *)
| Group (r : regex).    (* [(r)], capturing *)

(** A pattern, with its leading [^] if it has one. *)
Record pattern : Type := { anchored : bool; body : regex }.

(** The characters that [re.IGNORECASE] lets an ASCII letter match besides
    its two cases: U+017F for [s], U+212A for [k], U+0130 and U+0131 for
    [i].  The text after such a character at the start of [s], for the
    pattern character [a]. *)
Definition other_case (a : ascii) (s : string) : option string :=
  let l := PyStr.ascii_lower_char a in
  if Ascii.eqb l "s" then
    if String.prefix (String "197" (String "191" EmptyString)) s
    then Some (PyStr.drop 2 s) else None
  else if Ascii.eqb l "k" then
    if String.prefix (String "226" (String "132" (String "170" EmptyString))) s
    then Some (PyStr.drop 3 s) else None
  else if Ascii.eqb l "i" then
    if String.prefix (String "196" (String "176" EmptyString)) s
       || String.prefix (String "196" (String "177" EmptyString)) s
    then Some (PyStr.drop 2 s) else None
  else None.

(** Match the ASCII character [a] of a pattern at the start of [s], under
    [re.IGNORECASE] when [ic] is set: the rest of [s]. *)
Definition char_match (ic : bool) (a : ascii) (s : string) : option string :=
  match s with
  | EmptyString => None
  | String b s' =>
      if ic then
        if Ascii.eqb (PyStr.ascii_lower_char a) (PyStr.ascii_lower_char b)
        then Some s' else other_case a s
      else if Ascii.eqb a b then Some s' else None
  end.

(** Match the literal [p] at the start of [s]: the rest of [s]. *)
Fixpoint lit_match (ic : bool) (p s : string) : option string :=
  match p with
  | EmptyString => Some s
  | String a p' =>
      match char_match ic a s with
      | Some rest => lit_match ic p' rest
      | None => None
      end
  end.

(** [\s*]: what is left after each run of white-space characters at the
    start of [s], the longest run first. *)
Fixpoint spaces_greedy (s : string) : list string :=
  match s with
  | EmptyString => [EmptyString]
  | String c1 s1 =>
      if PyStr.space1 c1 then spaces_greedy s1 ++ [s]
      else match s1 with
           | EmptyString => [s]
           | String c2 s2 =>
               if PyStr.space2 c1 c2 then spaces_greedy s2 ++ [s]
               else match s2 with
                    | EmptyString => [s]
                    | String c3 s3 =>
                        if PyStr.space3 c1 c2 c3 then spaces_greedy s3 ++ [s] else [s]
                    end
           end
  end.

(** [.*?]: what is left after each run, the shortest run first. *)
Fixpoint any_lazy (s : string) : list string :=
  match s with
  | EmptyString => [EmptyString]
  | String c s' => s :: any_lazy s'
  end.

Definition result : Type := string * option string.

Definition later_group (g2 g1 : option string) : option string :=
  match g2 with
  | Some _ => g2
  | None => g1
  end.

Fixpoint matches (ic : bool) (r : regex) (s : string) : list result :=
  match r with
  | Lit p =>
      match lit_match ic p s with
      | Some rest => [(rest, None)]
      | None => []
      end
  | Cat r1 r2 =>
      flat_map (fun m1 : result =>
                  map (fun m2 : result => (fst m2, later_group (snd m2) (snd m1)))
                      (matches ic r2 (fst m1)))
               (matches ic r1 s)
  | Alt r1 r2 => matches ic r1 s ++ matches ic r2 s
  | Opt r' => matches ic r' s ++ [(s, None)]
  | Spaces => map (fun rest => (rest, None)) (spaces_greedy s)
  | LazyAny => map (fun rest => (rest, None)) (any_lazy s)
  | Group r' =>
      map (fun m : result =>
             (fst m, Some (PyStr.take (String.length s - String.length (fst m)) s)))
          (matches ic r' s)
  end.

(** The match that [re] reports at one position. *)
Definition match_here (ic : bool) (p : pattern) (at_start : bool) (s : string)
  : option result :=
  if anchored p && negb at_start then None
  else head (matches ic (body p) s).

(** [re.findall] for a pattern with one group: the group's text for each
    match, scanning from left to right; matches do not overlap.  [skip]
    counts the characters of the last match that are still to be passed.
    After an empty match the scan moves on by one character; [re] would
    first look for a non-empty match at the same position, which makes a
    difference only for a pattern that prefers the empty match to a
    non-empty one.  The patterns of the source match no empty text. *)
Fixpoint findall_from (ic : bool) (p : pattern) (at_start : bool) (skip : nat)
    (s : string) : list string :=
  match skip with
  | S k =>
      match s with
      | EmptyString => []
      | String _ s' => findall_from ic p false k s'
      end
  | O =>
      match match_here ic p at_start s with
      | Some (rest, g) =>
          default EmptyString g ::
          match s with
          | EmptyString => []
          | String _ s' =>
              findall_from ic p false (String.length s - String.length rest - 1) s'
          end
      | None =>
          match s with
          | EmptyString => []
          | String _ s' => findall_from ic p false 0 s'
          end
      end
  end.

Definition findall (ic : bool) (p : pattern) (s : string) : list string :=
  findall_from ic p true 0 s.

(** [re.sub(p, repl, s)] for a replacement without group references. *)
Fixpoint sub_from (ic : bool) (p : pattern) (repl : string) (at_start : bool)
    (skip : nat) (s : string) : string :=
  match skip with
  | S k =>
      match s with
      | EmptyString => EmptyString
      | String _ s' => sub_from ic p repl false k s'
      end
  | O =>
      match match_here ic p at_start s with
      | Some (rest, _) =>
          repl +:+
          match s with
          | EmptyString => EmptyString
          | String c s' =>
              if String.length rest =? String.length s
              then String c (sub_from ic p repl false 0 s')
              else sub_from ic p repl false (String.length s - String.length rest - 1) s'
          end
      | None =>
          match s with
          | EmptyString => EmptyString
          | String c s' => String c (sub_from ic p repl false 0 s')
          end
      end
  end.

Definition sub (ic : bool) (p : pattern) (repl s : string) : string :=
  sub_from ic p repl true 0 s.

End Re.

(** ** SQL extraction: [extract_sql_from_response] *)

Module Extract.

Import Re.

Definition fence : string := "```".

(** [r'```(?:sql)?(.*?)```'], compiled with [re.DOTALL]. *)
Definition sql_block_pattern : pattern :=
  {| anchored := false;
     body := Cat (Lit fence)
               (Cat (Opt (Lit "sql"))
                  (Cat (Group LazyAny) (Lit fence))) |}.

(** [r'^(?:SQL query|Query|SQL):?\s*'], used with [re.IGNORECASE]. *)
Definition label_pattern : pattern :=
  {| anchored := true;
     body := Cat (Alt (Lit "SQL query") (Alt (Lit "Query") (Lit "SQL")))
               (Cat (Opt (Lit ":")) Spaces) |}.

Definition extract_sql_from_response (response : string) : string :=
  let matches := findall false sql_block_pattern response in
  let sql_query :=
    match matches with
    | first :: _ => PyStr.strip first
    | [] => PyStr.strip response
    end in
  let sql_query := sub true label_pattern "" sql_query in
  PyStr.replace "`" "" sql_query.

(** *** A direct description of the extraction, used to state its
    properties *)

(** The text before and the text after the first fence of [s]. *)
Fixpoint find_fence (s : string) : option (string * string) :=
  match s with
  | EmptyString => None
  | String c s' =>
      if String.prefix fence s then Some (EmptyString, PyStr.drop 3 s)
      else match find_fence s' with
           | Some (before, after) => Some (String c before, after)
           | None => None
           end
  end.

(** Every way to split [s] around a fence, the earliest fence first. *)
Fixpoint all_fences (s : string) : list (string * string) :=
  match s with
  | EmptyString => []
  | String c s' =>
      (if String.prefix fence s then [(EmptyString, PyStr.drop 3 s)] else []) ++
      map (fun sp : string * string => (String c (fst sp), snd sp)) (all_fences s')
  end.

(** Pass over the tag [sql] that may follow the opening fence. *)
Definition skip_tag (s : string) : string :=
  if String.prefix "sql" s then PyStr.drop 3 s else s.

(** The interior of the first fenced block: the text between the first
    fence, with its tag, and the next fence. *)
Definition first_block (response : string) : option string :=
  match find_fence response with
  | Some (_, rest) =>
      match find_fence (skip_tag rest) with
      | Some (interior, _) => Some interior
      | None => None
      end
  | None => None
  end.

(** The text after the prefix [p] of [s], when [p] is a prefix of [s] letter
    case aside, the letter case being that of [re.IGNORECASE]. *)
Definition after_iprefix (p s : string) : option string := lit_match true p s.

(** [p] is a prefix of [s], letter case aside. *)
Definition iprefix (p s : string) : bool :=
  match after_iprefix p s with
  | Some _ => true
  | None => false
  end.

Definition drop_colon (s : string) : string :=
  if String.prefix ":" s then PyStr.drop 1 s else s.

(** What follows a label: an optional colon and white space are passed. *)
Definition after_label (rest : string) : string :=
  PyStr.lstrip (drop_colon rest).

(** The label stripping of the code: the label is [SQL query], [Query] or
    [SQL] in any letter case; the colon is optional. *)
Definition strip_label (s : string) : string :=
  match after_iprefix "SQL query" s with
  | Some rest => after_label rest
  | None =>
      match after_iprefix "Query" s with
      | Some rest => after_label rest
      | None =>
          match after_iprefix "SQL" s with
          | Some rest => after_label rest
          | None => s
          end
      end
  end.

(** The label stripping in the words of the specification: the label is
    [SQL query:], [Query:] or [SQL:] in any letter case, colon included; the
    white space after it is passed, as the specification's example
    [SQL: SELECT 1;] requires. *)
Definition strip_label_as_specified (s : string) : string :=
  match after_iprefix "SQL query:" s with
  | Some rest => PyStr.lstrip rest
  | None =>
      match after_iprefix "Query:" s with
      | Some rest => PyStr.lstrip rest
      | None =>
          match after_iprefix "SQL:" s with
          | Some rest => PyStr.lstrip rest
          | None => s
          end
      end
  end.

Fixpoint remove_backticks (s : string) : string :=
  match s with
  | EmptyString => EmptyString
  | String c s' =>
      if Ascii.eqb c "`" then remove_backticks s' else String c (remove_backticks s')
  end.

(** The source of the query text: the interior of the first fenced block if
    there is one, else the whole response; trimmed. *)
Definition query_text (response : string) : string :=
  PyStr.strip (default response (first_block response)).

Definition extract_as_specified (response : string) : string :=
  remove_backticks (strip_label_as_specified (query_text response)).

End Extract.

(** ** Insertion-ordered dictionaries

    A [dict] that the source iterates: item assignment keeps the position of
    a key that is already there and appends a new key. *)

Module Dict.

Fixpoint get {V : Type} (k : string) (d : list (string * V)) : option V :=
  match d with
  | [] => None
  | (k', v) :: rest => if String.eqb k' k then Some v else get k rest
  end.

Fixpoint set {V : Type} (k : string) (v : V) (d : list (string * V))
  : list (string * V) :=
  match d with
  | [] => [(k, v)]
  | (k', v') :: rest =>
      if String.eqb k' k then (k, v) :: rest else (k', v') :: set k v rest
  end.

End Dict.

(** ** The schema snapshot: [DatabaseAnalyzer.analyze_schema] *)

Module Snapshot.

(** A column as [get_table_columns] returns it, with the key [semantics]
    that [analyze_schema] adds ([None]: the key is absent).  [c_type] is
    the [data_type] of [information_schema.columns]: the long name of the
    type, such as [timestamp without time zone] or [character varying]. *)
Record column : Type := {
  c_name : string;
  c_type : string;
  c_nullable : string;
  c_default : option string;
  c_max_length : option nat;
  c_precision : option nat;
  c_scale : option nat;
  c_semantics : option string
}.

Record foreign_key : Type := {
  fk_table : string;
  fk_column : string;
  foreign_table : string;
  foreign_column : string
}.

Record relationship : Type := {
  rel_table : string;
  rel_column : string;
  references_table : string;
  references_column : string
}.

Record table_info : Type := {
  t_columns : list column;
  t_comment : string
}.

(** *** The connection of a build

    The build runs on an open connection: the guard [if not
    self.connection] of each method finds the connection object.  psycopg2
    opens a transaction with the first statement of a connection.  The
    source never commits, never rolls back and does not set [autocommit]:
    once a statement has failed on the server, the transaction is aborted
    and the server refuses every later statement of the connection with the
    error below.  The state of a build is the analyzer object and this
    state of its transaction. *)
Inductive attempt (A : Type) : Type :=
| Done (a : A)
| Failed (e : string).
Arguments Done {A} a.
Arguments Failed {A} e.

Definition in_failed_transaction : string :=
  "current transaction is aborted, commands ignored until end of transaction block".

Record build_state : Type := {
  analyzer_of : Inference.analyzer;
  aborted : bool
}.

Definition Build (A : Type) : Type := build_state -> attempt A * build_state.

Definition bret {A : Type} (a : A) : Build A := fun st => (Done a, st).

Definition bbind {A B : Type} (m : Build A) (k : A -> Build B) : Build B :=
  fun st =>
    match m st with
    | (Done a, st') => k a st'
    | (Failed e, st') => (Failed e, st')
    end.

Declare Scope build_scope.
Delimit Scope build_scope with build.
Notation "x <- m ;; k" := (bbind m (fun x => k))
  (at level 62, m at next level, k at level 200, right associativity) : build_scope.
Notation "m ;;; k" := (bbind m (fun _ => k))
  (at level 62, k at level 200, right associativity) : build_scope.

(** [cursor.execute(...)] followed by the fetch, for a statement that the
    server answers with [answer] when it takes it: refused when the
    transaction is aborted; an error of the server aborts the transaction. *)
Definition execute {A : Type} (answer : string + A) : Build A :=
  fun st =>
    if aborted st then (Failed in_failed_transaction, st)
    else match answer with
         | inr a => (Done a, st)
         | inl e => (Failed e, {| analyzer_of := analyzer_of st; aborted := true |})
         end.

(** [try: m  except Exception: return fallback]. *)
Definition or_else {A : Type} (m : Build A) (fallback : A) : Build A :=
  fun st =>
    match m st with
    | (Failed _, st') => (Done fallback, st')
    | r => r
    end.

Section Build.

(** The type of a value in a sample row. *)
Variable value : Type.

(** A sample row: the [dict] from column name to value that
    [get_sample_data] builds. *)
Definition row : Type := list (string * value).

(** What the server answers to the statements of the build when it takes
    them, that is, when the transaction is not aborted.  The catalog
    statements read [information_schema] and [pg_catalog] and are answered;
    the statement for the sample rows of a table is answered with rows, or
    the server rejects it with an error (the table may not be read, or its
    name needs quotes).  [cat_columns] gives the columns with the
    [data_type] of [information_schema.columns]. *)
Record catalog : Type := {
  cat_tables : list string;
  cat_columns : string -> list column;
  cat_foreign_keys : list foreign_key;
  cat_primary_key_rows : list (string * string);
  cat_column_comments : Inference.comment_store;
  cat_table_comment : string -> option string;
  cat_sample_rows : string -> nat -> string + list row
}.

Record schema_info : Type := {
  tables : list (string * table_info);
  relationships : list relationship;
  primary_keys : gmap string (list string);
  sample_data : gmap string (list row);
  column_semantics : gmap string string
}.

Variable db : catalog.

Context {U : PyStr.Unicode}.

(** *** The methods on the connection *)

Definition get_tables : Build (list string) := execute (inr (cat_tables db)).

Definition get_table_columns (table_name : string) : Build (list column) :=
  execute (inr (cat_columns db table_name)).

Definition get_foreign_keys : Build (list foreign_key) :=
  execute (inr (cat_foreign_keys db)).

(** The loop of [get_primary_keys] over the rows fetched: each column is
    appended to the list of its table. *)
Definition group_primary_keys (rows : list (string * string))
  : gmap string (list string) :=
  fold_left
    (fun (primary_keys : gmap string (list string)) (r : string * string) =>
       let (table_name, column_name) := r in
       <[table_name := default [] (primary_keys !! table_name) ++ [column_name]]>
         primary_keys)
    rows ∅.

(** [get_primary_keys]: the rows come ordered by table and position. *)
Definition get_primary_keys : Build (gmap string (list string)) :=
  (rows <- execute (inr (cat_primary_key_rows db)) ;;
   bret (group_primary_keys rows))%build.

(** [return result[0] if result and result[0] else ""]. *)
Definition comment_text (result : option string) : string :=
  match result with
  | Some descr => if PyStr.truthy descr then descr else ""
  | None => ""
  end.

(** [get_comment_for_table]. *)
Definition get_comment_for_table (table_name : string) : Build string :=
  (result <- execute (inr (cat_table_comment db table_name)) ;;
   bret (comment_text result))%build.

(** [infer_column_semantics] on the connection.  A key of the memo is
    answered without a statement.  Otherwise the comment query is sent: when
    the transaction is aborted it is refused and the exception leaves the
    method; when not, the method is the one of the module [Inference] on the
    comments of the catalog. *)
Definition infer_column_semantics (table_name column_name data_type : string)
  : Build string :=
  fun st =>
    let self := analyzer_of st in
    match Inference.column_semantics self
            !! Inference.column_key table_name column_name with
    | Some cached => (Done cached, st)
    | None =>
        if aborted st then
          (Failed in_failed_transaction,
           {| analyzer_of := Inference.log_query table_name column_name self;
              aborted := true |})
        else
          let (meaning, self') :=
            Inference.infer_column_semantics (cat_column_comments db)
              table_name column_name data_type self in
          (Done meaning, {| analyzer_of := self'; aborted := false |})
    end.

(** [get_sample_data]: the [except] clause turns the failure of the
    statement into [[]]; nothing is rolled back. *)
Definition get_sample_data (table_name : string) (limit : nat) : Build (list row) :=
  or_else (execute (cat_sample_rows db table_name limit)) [].

Definition with_semantics (c : column) (s : string) : column :=
  {| c_name := c_name c; c_type := c_type c; c_nullable := c_nullable c;
     c_default := c_default c; c_max_length := c_max_length c;
     c_precision := c_precision c; c_scale := c_scale c; c_semantics := Some s |}.

(** The state of the loops of [analyze_schema]: the [schema_info] under
    construction. *)
Definition set_table (table_name : string) (info : table_info) (si : schema_info)
  : schema_info :=
  {| tables := Dict.set table_name info (tables si);
     relationships := relationships si;
     primary_keys := primary_keys si;
     sample_data := sample_data si;
     column_semantics := column_semantics si |}.

Definition set_sample (table_name : string) (rows : list row) (si : schema_info)
  : schema_info :=
  {| tables := tables si;
     relationships := relationships si;
     primary_keys := primary_keys si;
     sample_data := <[table_name := rows]> (sample_data si);
     column_semantics := column_semantics si |}.

Definition set_semantics (key meaning : string) (si : schema_info) : schema_info :=
  {| tables := tables si;
     relationships := relationships si;
     primary_keys := primary_keys si;
     sample_data := sample_data si;
     column_semantics := <[key := meaning]> (column_semantics si) |}.

Definition add_relationship (fk : foreign_key) (si : schema_info) : schema_info :=
  {| tables := tables si;
     relationships :=
       relationships si ++
       [{| rel_table := fk_table fk; rel_column := fk_column fk;
           references_table := foreign_table fk;
           references_column := foreign_column fk |}];
     primary_keys := primary_keys si;
     sample_data := sample_data si;
     column_semantics := column_semantics si |}.

(** The body of [for column in columns]: the processed column and the
    snapshot with the column's label recorded when the label is not empty. *)
Definition column_step (table_name : string) (si : schema_info) (c : column)
  : Build (column * schema_info) :=
  (semantics <- infer_column_semantics table_name (c_name c) (c_type c) ;;
   if PyStr.truthy semantics
   then bret (with_semantics c semantics,
              set_semantics (Inference.column_key table_name (c_name c)) semantics si)
   else bret (c, si))%build.

Fixpoint columns_loop (table_name : string) (si : schema_info) (cs : list column)
  : Build (list column * schema_info) :=
  match cs with
  | [] => bret ([], si)
  | c :: rest =>
      (r <- column_step table_name si c ;;
       rs <- columns_loop table_name (snd r) rest ;;
       bret (fst r :: fst rs, snd rs))%build
  end.

(** The body of [for table in tables]. *)
Definition table_step (si : schema_info) (table : string) : Build schema_info :=
  (columns <- get_table_columns table ;;
   table_comment <- get_comment_for_table table ;;
   r <- columns_loop table si columns ;;
   let si := set_table table
               {| t_columns := fst r;
                  t_comment := if PyStr.truthy table_comment then table_comment else "" |}
               (snd r) in
   sample_data <- get_sample_data table 3 ;;
   match sample_data with
   | [] => bret si
   | _ :: _ => bret (set_sample table sample_data si)
   end)%build.

Fixpoint tables_loop (si : schema_info) (ts : list string) : Build schema_info :=
  match ts with
  | [] => bret si
  | table :: rest => (si' <- table_step si table ;; tables_loop si' rest)%build
  end.

Definition set_memo (m : gmap string string) (self : Inference.analyzer)
  : Inference.analyzer :=
  {| Inference.column_semantics := m;
     Inference.comment_queries := Inference.comment_queries self |}.

(** [self.column_semantics = schema_info["column_semantics"]]. *)
Definition rebind_memo (m : gmap string string) : Build unit :=
  fun st =>
    (Done tt, {| analyzer_of := set_memo m (analyzer_of st); aborted := aborted st |}).

(** [analyze_schema]: the returned [schema_info]; the memo of the analyzer
    is replaced by the snapshot's [column_semantics] at the end. *)
Definition analyze_schema : Build schema_info :=
  (tables <- get_tables ;;
   foreign_keys <- get_foreign_keys ;;
   primary_keys <- get_primary_keys ;;
   let schema_info :=
     {| tables := []; relationships := []; primary_keys := primary_keys;
        sample_data := ∅; column_semantics := ∅ |} in
   si <- tables_loop schema_info tables ;;
   let si := fold_left (fun si fk => add_relationship fk si) foreign_keys si in
   rebind_memo (column_semantics si) ;;;
   bret si)%build.

(** *** The snapshot that the answers determine

    The same build read off the answers of the catalog alone, as a
    computation on the analyzer object: what [analyze_schema] returns when
    no statement is refused. *)
Definition sample_of (table_name : string) (limit : nat) : list row :=
  match cat_sample_rows db table_name limit with
  | inr results => results
  | inl _ => []
  end.

Definition process_column (table_name : string) (si : schema_info) (c : column)
  : State Inference.analyzer (column * schema_info) :=
  semantics <- Inference.infer_column_semantics (cat_column_comments db)
                 table_name (c_name c) (c_type c) ;;
  if PyStr.truthy semantics
  then ret (with_semantics c semantics,
            set_semantics (Inference.column_key table_name (c_name c)) semantics si)
  else ret (c, si).

Fixpoint process_columns (table_name : string) (si : schema_info) (cs : list column)
  : State Inference.analyzer (list column * schema_info) :=
  match cs with
  | [] => ret ([], si)
  | c :: rest =>
      r <- process_column table_name si c ;;
      rs <- process_columns table_name (snd r) rest ;;
      ret (fst r :: fst rs, snd rs)
  end.

Definition process_table (si : schema_info) (table : string)
  : State Inference.analyzer schema_info :=
  let columns := cat_columns db table in
  let table_comment := comment_text (cat_table_comment db table) in
  r <- process_columns table si columns ;;
  let si := set_table table
              {| t_columns := fst r;
                 t_comment := if PyStr.truthy table_comment then table_comment else "" |}
              (snd r) in
  let sample_data := sample_of table 3 in
  match sample_data with
  | [] => ret si
  | _ :: _ => ret (set_sample table sample_data si)
  end.

Fixpoint process_tables (si : schema_info) (ts : list string)
  : State Inference.analyzer schema_info :=
  match ts with
  | [] => ret si
  | table :: rest => si' <- process_table si table ;; process_tables si' rest
  end.

Definition snapshot_of_answers : State Inference.analyzer schema_info :=
  let schema_info :=
    {| tables := []; relationships := [];
       primary_keys := group_primary_keys (cat_primary_key_rows db);
       sample_data := ∅; column_semantics := ∅ |} in
  si <- process_tables schema_info (cat_tables db) ;;
  let si := fold_left (fun si fk => add_relationship fk si) (cat_foreign_keys db) si in
  modify (set_memo (column_semantics si)) ;;;
  ret si.

(** The statement for the sample rows of the table fails. *)
Definition sample_fails (table : string) : bool :=
  match cat_sample_rows db table 3 with
  | inl _ => true
  | inr _ => false
  end.

(** The statements for sample rows are answered for every table of the list
    but possibly the last. *)
Fixpoint samples_answered (ts : list string) : bool :=
  match ts with
  | [] => true
  | [_] => true
  | table :: rest => negb (sample_fails table) && samples_answered rest
  end.

(** Whether the transaction is aborted when the loop over the tables ends:
    the statement for the sample rows of the last table fails. *)
Fixpoint ends_aborted (ts : list string) : bool :=
  match ts with
  | [] => false
  | [table] => sample_fails table
  | _ :: rest => ends_aborted rest
  end.

(** *** Notions used to state the properties of the build *)

(** The analyzer on a transaction that takes statements, and on one that is
    aborted. *)
Definition running (self : Inference.analyzer) : build_state :=
  {| analyzer_of := self; aborted := false |}.

Definition refusing (self : Inference.analyzer) : build_state :=
  {| analyzer_of := self; aborted := true |}.

(** A processed column is the catalog's column, with a label or without. *)
Definition same_column (processed original : column) : Prop :=
  processed = original \/ exists s, processed = with_semantics original s.

(** The table is in the snapshot with the columns and the comment that the
    catalog has for it. *)
Definition table_analyzed (si : schema_info) (table : string) : Prop :=
  exists info,
    Dict.get table (tables si) = Some info /\
    Forall2 same_column (t_columns info) (cat_columns db table) /\
    t_comment info = comment_text (cat_table_comment db table).

(** The sample that the snapshot must hold for a table: the rows fetched,
    when the fetch succeeds with at least one row. *)
Definition expected_sample (table : string) : option (list row) :=
  match cat_sample_rows db table 3 with
  | inr (r :: rows) => Some (r :: rows)
  | inr [] => None
  | inl _ => None
  end.

(** What the snapshot under construction holds for the sample of a table:
    nothing, or the expected sample. *)
Definition sample_sound (si : schema_info) : Prop :=
  forall t, sample_data si !! t = None \/ sample_data si !! t = expected_sample t.

(** The table has been processed: it is analyzed and its sample is the
    expected one. *)
Definition table_done (si : schema_info) (t : string) : Prop :=
  table_analyzed si t /\ sample_data si !! t = expected_sample t.

End Build.

Arguments cat_tables {value} _.
Arguments cat_columns {value} _ _.
Arguments cat_foreign_keys {value} _.
Arguments cat_primary_key_rows {value} _.
Arguments cat_column_comments {value} _.
Arguments cat_table_comment {value} _ _.
Arguments cat_sample_rows {value} _ _ _.
Arguments tables {value} _.
Arguments relationships {value} _.
Arguments primary_keys {value} _.
Arguments sample_data {value} _.
Arguments column_semantics {value} _.

End Snapshot.

(** ** The two renderers: [generate_schema_description] and
    [generate_schema_for_llm] *)

Module Render.

Import Snapshot.

Definition nl : string := String "010" EmptyString.

(** The arrow of the model brief (U+2192), as its three bytes in UTF-8. *)
Definition arrow : string :=
  String "226" (String "134" (String "146" EmptyString)).

Definition fence_line : string := "```" +:+ nl.

(** [d.get(key, "")] on the label map. *)
Definition get_semantic (m : gmap string string) (key : string) : string :=
  default "" (m !! key).

(** [f"{a}.{b}"]. *)
Definition dotted (a b : string) : string := a +:+ "." +:+ b.

(** The text after [(Connects ] that both renderers build, up to and
    including the closing parenthesis. *)
Definition connective (fk_semantic pk_semantic references_table : string) : string :=
  (if PyStr.truthy fk_semantic then fk_semantic +:+ " " else "") +:+
  "to " +:+
  (if PyStr.truthy pk_semantic then pk_semantic else references_table) +:+
  ")".

Section Renderers.

Variable value : Type.

(** [str(v)] of a sample value and [str(row)] of a sample row. *)
Variable str_value : value -> string.
Variable str_row : row value -> string.

Abbreviation schema_info := (schema_info value).

(** *** The human description *)

Definition describe_column (c : column) : string :=
  let nullable := if String.eqb (c_nullable c) "YES" then "NULL" else "NOT NULL" in
  let default_text :=
    match c_default c with
    | Some d => if PyStr.truthy d then ", DEFAULT: " +:+ d else ""
    | None => ""
    end in
  "  - " +:+ c_name c +:+ " (" +:+ c_type c +:+ ", " +:+ nullable +:+ default_text +:+ ")" +:+
  match c_semantics c with
  | Some s => if PyStr.truthy s then " - " +:+ s else ""
  | None => ""
  end +:+
  nl.

(** [for i, row in enumerate(rows[:2])], from index [i]. *)
Fixpoint describe_rows (i : nat) (rows : list (row value)) : string :=
  match rows with
  | [] => ""
  | r :: rest =>
      "  Row " +:+ pretty (i + 1) +:+ ": " +:+ str_row r +:+ nl +:+
      describe_rows (i + 1) rest
  end.

Definition describe_table (si : schema_info) (t : string * table_info) : string :=
  let (table_name, table_info) := t in
  "Table: " +:+ table_name +:+
  (if PyStr.truthy (t_comment table_info) then " - " +:+ t_comment table_info else "") +:+
  nl +:+
  "Columns:" +:+ nl +:+
  String.concat "" (map describe_column (t_columns table_info)) +:+
  match primary_keys si !! table_name with
  | Some pk_columns => "  Primary Key: " +:+ PyStr.join ", " pk_columns +:+ nl
  | None => ""
  end +:+
  match sample_data si !! table_name with
  | Some rows => "Sample data:" +:+ nl +:+ describe_rows 0 (firstn 2 rows)
  | None => ""
  end +:+
  nl.

Definition describe_relationship (si : schema_info) (rel : relationship) : string :=
  "  - " +:+ dotted (rel_table rel) (rel_column rel) +:+ " references " +:+
  dotted (references_table rel) (references_column rel) +:+ nl +:+
  let fk_semantic :=
    get_semantic (column_semantics si) (dotted (rel_table rel) (rel_column rel)) in
  let pk_semantic :=
    get_semantic (column_semantics si)
      (dotted (references_table rel) (references_column rel)) in
  if PyStr.truthy fk_semantic || PyStr.truthy pk_semantic
  then "    (Connects " +:+ connective fk_semantic pk_semantic (references_table rel) +:+ nl
  else "".

Definition generate_schema_description (si : schema_info) : string :=
  "Database Schema:" +:+ nl +:+ nl +:+
  String.concat "" (map (describe_table si) (tables si)) +:+
  match relationships si with
  | [] => ""
  | _ :: _ =>
      "Relationships:" +:+ nl +:+
      String.concat "" (map (describe_relationship si) (relationships si))
  end.

(** *** The model brief *)

Definition guidance : string :=
"
When interpreting column names and generating SQL queries, please note:
- Date columns with different names usually have specific meanings (e.g., order_date vs. delivery_date vs. dispatch_date)
- Primary keys are used to uniquely identify records
- Foreign keys represent relationships between tables
- Column semantics describe the intended meaning and use of each column
- Respect data types when comparing or filtering values
- Use appropriate joins based on the relationships defined below

".

Definition brief_column (pk_columns : list string) (c : column) : string :=
  let nullable := if String.eqb (c_nullable c) "YES" then "YES" else "NO" in
  let default_text := match c_default c with Some d => d | None => "None" end in
  let is_pk := if PyStr.member (c_name c) pk_columns then "YES" else "NO" in
  let semantics := default "" (c_semantics c) in
  "| " +:+ c_name c +:+ " | " +:+ c_type c +:+ " | " +:+ nullable +:+ " | " +:+
  default_text +:+ " | " +:+ is_pk +:+ " | " +:+ semantics +:+ " |" +:+ nl.

(** [", ".join(str(row[k]) for k in keys)]; the rows of one sample have the
    keys of its first row. *)
Definition brief_row (keys : list string) (r : row value) : string :=
  PyStr.join ", "
    (map (fun k => match Dict.get k r with
                   | Some v => str_value v
                   | None => ""
                   end) keys) +:+ nl.

Definition brief_sample (rows : list (row value)) : string :=
  match rows with
  | [] => ""
  | first :: _ =>
      nl +:+ "Sample data:" +:+ nl +:+ fence_line +:+
      (let keys := map fst first in
       PyStr.join ", " keys +:+ nl +:+
       String.concat "" (map (brief_row keys) (firstn 2 rows))) +:+
      fence_line
  end.

Definition brief_table (si : schema_info) (t : string * table_info) : string :=
  let (table_name, table_info) := t in
  "## Table: " +:+ table_name +:+
  (if PyStr.truthy (t_comment table_info) then " - " +:+ t_comment table_info else "") +:+
  nl +:+ nl +:+
  "| Column Name | Data Type | Nullable | Default | Primary Key | Meaning |" +:+ nl +:+
  "|------------|-----------|----------|---------|-------------|--------|" +:+ nl +:+
  (let pk_columns := default [] (primary_keys si !! table_name) in
   String.concat "" (map (brief_column pk_columns) (t_columns table_info))) +:+
  match sample_data si !! table_name with
  | Some rows => brief_sample rows
  | None => ""
  end +:+
  nl.

Definition brief_relationship (si : schema_info) (rel : relationship) : string :=
  "- " +:+ dotted (rel_table rel) (rel_column rel) +:+ " " +:+ arrow +:+ " " +:+
  dotted (references_table rel) (references_column rel) +:+
  (let fk_semantic :=
     get_semantic (column_semantics si) (dotted (rel_table rel) (rel_column rel)) in
   let pk_semantic :=
     get_semantic (column_semantics si)
       (dotted (references_table rel) (references_column rel)) in
   if PyStr.truthy fk_semantic || PyStr.truthy pk_semantic
   then " (Connects " +:+ connective fk_semantic pk_semantic (references_table rel)
   else "") +:+
  nl.

(** The [date_columns] dictionary: the date/time columns that have a label,
    in the order of the tables and of their columns. *)
Definition date_columns_of_table (t : string * table_info)
    (date_columns : list (string * string)) : list (string * string) :=
  let (table, table_info) := t in
  fold_left
    (fun date_columns c =>
       if PyStr.member (c_type c) Inference.date_types then
         let semantic := default "" (c_semantics c) in
         if PyStr.truthy semantic
         then Dict.set (dotted table (c_name c)) semantic date_columns
         else date_columns
       else date_columns)
    (t_columns table_info) date_columns.

Definition date_columns (si : schema_info) : list (string * string) :=
  fold_left (fun acc t => date_columns_of_table t acc) (tables si) [].

Definition brief_date_reference (si : schema_info) : string :=
  match date_columns si with
  | [] => ""
  | _ :: _ =>
      nl +:+ "## Date/Time Column Reference" +:+ nl +:+ nl +:+
      "| Column | Meaning |" +:+ nl +:+
      "|--------|--------|" +:+ nl +:+
      String.concat ""
        (map (fun e : string * string =>
                "| " +:+ fst e +:+ " | " +:+ snd e +:+ " |" +:+ nl)
           (date_columns si))
  end.

Definition generate_schema_for_llm (si : schema_info) : string :=
  "# Database Schema" +:+ nl +:+ nl +:+
  guidance +:+
  String.concat "" (map (brief_table si) (tables si)) +:+
  match relationships si with
  | [] => ""
  | _ :: _ =>
      "## Relationships" +:+ nl +:+ nl +:+
      String.concat "" (map (brief_relationship si) (relationships si))
  end +:+
  brief_date_reference si.

End Renderers.

End Render.

(** ** The question flow of the two user interfaces

    One run of the script from the block [# Process the question when
    submitted] to the end of the manual query block.  Streamlit runs the
    script again from the top at each interaction of the user; the session
    state, the analyzer and its connection pass from a run to the next.  The
    values that the widgets return in the run (the text areas, and the
    button whose click started the run) are inputs of the run; the driver,
    the language model and the clock are collaborators whose answers are
    inputs too.  Every call to a collaborator and every message shown to the
    user is appended to a trace, which passes from a run to the next with
    the session. *)

Module Session.

(** A result row: the [dict] from column name to value (as text). *)
Definition row : Type := list (string * string).

(** A connection object of the driver. *)
Definition conn : Type := nat.

Record history_entry : Type := {
  h_question : string;
  h_sql_query : string;
  h_results_count : nat;
  h_explanation : string;
  h_timestamp : string
}.

Inductive event : Type :=
| DbConnect                                (* [psycopg2.connect] *)
| DbPing (c : conn)                        (* a liveness check on [c] *)
| DbExecute (c : conn) (query : string)    (* [cursor.execute(query)] on [c] *)
| LlmGenerate (question : string)          (* the prompt that asks for SQL *)
| LlmExplain (question sql_query : string) (error : option string)
| UiError (msg : string)                   (* [st.error] *)
| UiWarning (msg : string)                 (* [st.warning] *)
| UiInfo (msg : string)                    (* [st.info] *)
| UiSuccess (msg : string)                 (* [st.success] *)
| UiCode (sql_query : string)              (* [st.code] *)
| UiText (text : string)                   (* [st.text] *)
| UiWrite (text : string)                  (* [st.write] *)
| UiResults (rows : nat).                  (* [st.dataframe] and the download *)

(** The collaborators.  What the driver answers depends on what has
    happened before: the server keeps the data and the transaction of each
    connection, which a failed statement aborts until a rollback that the
    source never issues.  The answers of the driver are therefore functions
    of the trace at the moment of the call.  [drv_cursor tr c] is the error
    of [connection.cursor()] if it raises; [drv_execute tr c q] is the
    outcome of the [try] body of [execute_query]; [drv_alive tr c] tells
    whether [c] still reaches the server. *)
Record collaborators : Type := {
  drv_connect : list event -> string + conn;
  drv_cursor : list event -> conn -> option string;
  drv_execute : list event -> conn -> string -> string + (list row * list string);
  drv_alive : list event -> conn -> bool;
  llm_generate : string -> string -> string + string;
  llm_explain : string -> string -> list row -> option string -> string + string;
  clock : string
}.

(** [st.session_state], the analyzer's connection, and the trace. *)
Record world : Type := {
  connected : bool;
  llm_initialized : bool;
  schema_for_llm : string;
  query_history : list history_entry;
  connection : option conn;
  trace : list event
}.

(** How a block of the script ends: normally, with an [Exception], or with
    [st.stop()], which no [except Exception] clause catches. *)
Inductive outcome (A : Type) : Type :=
| Return (a : A)
| Raise (e : string)
| Stopped.
Arguments Return {A} a.
Arguments Raise {A} e.
Arguments Stopped {A}.

Definition Flow (A : Type) : Type := world -> outcome A * world.

Definition fret {A : Type} (a : A) : Flow A := fun w => (Return a, w).

Definition fbind {A B : Type} (m : Flow A) (k : A -> Flow B) : Flow B :=
  fun w =>
    match m w with
    | (Return a, w') => k a w'
    | (Raise e, w') => (Raise e, w')
    | (Stopped, w') => (Stopped, w')
    end.

Definition raise {A : Type} (e : string) : Flow A := fun w => (Raise e, w).

(** [st.stop()]. *)
Definition stop {A : Type} : Flow A := fun w => (Stopped, w).

(** [try: m  except Exception as e: handler e]. *)
Definition try_except {A : Type} (m : Flow A) (handler : string -> Flow A) : Flow A :=
  fun w =>
    match m w with
    | (Raise e, w') => handler e w'
    | r => r
    end.

Definition get_world : Flow world := fun w => (Return w, w).

(** The world with more events on its trace. *)
Definition record (events : list event) (w : world) : world :=
  {| connected := connected w; llm_initialized := llm_initialized w;
     schema_for_llm := schema_for_llm w;
     query_history := query_history w; connection := connection w;
     trace := trace w ++ events |}.

(** The world with one more entry in the history. *)
Definition with_entry (entry : history_entry) (w : world) : world :=
  {| connected := connected w; llm_initialized := llm_initialized w;
     schema_for_llm := schema_for_llm w;
     query_history := query_history w ++ [entry]; connection := connection w;
     trace := trace w |}.

Definition emit (e : event) : Flow unit := fun w => (Return tt, record [e] w).

Definition set_connection (c : conn) : Flow unit :=
  fun w =>
    (Return tt,
     {| connected := connected w; llm_initialized := llm_initialized w;
        schema_for_llm := schema_for_llm w;
        query_history := query_history w; connection := Some c;
        trace := trace w |}).

(** [st.session_state['query_history'].append(entry)]. *)
Definition append_history (entry : history_entry) : Flow unit :=
  fun w => (Return tt, with_entry entry w).

Declare Scope flow_scope.
Delimit Scope flow_scope with flow.
Notation "x <- m ;; k" := (fbind m (fun x => k))
  (at level 62, m at next level, k at level 200, right associativity) : flow_scope.
Notation "m ;;; k" := (fbind m (fun _ => k))
  (at level 62, k at level 200, right associativity) : flow_scope.
Local Open Scope flow_scope.

(** Lift an answer of a collaborator: an error is raised. *)
Definition answer {A : Type} (r : string + A) : Flow A :=
  match r with
  | inr a => fret a
  | inl e => raise e
  end.

(** [if cond: body]. *)
Definition when (cond : bool) (body : Flow unit) : Flow unit :=
  if cond then body else fret tt.

(** *** Notions used to state the properties of the flows *)

(** The queries sent to the database in a trace, in order. *)
Definition executed_queries (tr : list event) : list string :=
  flat_map (fun e => match e with DbExecute _ query => [query] | _ => [] end) tr.

Definition is_liveness_check (e : event) : bool :=
  match e with
  | DbPing _ => true
  | _ => false
  end.

Definition is_connect (e : event) : bool :=
  match e with
  | DbConnect => true
  | _ => false
  end.

(** A block never checks that the connection is live: whatever the world,
    it only adds events to the trace, and none of them is a liveness
    check. *)
Definition never_checks_liveness {A : Type} (m : Flow A) : Prop :=
  forall w, exists added,
    trace (snd (m w)) = trace w ++ added /\
    forallb (fun e => negb (is_liveness_check e)) added = true.

(** On world [w], the first event that a block adds to the trace is [e]. *)
Definition starts_with {A : Type} (e : event) (m : Flow A) (w : world) : Prop :=
  exists rest, trace (snd (m w)) = trace w ++ e :: rest.

Section Methods.

Variable env : collaborators.

(** [DatabaseAnalyzer.connect]. *)
Definition connect : Flow (bool * string) :=
  w <- get_world ;;
  emit DbConnect ;;;
  match drv_connect env (trace w) with
  | inr c =>
      set_connection c ;;;
      fret (true, "Connected to PostgreSQL database successfully!")
  | inl e => fret (false, "Error connecting to PostgreSQL database: " +:+ e)
  end.

(** [DatabaseAnalyzer.execute_query] of [pg-query/streamlit.py]. *)
Definition execute_query (query : string) : Flow (list row * list string) :=
  w <- get_world ;;
  match connection w with
  | None => _ <- connect ;; fret tt
  | Some _ => fret tt
  end ;;;
  w <- get_world ;;
  match connection w with
  | None => raise "'NoneType' object has no attribute 'cursor'"
  | Some c =>
      match drv_cursor env (trace w) c with
      | Some e => raise e
      | None =>
          emit (DbExecute c query) ;;;
          match drv_execute env (trace w) c query with
          | inr r => fret r
          | inl e => raise ("Error executing query: " +:+ e)
          end
      end
  end.

(** [LlamaInterface.get_llama_response] on the prompt that asks for SQL. *)
Definition generate_response (question : string) : Flow string :=
  w <- get_world ;;
  emit (LlmGenerate question) ;;;
  answer (llm_generate env (schema_for_llm w) question).

(** [if error:] in [explain_results]: an empty error text selects the prompt
    for results, as no error does. *)
Definition effective_error (error : option string) : option string :=
  match error with
  | Some e => if PyStr.truthy e then Some e else None
  | None => None
  end.

(** [LlamaInterface.explain_results]. *)
Definition explain_results (question sql_query : string) (results : list row)
    (error : option string) : Flow string :=
  let error := effective_error error in
  emit (LlmExplain question sql_query error) ;;;
  explanation <- answer (llm_explain env question sql_query results error) ;;
  fret (PyStr.strip explanation).

Definition timestamp : string := clock env.

End Methods.

(** The buttons of the blocks.  A click on a button makes Streamlit run the
    script again from the top; in that run [st.button] returns [True] for
    the button clicked and [False] for every other button. *)
Inductive button : Type :=
| GenerateSql
| ExecuteFixedQuery
| ExecuteManualQuery.

Definition button_eqb (a b : button) : bool :=
  match a, b with
  | GenerateSql, GenerateSql => true
  | ExecuteFixedQuery, ExecuteFixedQuery => true
  | ExecuteManualQuery, ExecuteManualQuery => true
  | _, _ => false
  end.

(** The values that the widgets return in one run: the contents of the text
    areas and the button that started the run, if a button did.
    [fixed_query] is the content of the text area [Edit the SQL query to fix
    the error:], whose initial value is the failing query. *)
Record widgets : Type := {
  question : string;
  clicked : option button;
  fixed_query : string -> string;
  manual_query : string
}.

(** [st.button(label)] in the run. *)
Definition pressed (b : button) (wd : widgets) : bool :=
  match clicked wd with
  | Some b' => button_eqb b b'
  | None => false
  end.

Definition submit_button : widgets -> bool := pressed GenerateSql.
Definition execute_fixed_button : widgets -> bool := pressed ExecuteFixedQuery.
Definition execute_manual_button : widgets -> bool := pressed ExecuteManualQuery.

Definition nonempty {A : Type} (l : list A) : bool :=
  match l with
  | [] => false
  | _ :: _ => true
  end.

(** *** [main] of [pg-query/streamlit.py] *)

Module Main.

Section Run.

Variable env : collaborators.
Variable wd : widgets.

(** The [try] body of the fixed query. *)
Definition run_fixed_query (fixed : string) : Flow unit :=
  r <- execute_query env fixed ;;
  let (results, columns) := r in
  emit (UiSuccess "Query executed successfully!") ;;;
  (if nonempty results && nonempty columns
   then emit (UiResults (length results))
   else emit (UiInfo "Query executed successfully but returned no results.")) ;;;
  append_history
    {| h_question := "FIXED: " +:+ question wd;
       h_sql_query := fixed;
       h_results_count := length results;
       h_explanation := "Manually fixed query";
       h_timestamp := timestamp env |}.

(** The [except] clause of the generated query. *)
Definition on_query_error (sql_query e : string) : Flow unit :=
  emit (UiError ("Error executing the query: " +:+ e)) ;;;
  error_explanation <- explain_results env (question wd) sql_query [] (Some e) ;;
  emit (UiWrite error_explanation) ;;;
  let fixed := fixed_query wd sql_query in
  when (execute_fixed_button wd)
    (try_except (run_fixed_query fixed)
       (fun e => emit (UiError ("Error executing fixed query: " +:+ e)))).

(** The [try] body of the generated query. *)
Definition run_generated_query (sql_query : string) : Flow unit :=
  r <- execute_query env sql_query ;;
  let (results, columns) := r in
  explanation <- explain_results env (question wd) sql_query results None ;;
  emit (UiWrite explanation) ;;;
  when (nonempty results && nonempty columns) (emit (UiResults (length results))) ;;;
  append_history
    {| h_question := question wd;
       h_sql_query := sql_query;
       h_results_count := length results;
       h_explanation := explanation;
       h_timestamp := timestamp env |}.

(** The block [# Process the question when submitted]. *)
Definition process_question : Flow unit :=
  w <- get_world ;;
  when (submit_button wd && PyStr.truthy (question wd))
    (if negb (connected w) || negb (llm_initialized w) then
       emit (UiError "Please make sure the LLM Runtime interface is initialized and you're connected to a database.")
     else
       try_except
         (raw_response <- generate_response env (question wd) ;;
          emit (UiText raw_response) ;;;
          let sql_query := Extract.extract_sql_from_response raw_response in
          emit (UiCode sql_query) ;;;
          try_except (run_generated_query sql_query) (on_query_error sql_query))
         (fun e => emit (UiError ("Error generating SQL: " +:+ e)))).

(** The block [# Option to manually edit and execute a query]. *)
Definition manual_block : Flow unit :=
  w <- get_world ;;
  if connected w then
    when (execute_manual_button wd)
      (if negb (PyStr.truthy (manual_query wd)) then
         emit (UiError "Please enter a SQL query.")
       else
         try_except
           (r <- execute_query env (manual_query wd) ;;
            let (results, columns) := r in
            emit (UiSuccess "Query executed successfully!") ;;;
            (if nonempty results && nonempty columns
             then emit (UiResults (length results))
             else emit (UiInfo "Query executed successfully but returned no results.")) ;;;
            append_history
              {| h_question := "MANUAL QUERY";
                 h_sql_query := manual_query wd;
                 h_results_count := length results;
                 h_explanation := "Manually entered query";
                 h_timestamp := timestamp env |})
           (fun e => emit (UiError ("Error executing the query: " +:+ e))))
  else emit (UiInfo "Connect to a database to manually execute SQL queries.").

Definition main : Flow unit := process_question ;;; manual_block.

End Run.

End Main.

(** *** [main] of [pg-query/ui/streamlit.py]

    The analyzer and the language model interface of this script come from
    modules that are not among the sources.  [connect] and [execute_query]
    are taken to be the methods of the class above, and SQL extraction to be
    the function above. *)

Module UiMain.

Section Run.

Variable env : collaborators.
Variable wd : widgets.

(** Modelled from the spec: [DatabaseAnalyzer.check_connection_health] of
    the module [database_analyzer] is missing; the spec has the core verify
    that the connection is live before a query is executed.  A connection
    that is absent is not live; one that is present is asked. *)
Definition check_connection_health : Flow bool :=
  w <- get_world ;;
  match connection w with
  | None => fret false
  | Some c => emit (DbPing c) ;;; fret (drv_alive env (trace w) c)
  end.

(** The health check and the single reconnection before a query. *)
Definition ensure_connection : Flow unit :=
  healthy <- check_connection_health ;;
  when (negb healthy)
    (emit (UiWarning "Database connection issue detected. Attempting to reconnect...") ;;;
     r <- connect env ;;
     let (success, message) := r in
     when (negb success)
       (emit (UiError ("Could not reconnect to database: " +:+ message)) ;;;
        emit (UiInfo "Please wait a moment and try again.") ;;;
        stop)).

(** [get_llama_response] on the two explanation prompts. *)
Definition explain (question sql_query : string) (results : list row)
    (error : option string) : Flow string :=
  emit (LlmExplain question sql_query error) ;;;
  answer (llm_explain env question sql_query results error).

Definition run_fixed_query (fixed : string) : Flow unit :=
  ensure_connection ;;;
  r <- execute_query env fixed ;;
  let (results, columns) := r in
  emit (UiSuccess "Query executed successfully!") ;;;
  (if nonempty results && nonempty columns
   then emit (UiResults (length results))
   else emit (UiInfo "Query executed successfully but returned no results.")) ;;;
  append_history
    {| h_question := "FIXED: " +:+ question wd;
       h_sql_query := fixed;
       h_results_count := length results;
       h_explanation := "Manually fixed query";
       h_timestamp := timestamp env |}.

Definition on_query_error (sql_query e : string) : Flow unit :=
  emit (UiError ("Error executing the query: " +:+ e)) ;;;
  error_explanation <- explain (question wd) sql_query [] (Some e) ;;
  emit (UiWrite error_explanation) ;;;
  let fixed := fixed_query wd sql_query in
  when (execute_fixed_button wd)
    (try_except (run_fixed_query fixed)
       (fun e => emit (UiError ("Error executing fixed query: " +:+ e)))).

Definition run_generated_query (sql_query : string) : Flow unit :=
  ensure_connection ;;;
  r <- execute_query env sql_query ;;
  let (results, columns) := r in
  explanation <- explain (question wd) sql_query results None ;;
  emit (UiWrite explanation) ;;;
  when (nonempty results && nonempty columns) (emit (UiResults (length results))) ;;;
  append_history
    {| h_question := question wd;
       h_sql_query := sql_query;
       h_results_count := length results;
       h_explanation := explanation;
       h_timestamp := timestamp env |}.

Definition process_question : Flow unit :=
  w <- get_world ;;
  when (submit_button wd && PyStr.truthy (question wd))
    (if negb (connected w) || negb (llm_initialized w) then
       emit (UiError "Please make sure the LLM Runtime interface is initialized and you're connected to a database.")
     else
       try_except
         (raw_response <- generate_response env (question wd) ;;
          emit (UiText raw_response) ;;;
          let sql_query := Extract.extract_sql_from_response raw_response in
          when (negb (PyStr.truthy sql_query))
            (emit (UiError "Failed to generate a valid SQL query. The LLM did not provide a query in the correct format (between triple backticks).") ;;;
             emit (UiText raw_response) ;;;
             stop) ;;;
          emit (UiCode sql_query) ;;;
          try_except (run_generated_query sql_query) (on_query_error sql_query))
         (fun e => emit (UiError ("Error generating SQL: " +:+ e)))).

End Run.

End UiMain.

End Session.

(** ** Concrete runs

    Inputs on which the flows are evaluated. *)

Module Scenario.

Import Session.

(** A session that is connected, with connection object [1]. *)
Definition ready : world :=
  {| connected := true; llm_initialized := true;
     schema_for_llm := "# Database Schema";
     query_history := []; connection := Some 1; trace := [] |}.

(** The user asks a question and presses [Generate SQL]. *)
Definition ask : widgets :=
  {| question := "How many orders are there?"; clicked := Some GenerateSql;
     fixed_query := fun sql_query => sql_query;
     manual_query := "" |}.

(** The page is shown again without a click on one of the three buttons:
    [Generate SQL] is disabled while the session is not connected. *)
Definition no_click : widgets :=
  {| question := "How many orders are there?"; clicked := None;
     fixed_query := fun sql_query => sql_query;
     manual_query := "" |}.

(** The run that follows the failure of the generated query: the user has
    replaced the query in the text area and presses [Execute Fixed Query]. *)
Definition press_fix : widgets :=
  {| question := "How many orders are there?"; clicked := Some ExecuteFixedQuery;
     fixed_query := fun _ => "SELECT count(*) FROM orders;";
     manual_query := "" |}.

(** The user writes the query in the text area of the manual block and
    presses [Execute Manual Query]. *)
Definition ask_manually : widgets :=
  {| question := ""; clicked := Some ExecuteManualQuery;
     fixed_query := fun sql_query => sql_query;
     manual_query := "SELECT count(*) FROM orders;" |}.

(** A driver on a server that answers a statement by [answers] when it takes
    it, every failure being an error of the server: a statement on a
    connection is refused once an earlier statement of the trace has failed
    on that connection. *)
Definition transaction_aborted
    (answers : conn -> string -> string + (list row * list string))
    (c : conn) (tr : list event) : bool :=
  fold_left
    (fun (aborted : bool) (e : event) =>
       match e with
       | DbExecute c' query =>
           if Nat.eqb c' c
           then aborted || match answers c query with inl _ => true | inr _ => false end
           else aborted
       | _ => aborted
       end)
    tr false.

Definition psycopg2_execute
    (answers : conn -> string -> string + (list row * list string))
    (tr : list event) (c : conn) (query : string)
  : string + (list row * list string) :=
  if transaction_aborted answers c tr
  then inl Snapshot.in_failed_transaction
  else answers c query.

(** The model answers with nothing; an empty query is refused by the driver
    itself, which leaves the transaction as it is, and the database runs any
    other query. *)
Definition silent_model : collaborators :=
  {| drv_connect := fun _ => inr 2;
     drv_cursor := fun _ _ => None;
     drv_execute := fun _ _ query =>
       if PyStr.truthy query then inr ([], []) else inl "can't execute an empty query";
     drv_alive := fun _ _ => true;
     llm_generate := fun _ _ => inr "";
     llm_explain := fun _ _ _ _ => inr "The query is empty.";
     clock := "2025-01-01 12:00:00" |}.

(** The model writes a query on a table that does not exist; the table
    [orders] exists and has one row of counts. *)
Definition wrong_table : collaborators :=
  {| drv_connect := fun _ => inr 2;
     drv_cursor := fun _ _ => None;
     drv_execute :=
       psycopg2_execute
         (fun _ query =>
            if String.eqb query "SELECT count(*) FROM orders;"
            then inr ([[("count", "42")]], ["count"])
            else inl "relation does not exist");
     drv_alive := fun _ _ => true;
     llm_generate := fun _ _ => inr "```sql
SELECT count(*) FROM order_list;
```";
     llm_explain := fun _ _ _ error =>
       match error with
       | Some _ => inr "The table order_list does not exist."
       | None => inr "There are 42 orders."
       end;
     clock := "2025-01-01 12:00:00" |}.

(** The connection object [1] has lost its server: every statement on it
    fails.  A new connection, [2], works. *)
Definition dead_connection : collaborators :=
  {| drv_connect := fun _ => inr 2;
     drv_cursor := fun _ _ => None;
     drv_execute := fun _ c _ =>
       if Nat.eqb c 1 then inl "server closed the connection unexpectedly"
       else inr ([[("count", "42")]], ["count"]);
     drv_alive := fun _ c => negb (Nat.eqb c 1);
     llm_generate := fun _ _ => inr "```sql
SELECT count(*) FROM orders;
```";
     llm_explain := fun _ _ _ error =>
       match error with
       | Some _ => inr "The connection was lost."
       | None => inr "There are 42 orders."
       end;
     clock := "2025-01-01 12:00:00" |}.

(** The white space and the letter case of texts that are not ASCII are
    those of Unicode; the texts of this module are ASCII, and [str.lower] is
    never asked about another text. *)
Definition ascii_only : PyStr.Unicode := {| PyStr.lower_other := PyStr.ascii_lower |}.

(** [str.lower] on a text of ASCII characters and of characters of the
    Latin-1 Supplement: the capital letters U+00C0 to U+00DE, the
    multiplication sign U+00D7 apart, become the letters 32 code points
    further.  In UTF-8 they are the bytes [C3 80] to [C3 9E]. *)
Fixpoint latin1_lower (s : string) : string :=
  match s with
  | "" => ""
  | String c s' =>
      if Nat.eqb (nat_of_ascii c) 195 then
        match s' with
        | "" => String c ""
        | String d s'' =>
            let n := nat_of_ascii d in
            String c
              (String (if (128 <=? n) && (n <=? 158) && negb (n =? 151)
                       then ascii_of_nat (n + 32) else d)
                 (latin1_lower s''))
        end
      else String (PyStr.ascii_lower_char c) (latin1_lower s')
  end.

Definition latin1 : PyStr.Unicode := {| PyStr.lower_other := latin1_lower |}.

(** The column name [CAFE_ID] with U+00C9 for its [E], and the relation
    name [cafe] with U+00E9. *)
Definition accented_column : string :=
  "CAF" +:+ String (ascii_of_nat 195) (String (ascii_of_nat 137) "_ID").
Definition accented_relation : string :=
  "caf" +:+ String (ascii_of_nat 195) (String (ascii_of_nat 169) "").

(** Three characters that are not ASCII, in UTF-8: U+00A0, U+0085 and
    U+017F. *)
Definition no_break_space : string :=
  String (ascii_of_nat 194) (String (ascii_of_nat 160) "").
Definition next_line : string :=
  String (ascii_of_nat 194) (String (ascii_of_nat 133) "").
Definition long_s : string :=
  String (ascii_of_nat 197) (String (ascii_of_nat 191) "").

(** A catalog with two tables, as [information_schema] reports them: the
    [data_type] of a column declared [timestamp] is [timestamp without time
    zone].  The sample of [customers] cannot be fetched; [orders] has one
    row.  The values of the rows are texts. *)
Definition plain_column (name type : string) : Snapshot.column :=
  {| Snapshot.c_name := name; Snapshot.c_type := type;
     Snapshot.c_nullable := "NO"; Snapshot.c_default := None;
     Snapshot.c_max_length := None; Snapshot.c_precision := None;
     Snapshot.c_scale := None; Snapshot.c_semantics := None |}.

Definition shop : Snapshot.catalog string :=
  {| Snapshot.cat_tables := ["orders"; "customers"];
     Snapshot.cat_columns := fun table =>
       if String.eqb table "orders" then
         [plain_column "order_id" "integer"; plain_column "customer_id" "uuid";
          plain_column "order_date" "timestamp without time zone";
          plain_column "delivery_date" "timestamp without time zone"]
       else if String.eqb table "customers" then
         [plain_column "code" "uuid"; plain_column "name" "text"]
       else [];
     Snapshot.cat_foreign_keys :=
       [{| Snapshot.fk_table := "orders"; Snapshot.fk_column := "customer_id";
           Snapshot.foreign_table := "customers"; Snapshot.foreign_column := "code" |}];
     Snapshot.cat_primary_key_rows := [("customers", "code"); ("orders", "order_id")];
     Snapshot.cat_column_comments := [];
     Snapshot.cat_table_comment := fun table =>
       if String.eqb table "customers" then Some "People who buy" else None;
     Snapshot.cat_sample_rows := fun table _ =>
       if String.eqb table "orders"
       then inr [[("order_id", "1"); ("customer_id", "c-7");
                  ("order_date", "2025-01-01"); ("delivery_date", "2025-01-03")]]
       else inl "permission denied for table customers" |}.

(** The same database when the server lists [customers] before [orders]. *)
Definition shop_customers_first : Snapshot.catalog string :=
  {| Snapshot.cat_tables := ["customers"; "orders"];
     Snapshot.cat_columns := Snapshot.cat_columns shop;
     Snapshot.cat_foreign_keys := Snapshot.cat_foreign_keys shop;
     Snapshot.cat_primary_key_rows := Snapshot.cat_primary_key_rows shop;
     Snapshot.cat_column_comments := Snapshot.cat_column_comments shop;
     Snapshot.cat_table_comment := Snapshot.cat_table_comment shop;
     Snapshot.cat_sample_rows := Snapshot.cat_sample_rows shop |}.

(** Two tables whose columns share the key [a.b.c]: column [c] of table
    [a.b], and column [b.c] of table [a], which has a stored comment. *)
Definition dotted_names : Snapshot.catalog string :=
  {| Snapshot.cat_tables := ["a.b"; "a"];
     Snapshot.cat_columns := fun table =>
       if String.eqb table "a.b" then [plain_column "c" "text"]
       else if String.eqb table "a" then [plain_column "b.c" "text"]
       else [];
     Snapshot.cat_foreign_keys := [];
     Snapshot.cat_primary_key_rows := [];
     Snapshot.cat_column_comments := [("a", "b.c", "Reviewed by finance")];
     Snapshot.cat_table_comment := fun _ => None;
     Snapshot.cat_sample_rows := fun _ _ => inr [] |}.

(** A new analyzer on a connection on which nothing has been sent. *)
Definition new_analyzer : Snapshot.build_state :=
  {| Snapshot.analyzer_of := Inference.fresh; Snapshot.aborted := false |}.

(** The snapshot that a build returns; no snapshot when it raises. *)
Definition returned (r : Snapshot.attempt (Snapshot.schema_info string) * Snapshot.build_state)
  : option (Snapshot.schema_info string) :=
  match fst r with
  | Snapshot.Done si => Some si
  | Snapshot.Failed _ => None
  end.

Definition no_tables : Snapshot.schema_info string :=
  {| Snapshot.tables := []; Snapshot.relationships := [];
     Snapshot.primary_keys := ∅; Snapshot.sample_data := ∅;
     Snapshot.column_semantics := ∅ |}.

(** The snapshot of [shop], built by a new analyzer: the build returns,
    since the statement that fails is the last one that it sends. *)
Definition shop_snapshot : Snapshot.schema_info string :=
  default no_tables
    (returned (Snapshot.analyze_schema string shop (U := ascii_only) new_analyzer)).

Definition show_value (v : string) : string := v.

Definition show_row (r : Snapshot.row string) : string :=
  "{" +:+ PyStr.join ", " (map (fun kv : string * string => fst kv +:+ ": " +:+ snd kv) r)
  +:+ "}".

Definition shop_relationship : Snapshot.relationship :=
  {| Snapshot.rel_table := "orders"; Snapshot.rel_column := "customer_id";
     Snapshot.references_table := "customers";
     Snapshot.references_column := "code" |}.

End Scenario.

(** ** The response stream of the language model

    [LlamaInterface.get_llama_response] reads the chunks of the HTTP
    response and collects the text of the completion. *)

Module Llama.

Local Unset Elimination Schemes.

(** A value that [json.loads] returns. *)
Inductive json : Type :=
| JNull
| JBool (b : bool)
| JNumber (repr : string)
| JString (s : string)
| JArray (items : list json)
| JObject (members : list (string * json)).

Local Set Elimination Schemes.

(** The outcome of an expression that may raise: the name of the exception,
    or the value. *)
Definition attempt (A : Type) : Type := string + A.

(** [data[key]] for a text [key]: only a [dict] can be indexed by a text. *)
Definition getitem (data : json) (key : string) : attempt json :=
  match data with
  | JObject members =>
      match Dict.get key members with
      | Some v => inr v
      | None => inl "KeyError"
      end
  | _ => inl "TypeError"
  end.

(** [v is False]. *)
Definition is_False (v : json) : bool :=
  match v with
  | JBool false => true
  | _ => false
  end.

(** [full_response += content]: only a text can be added to a text. *)
Definition add_content (full_response : string) (content : json) : attempt string :=
  match content with
  | JString s => inr (full_response +:+ s)
  | _ => inl "TypeError"
  end.

Section Stream.

Variable chunk : Type.

(** [json.loads(chunk.decode('utf-8')[6:])]: the value, or the exception of
    the decoding or of the parsing. *)
Variable loads : chunk -> attempt json.

(** The body of [async for chunk in response.aiter_bytes()]: the [try]
    block, and [except: pass], which leaves [full_response] as it was. *)
Definition loop_body (full_response : string) (c : chunk) : string :=
  let attempted : attempt string :=
    match loads c with
    | inl e => inl e
    | inr data =>
        match getitem data "stop" with
        | inl e => inl e
        | inr stop =>
            if is_False stop then
              match getitem data "content" with
              | inl e => inl e
              | inr content => add_content full_response content
              end
            else inr full_response
        end
    end in
  match attempted with
  | inr full_response' => full_response'
  | inl _ => full_response
  end.

Definition get_llama_response (chunks : list chunk) : string :=
  fold_left loop_body chunks "".

End Stream.

End Llama.

(** ** The history tabs

    The block [# Display query history] of [main] in [pg-query/streamlit.py]:
    the entries in reverse order, and the labels of their tabs. *)

Module Display.

Definition history_items (query_history : list Session.history_entry)
  : list Session.history_entry :=
  reverse query_history.

Definition tab_labels (query_history : list Session.history_entry) : list string :=
  imap (fun i item => "Query " +:+ pretty (i + 1) +:+ ": " +:+ Session.h_timestamp item)
    (history_items query_history).

End Display.

(** ** Notions and inputs of the further properties *)

(** The label of the discount branch of the numeric rules. *)
Definition discount_label : string :=
  "Discount value (possibly percentage if between 0-1 or 0-100)".

(** The relationship that [analyze_schema] records for a foreign key. *)
Definition relationship_of (fk : Snapshot.foreign_key) : Snapshot.relationship :=
  {| Snapshot.rel_table := Snapshot.fk_table fk;
     Snapshot.rel_column := Snapshot.fk_column fk;
     Snapshot.references_table := Snapshot.foreign_table fk;
     Snapshot.references_column := Snapshot.foreign_column fk |}.

(** The columns that the rows of the primary key query give for a table, in
    the order of the rows. *)
Definition key_columns (rows : list (string * string)) (table : string) : list string :=
  map snd (List.filter (fun r : string * string => String.eqb (fst r) table) rows).

(** Every label of a label map is a non-empty text. *)
Definition labels_not_empty (m : gmap string string) : Prop :=
  forall k v, m !! k = Some v -> PyStr.truthy v = true.

(** The labels of the snapshot under construction are entries of the memo
    of the analyzer, and every entry of the memo is justified. *)
Definition labels_in_memo {U : PyStr.Unicode} {value : Type} (db : Snapshot.catalog value)
    (si : Snapshot.schema_info value) (self : Inference.analyzer) : Prop :=
  Inference.memo_justified (Snapshot.cat_column_comments db) self /\
  forall k v,
    Snapshot.column_semantics si !! k = Some v ->
    Inference.column_semantics self !! k = Some v.

(** The table is in the snapshot, and each of its columns that has a stored,
    non-empty comment carries the comment as its label, in the table's entry
    and in the label map. *)
Definition comments_carried {value : Type} (db : Snapshot.catalog value)
    (si : Snapshot.schema_info value) (table : string) : Prop :=
  exists info,
    Dict.get table (Snapshot.tables si) = Some info /\
    forall col comment,
      In col (Snapshot.cat_columns db table) ->
      Inference.fetch_comment (Snapshot.cat_column_comments db) table (Snapshot.c_name col)
        = Some comment ->
      PyStr.truthy comment = true ->
      In (Snapshot.with_semantics col comment) (Snapshot.t_columns info) /\
      Snapshot.column_semantics si
        !! Inference.column_key table (Snapshot.c_name col) = Some comment.

(** The executions that the database answered with rows, in a trace [tr]
    that follows the trace [before]: the query and the number of its rows,
    in the order of the trace. *)
Fixpoint successes (env : Session.collaborators) (before tr : list Session.event)
  : list (string * nat) :=
  match tr with
  | [] => []
  | e :: rest =>
      match e with
      | Session.DbExecute c query =>
          match Session.drv_execute env before c query with
          | inr r => [(query, length (fst r))]
          | inl _ => []
          end
      | _ => []
      end ++ successes env (before ++ [e]) rest
  end.

(** What a history entry says of its execution. *)
Definition logged_pair (entry : Session.history_entry) : string * nat :=
  (Session.h_sql_query entry, Session.h_results_count entry).

(** From [w] to [w'] the trace and the history have only grown, and the
    entries added record, in order, executions that are in [credit] or that
    the database answered in the added trace. *)
Definition grows (env : Session.collaborators) (credit : list (string * nat))
    (w w' : Session.world) : Prop :=
  exists tr hs,
    Session.trace w' = Session.trace w ++ tr /\
    Session.query_history w' = Session.query_history w ++ hs /\
    sublist (map logged_pair hs) (credit ++ successes env (Session.trace w) tr).

Definition logs {A : Type} (env : Session.collaborators) (credit : list (string * nat))
    (m : Session.Flow A) : Prop :=
  forall w, grows env credit w (snd (m w)).

(** A block that adds events to the trace and leaves the history alone. *)
Definition silent {A : Type} (m : Session.Flow A) : Prop :=
  forall w, exists tr,
    Session.trace (snd (m w)) = Session.trace w ++ tr /\
    Session.query_history (snd (m w)) = Session.query_history w.

(** A session whose analyzer has no connection object, and a server that
    refuses connections. *)
Definition no_connection : Session.world :=
  {| Session.connected := true; Session.llm_initialized := true;
     Session.schema_for_llm := "# Database Schema";
     Session.query_history := []; Session.connection := None; Session.trace := [] |}.

Definition unreachable_server : Session.collaborators :=
  {| Session.drv_connect := fun _ => inl "could not connect to server: Connection refused";
     Session.drv_cursor := fun _ _ => None;
     Session.drv_execute := fun _ _ _ => inr ([], []);
     Session.drv_alive := fun _ _ => false;
     Session.llm_generate := fun _ _ => inr "";
     Session.llm_explain := fun _ _ _ _ => inr "";
     Session.clock := "2025-01-01 12:00:00" |}.

(** A session before the user has connected to a database. *)
Definition disconnected : Session.world :=
  {| Session.connected := false; Session.llm_initialized := true;
     Session.schema_for_llm := ""; Session.query_history := [];
     Session.connection := None; Session.trace := [] |}.

(** A catalog with one table, whose column [order_date] has a stored
    comment that differs from the label of the pattern rules. *)
Definition annotated_shop : Snapshot.catalog string :=
  {| Snapshot.cat_tables := ["orders"];
     Snapshot.cat_columns := fun table =>
       if String.eqb table "orders" then
         [Scenario.plain_column "order_id" "integer";
          Scenario.plain_column "order_date" "timestamp without time zone"]
       else [];
     Snapshot.cat_foreign_keys := [];
     Snapshot.cat_primary_key_rows := [("orders", "order_id")];
     Snapshot.cat_column_comments := [("orders", "order_date", "Day the invoice was issued")];
     Snapshot.cat_table_comment := fun _ => None;
     Snapshot.cat_sample_rows := fun _ _ => inr [] |}.

(** What a chunk adds to the response: the text under [content] of an
    object whose [stop] is [false]; nothing in every other case. *)
Definition content_of {chunk : Type} (loads : chunk -> Llama.attempt Llama.json)
    (c : chunk) : string :=
  match loads c with
  | inr (Llama.JObject members) =>
      match Dict.get "stop" members, Dict.get "content" members with
      | Some (Llama.JBool false), Some (Llama.JString s) => s
      | _, _ => ""
      end
  | _ => ""
  end.

(** A server that refuses connections, with a model that answers with a
    fenced query. *)
Definition refusing_server : Session.collaborators :=
  {| Session.drv_connect := fun _ => inl "could not connect to server: Connection refused";
     Session.drv_cursor := fun _ _ => None;
     Session.drv_execute := fun _ _ _ => inr ([], []);
     Session.drv_alive := fun _ _ => false;
     Session.llm_generate := fun _ _ => inr "```sql SELECT 1; ```";
     Session.llm_explain := fun _ _ _ _ => inr "";
     Session.clock := "2025-01-01 12:00:00" |}.

(** Two entries of a history, the older first. *)
Definition two_entries : list Session.history_entry :=
  [ {| Session.h_question := "How many orders are there?";
       Session.h_sql_query := "SELECT count(*) FROM orders;";
       Session.h_results_count := 1;
       Session.h_explanation := "There are 42 orders.";
       Session.h_timestamp := "2025-01-01 12:00:00" |};
    {| Session.h_question := "MANUAL QUERY";
       Session.h_sql_query := "SELECT 1;";
       Session.h_results_count := 1;
       Session.h_explanation := "Manually entered query";
       Session.h_timestamp := "2025-01-01 12:05:00" |} ].

(** An event that leaves the connection object [c] in use: no new
    connection is opened, and a statement is sent on [c]. *)
Definition on_connection (c : Session.conn) (e : Session.event) : Prop :=
  match e with
  | Session.DbConnect => False
  | Session.DbExecute c' _ => c' = c
  | _ => True
  end.

(** A block that, started with the connection object [c], ends with it and
    adds only events on it. *)
Definition stays_on {A : Type} (c : Session.conn) (m : Session.Flow A) : Prop :=
  forall w,
    Session.connection w = Some c ->
    Session.connection (snd (m w)) = Some c /\
    exists tr,
      Session.trace (snd (m w)) = Session.trace w ++ tr /\
      Forall (on_connection c) tr.

(** The database answers every query with one row; the model writes a
    query, and its explanation call times out with an empty message. *)
Definition failing_explainer : Session.collaborators :=
  {| Session.drv_connect := fun _ => inr 2;
     Session.drv_cursor := fun _ _ => None;
     Session.drv_execute := fun _ _ _ => inr ([[("count", "42")]], ["count"]);
     Session.drv_alive := fun _ _ => true;
     Session.llm_generate := fun _ _ => inr "```sql SELECT count(*) FROM orders; ```";
     Session.llm_explain := fun _ _ _ _ => inl "";
     Session.clock := "2025-01-01 12:00:00" |}.

(** * Properties *)

(** ** Strings *)

Lemma truthy_false (s : string) : PyStr.truthy s = false -> s = "".
Proof. destruct s; [reflexivity | discriminate]. Qed.

Lemma truthy_true (s : string) : PyStr.truthy s = true -> s <> "".
Proof. destruct s; [discriminate | intros _; discriminate]. Qed.

Lemma prefix_cons (a b : ascii) (p s : string) :
  String.prefix (String a p) (String b s)
  = if ascii_dec a b then String.prefix p s else false.
Proof. reflexivity. Qed.

Lemma prefix_nil (s : string) : String.prefix "" s = true.
Proof. destruct s; reflexivity. Qed.

Lemma prefix_dot (a : ascii) (s : string) :
  String.prefix "." (String a s) = true <-> a = "."%char.
Proof.
  rewrite prefix_cons, prefix_nil. destruct (ascii_dec "." a) as [<- | Hne].
  - tauto.
  - split; [intros H; discriminate H | intros ->; contradiction].
Qed.
Lemma contains_cons (sub : string) (a : ascii) (s : string) :
  PyStr.contains sub (String a s) = String.prefix sub (String a s) || PyStr.contains sub s.
Proof. reflexivity. Qed.

Lemma append_nil (s : string) : "" +:+ s = s.
Proof. reflexivity. Qed.

Lemma append_cons (a : ascii) (s1 s2 : string) :
  String a s1 +:+ s2 = String a (s1 +:+ s2).
Proof. reflexivity. Qed.

Ltac push_append := repeat (rewrite append_cons in * || rewrite append_nil in * ).

Lemma length_append (s1 s2 : string) :
  String.length (s1 +:+ s2) = String.length s1 + String.length s2.
Proof. induction s1 as [| a s1 IH]; push_append; simpl; [| rewrite IH]; reflexivity. Qed.

Lemma drop_append (s1 s2 : string) : PyStr.drop (String.length s1) (s1 +:+ s2) = s2.
Proof. induction s1 as [| a s1 IH]; push_append; simpl; [| rewrite IH]; reflexivity. Qed.

Lemma endswith_append (s suf : string) : PyStr.endswith (s +:+ suf) suf = true.
Proof.
  unfold PyStr.endswith. rewrite length_append.
  replace (String.length s + String.length suf - String.length suf)
    with (String.length s) by lia.
  rewrite drop_append, String.eqb_refl, andb_true_r.
  apply Nat.leb_le. lia.
Qed.

Lemma column_key_inj (t1 t2 c1 c2 : string) :
  PyStr.contains "." t1 = false ->
  PyStr.contains "." t2 = false ->
  Inference.column_key t1 c1 = Inference.column_key t2 c2 ->
  t1 = t2 /\ c1 = c2.
Proof.
  unfold Inference.column_key.
  revert t2. induction t1 as [| a t1 IH]; intros [| b t2] H1 H2 Heq; push_append.
  - injection Heq as ->. split; reflexivity.
  - injection Heq as <- _. rewrite contains_cons in H2.
    apply orb_false_elim in H2 as [H2 _].
    assert (String.prefix "." (String "." t2) = true) by (apply prefix_dot; reflexivity).
    congruence.
  - injection Heq as -> _. rewrite contains_cons in H1.
    apply orb_false_elim in H1 as [H1 _].
    assert (String.prefix "." (String "." t1) = true) by (apply prefix_dot; reflexivity).
    congruence.
  - injection Heq as -> Heq. rewrite contains_cons in H1, H2.
    apply orb_false_elim in H1 as [_ H1]. apply orb_false_elim in H2 as [_ H2].
    destruct (IH t2 H1 H2 Heq) as [-> ->]. split; reflexivity.
Qed.

(** ** Semantic inference *)

Section InferenceFacts.

Import Inference.

Variable db : comment_store.

Context {U : PyStr.Unicode}.

Lemma infer_hit (t c ty cached : string) (self : analyzer) :
  column_semantics self !! column_key t c = Some cached ->
  infer_column_semantics db t c ty self = (cached, self).
Proof.
  intros H. unfold infer_column_semantics, bind, get_state. rewrite H. reflexivity.
Qed.

Lemma infer_miss (t c ty : string) (self : analyzer) :
  column_semantics self !! column_key t c = None ->
  infer_column_semantics db t c ty self =
  (computed_label db t c ty,
   memoize (column_key t c) (computed_label db t c ty) (log_query t c self)).
Proof.
  intros H. unfold infer_column_semantics, bind, get_state. rewrite H.
  unfold get_comment_for_column, computed_label, bind, modify, ret. simpl.
  destruct (PyStr.truthy _); reflexivity.
Qed.

(** A stored comment decides the computed label, whatever the name and the
    declared type. *)
Lemma computed_label_comment (t c ty comment : string) :
  fetch_comment db t c = Some comment ->
  PyStr.truthy comment = true ->
  computed_label db t c ty = comment.
Proof.
  intros Hf Ht. unfold computed_label. rewrite Hf, Ht, Ht. reflexivity.
Qed.

(** Without a stored comment the pattern rules decide. *)
Lemma computed_label_no_comment (t c ty : string) :
  (fetch_comment db t c = None \/ fetch_comment db t c = Some "") ->
  computed_label db t c ty = pattern_meaning c ty.
Proof.
  intros [Hf | Hf]; unfold computed_label; rewrite Hf; reflexivity.
Qed.

(** After a call the memo holds the returned label under the key. *)
Lemma infer_memoized (t c ty : string) (self : analyzer) :
  column_semantics (snd (infer_column_semantics db t c ty self)) !! column_key t c
  = Some (fst (infer_column_semantics db t c ty self)).
Proof.
  destruct (column_semantics self !! column_key t c) as [v |] eqn:E.
  - rewrite (infer_hit _ _ _ _ _ E). exact E.
  - rewrite (infer_miss _ _ _ _ E). simpl. apply lookup_insert_eq.
Qed.

(** A call never changes an entry that the memo already holds. *)
Lemma infer_call_keeps (cl : call) (self : analyzer) (k v : string) :
  column_semantics self !! k = Some v ->
  column_semantics (snd (infer_call db cl self)) !! k = Some v.
Proof.
  destruct cl as [[t c] ty]. intros H. simpl.
  destruct (column_semantics self !! column_key t c) as [v' |] eqn:E.
  - rewrite (infer_hit _ _ _ _ _ E). exact H.
  - rewrite (infer_miss _ _ _ _ E). simpl.
    rewrite lookup_insert_ne; [exact H | congruence].
Qed.

Lemma infer_call_queries (cl : call) (self : analyzer) :
  comment_queries (snd (infer_call db cl self))
  = comment_queries self ++ queries_of_call cl self.
Proof.
  destruct cl as [[t c] ty]. simpl.
  destruct (column_semantics self !! column_key t c) as [v' |] eqn:E.
  - rewrite (infer_hit _ _ _ _ _ E). simpl. rewrite app_nil_r. reflexivity.
  - rewrite (infer_miss _ _ _ _ E). reflexivity.
Qed.

Lemma infer_all_cons (cl : call) (calls : list call) (self : analyzer) :
  snd (infer_all db (cl :: calls) self)
  = snd (infer_all db calls (snd (infer_call db cl self))).
Proof.
  unfold infer_all. simpl. unfold bind.
  destruct (infer_call db cl self) as [y s1]. simpl.
  destruct (mapM (infer_call db) calls s1) as [ys s2]. reflexivity.
Qed.

Lemma queries_for_app (t c : string) (l1 l2 : list (string * string)) :
  queries_for t c (l1 ++ l2) = queries_for t c l1 + queries_for t c l2.
Proof. unfold queries_for. rewrite filter_app, length_app. reflexivity. Qed.

(** A run of calls keeps the entries of the memo, and sends no comment
    query for a key that the memo holds. *)
Lemma infer_all_keeps (calls : list call) (self : analyzer) (t c v : string) :
  column_semantics self !! column_key t c = Some v ->
  column_semantics (snd (infer_all db calls self)) !! column_key t c = Some v /\
  exists added,
    comment_queries (snd (infer_all db calls self)) = comment_queries self ++ added /\
    queries_for t c added = 0.
Proof.
  revert self. induction calls as [| cl calls IH]; intros self H.
  - split; [exact H |]. exists []. simpl. rewrite app_nil_r. split; reflexivity.
  - rewrite infer_all_cons.
    pose proof (infer_call_keeps cl self _ _ H) as H1.
    destruct (IH _ H1) as [Hk [added [Hq Hc]]]. split; [exact Hk |].
    exists (queries_of_call cl self ++ added). split.
    + rewrite Hq, infer_call_queries, <- app_assoc. reflexivity.
    + rewrite queries_for_app, Hc, Nat.add_0_r.
      destruct cl as [[t' c'] ty']. simpl.
      destruct (column_semantics self !! column_key t' c') eqn:E; [reflexivity |].
      unfold queries_for. rewrite filter_cons, filter_nil.
      destruct (decide ((t', c') = (t, c))) as [Heq | Hne]; [| reflexivity].
      injection Heq as -> ->. congruence.
Qed.

End InferenceFacts.

Section InferenceClaims.

Import Inference.

Variable db : comment_store.

Context {U : PyStr.Unicode}.

Lemma memo_justified_fresh : memo_justified db fresh.
Proof. intros k v H. simpl in H. rewrite lookup_empty in H. discriminate. Qed.

Lemma memo_justified_call (cl : call) (self : analyzer) :
  PyStr.contains "." (fst (fst cl)) = false ->
  memo_justified db self ->
  memo_justified db (snd (infer_call db cl self)).
Proof.
  destruct cl as [[t c] ty]. simpl. intros Hdot Hinv.
  destruct (column_semantics self !! column_key t c) as [v' |] eqn:E.
  - rewrite (infer_hit _ _ _ _ _ _ E). exact Hinv.
  - rewrite (infer_miss _ _ _ _ _ E). intros k v. simpl.
    destruct (decide (column_key t c = k)) as [<- | Hne].
    + rewrite lookup_insert_eq. intros [= <-]. exists t, c, ty. auto.
    + rewrite lookup_insert_ne by exact Hne. apply Hinv.
Qed.

Lemma memo_justified_run (calls : list call) (self : analyzer) :
  dot_free calls = true ->
  memo_justified db self ->
  memo_justified db (snd (infer_all db calls self)).
Proof.
  revert self. induction calls as [| cl calls IH]; intros self Hdots Hinv.
  - exact Hinv.
  - rewrite infer_all_cons. simpl in Hdots.
    apply andb_true_iff in Hdots as [Hcl Hrest].
    apply IH; [exact Hrest |].
    apply memo_justified_call; [| exact Hinv].
    apply negb_true_iff. exact Hcl.
Qed.

(** C1 (amended). In a run of calls on a fresh analyzer in which no table
    name contains a dot, a call for a table and a column that have a stored,
    non-empty comment returns that comment verbatim, whatever the column's
    name and declared type. *)
Theorem comment_wins (calls : list call) (t c ty comment : string) :
  dot_free calls = true ->
  PyStr.contains "." t = false ->
  fetch_comment db t c = Some comment ->
  PyStr.truthy comment = true ->
  fst (infer_column_semantics db t c ty (snd (infer_all db calls fresh))) = comment.
Proof.
  intros Hdots Hdot Hf Ht.
  pose proof (memo_justified_run calls fresh Hdots memo_justified_fresh) as Hinv.
  set (self := snd (infer_all db calls fresh)) in *.
  destruct (column_semantics self !! column_key t c) as [v |] eqn:E.
  - rewrite (infer_hit _ _ _ _ _ _ E). simpl.
    destruct (Hinv _ _ E) as (t' & c' & ty' & Hdot' & Hk & ->).
    destruct (column_key_inj _ _ _ _ Hdot Hdot' Hk) as [<- <-].
    apply computed_label_comment; assumption.
  - rewrite (infer_miss _ _ _ _ _ E). simpl.
    apply computed_label_comment; assumption.
Qed.

(** C6. Two calls with the same table, column and declared type, with any
    calls in between, return the same label; the second call sends no
    comment query; and over the whole run at most one comment query is sent
    for the table and the column. *)
Theorem memo_answers_repeat (self : analyzer) (t c ty : string) (calls : list call) :
  let first := infer_column_semantics db t c ty self in
  let between := snd (infer_all db calls (snd first)) in
  let second := infer_column_semantics db t c ty between in
  fst second = fst first /\
  comment_queries (snd second) = comment_queries between /\
  exists added,
    comment_queries (snd second) = comment_queries self ++ added /\
    queries_for t c added <= 1.
Proof.
  intros first between second.
  pose proof (infer_memoized db t c ty self) as Hmemo. fold first in Hmemo.
  destruct (infer_all_keeps db calls (snd first) t c _ Hmemo) as [Hkeep [added [Hq Hc]]].
  fold between in Hkeep, Hq.
  assert (Hsecond : second = (fst first, between)).
  { unfold second. apply infer_hit. exact Hkeep. }
  rewrite Hsecond. simpl. repeat split.
  exists (queries_of_call (t, c, ty) self ++ added). split.
  - rewrite Hq.
    change (snd first) with (snd (infer_call db (t, c, ty) self)).
    rewrite infer_call_queries, <- app_assoc. reflexivity.
  - rewrite queries_for_app, Hc, Nat.add_0_r. simpl.
    destruct (column_semantics self !! column_key t c); unfold queries_for.
    + simpl. lia.
    + rewrite filter_cons, filter_nil. destruct (decide _); simpl; lia.
Qed.

End InferenceClaims.

Section DateAndFallbackClaims.

Import Inference.

Variable db : comment_store.

Context {U : PyStr.Unicode}.

Lemma any_in_single (p col : string) : any_in [p] col = PyStr.contains p col.
Proof. unfold any_in. simpl. apply orb_false_r. Qed.

(** The [if]/[elif] chain of the date rules is the first-match evaluation of
    the ordered table of groups. *)
Lemma date_meaning_first_match (col_lower : string) :
  date_meaning col_lower = first_match date_groups col_lower.
Proof.
  unfold date_meaning, first_match, date_groups. cbn [find fst snd].
  rewrite !any_in_single.
  repeat match goal with
         | |- context [if ?b then _ else _] => destruct b; [reflexivity |]
         end.
  reflexivity.
Qed.

Lemma type_meaning_date (ty col_lower : string) :
  PyStr.member ty date_types = true ->
  type_meaning ty col_lower = date_meaning col_lower.
Proof. intros H. unfold type_meaning. rewrite H. reflexivity. Qed.

(** When the method is called with one of the four type names of the date
    rules, and no comment is stored, the first inference of
    [orders.order_date] gives "Date when the order was placed" and that of
    [orders.delivery_date] gives "Date when items were actually delivered to
    the customer"; the two labels differ; and the date rules return the
    label of the first matching group in the order created, updated,
    soft-deleted, delivered, dispatched, ordered, paid, due, start, end. *)
Lemma order_and_delivery_dates (self : analyzer) (ty : string) :
  PyStr.member ty date_types = true ->
  no_comment db "orders" "order_date" ->
  no_comment db "orders" "delivery_date" ->
  column_semantics self !! column_key "orders" "order_date" = None ->
  column_semantics self !! column_key "orders" "delivery_date" = None ->
  let first := infer_column_semantics db "orders" "order_date" ty self in
  let second := infer_column_semantics db "orders" "delivery_date" ty (snd first) in
  fst first = "Date when the order was placed" /\
  fst second = "Date when items were actually delivered to the customer" /\
  fst first <> fst second /\
  forall col_lower, date_meaning col_lower = first_match date_groups col_lower.
Proof.
  intros Hty Hc1 Hc2 Hm1 Hm2 first second.
  assert (H1 : first = ("Date when the order was placed",
                        memoize (column_key "orders" "order_date")
                          "Date when the order was placed"
                          (log_query "orders" "order_date" self))).
  { unfold first. rewrite (infer_miss _ _ _ _ _ Hm1).
    rewrite (computed_label_no_comment _ _ _ _ Hc1).
    unfold pattern_meaning. rewrite (type_meaning_date _ _ Hty). reflexivity. }
  assert (H2 : fst second = "Date when items were actually delivered to the customer").
  { unfold second. rewrite H1. rewrite infer_miss.
    - cbn [fst]. rewrite (computed_label_no_comment _ _ _ _ Hc2).
      unfold pattern_meaning. rewrite (type_meaning_date _ _ Hty). reflexivity.
    - cbn [snd memoize log_query column_semantics].
      rewrite lookup_insert_ne; [exact Hm2 | discriminate]. }
  rewrite H2, H1. cbn [fst]. repeat split.
  - discriminate.
  - apply date_meaning_first_match.
Qed.

Lemma any_endswith_id (col_lower : string) :
  PyStr.endswith col_lower "_id" = true -> any_endswith id_patterns col_lower = true.
Proof. intros H. unfold any_endswith, id_patterns. cbn [existsb]. rewrite H. reflexivity. Qed.

Lemma prefix_id_append (a : ascii) (r : string) :
  String.prefix "_id" (String a r) = false ->
  String.prefix "_id" (String a r +:+ "_id") = false.
Proof.
  destruct r as [| b [| c r]]; push_append; rewrite ?prefix_cons, ?prefix_nil;
    repeat match goal with
           | |- context [ascii_dec ?x ?y] => destruct (ascii_dec x y); try subst
           end;
    try reflexivity; try discriminate; intros H; try discriminate H; exact H.
Qed.

(** When [_id] occurs in a name only as its suffix, removing the
    occurrences of [_id] strips the suffix. *)
Lemma replace_id_suffix (r : string) :
  PyStr.contains "_id" r = false ->
  PyStr.replace "_id" "" (r +:+ "_id") = r.
Proof.
  unfold PyStr.replace. induction r as [| a r IH]; intros H.
  - reflexivity.
  - rewrite contains_cons in H. apply orb_false_elim in H as [Hp Hc].
    pose proof (prefix_id_append _ _ Hp) as Hp'.
    rewrite append_cons in *. cbn [PyStr.replace_from].
    rewrite Hp', (IH Hc). reflexivity.
Qed.

Lemma fallback_meaning_suffix (col_lower : string) :
  PyStr.endswith col_lower "_id" = true ->
  fallback_meaning col_lower =
  let relation := PyStr.replace "_id" "" col_lower in
  if PyStr.truthy relation then "Identifier for a " +:+ relation
  else "Primary identifier".
Proof.
  intros He. unfold fallback_meaning.
  rewrite (any_endswith_id _ He), He, orb_true_r. reflexivity.
Qed.

(** The fallback of the code for a name that ends with [_id]: every
    occurrence of [_id] is removed from the lower-cased name. *)
Lemma fallback_removes_every_id (self : analyzer) (t c ty : string) :
  column_semantics self !! column_key t c = None ->
  no_comment db t c ->
  type_meaning ty (PyStr.lower c) = "" ->
  PyStr.endswith (PyStr.lower c) "_id" = true ->
  fst (infer_column_semantics db t c ty self) =
  let relation := PyStr.replace "_id" "" (PyStr.lower c) in
  if PyStr.truthy relation then "Identifier for a " +:+ relation
  else "Primary identifier".
Proof.
  intros Hm Hc Hty He.
  rewrite (infer_miss _ _ _ _ _ Hm). cbn [fst].
  rewrite (computed_label_no_comment _ _ _ _ Hc).
  unfold pattern_meaning. rewrite Hty. cbn [PyStr.truthy].
  apply fallback_meaning_suffix. exact He.
Qed.

(** C5 (amended). On the first inference of a column without a stored
    comment, when the rules of the declared type give no label, the
    fallback works on the lower-cased name.  If it is a relation name
    followed by [_id], with no other occurrence of [_id], the label is
    "Identifier for a {relation}" when the relation is not empty and "Primary
    identifier" when it is.  If it neither is [id] nor ends with [_id], the
    label is empty. *)
Theorem identifier_fallback (self : analyzer) (t c ty : string) :
  column_semantics self !! column_key t c = None ->
  no_comment db t c ->
  type_meaning ty (PyStr.lower c) = "" ->
  (forall relation,
     PyStr.lower c = relation +:+ "_id" ->
     PyStr.contains "_id" relation = false ->
     fst (infer_column_semantics db t c ty self) =
     if PyStr.truthy relation then "Identifier for a " +:+ relation
     else "Primary identifier") /\
  (PyStr.endswith (PyStr.lower c) "_id" = false ->
   PyStr.lower c <> "id" ->
   fst (infer_column_semantics db t c ty self) = "").
Proof.
  intros Hm Hc Hty. split.
  - intros relation Hl Hr.
    rewrite (fallback_removes_every_id self t c ty Hm Hc Hty).
    + cbn zeta. rewrite Hl, (replace_id_suffix _ Hr). reflexivity.
    + rewrite Hl. apply endswith_append.
  - intros He Hid.
    rewrite (infer_miss _ _ _ _ _ Hm). cbn [fst].
    rewrite (computed_label_no_comment _ _ _ _ Hc).
    unfold pattern_meaning. rewrite Hty. cbn [PyStr.truthy].
    unfold fallback_meaning. rewrite He, orb_false_r.
    apply String.eqb_neq in Hid. rewrite Hid.
    destruct (any_endswith id_patterns (PyStr.lower c)); reflexivity.
Qed.

End DateAndFallbackClaims.

Section InferenceInstances.

Import Inference.

Local Existing Instance Scenario.ascii_only.

(** C1 on the code. Two (table, column) pairs share a key: the store holds
    a comment for column [b.c] of table [a] and none for column [c] of table
    [a.b].  After the latter has been inferred, the former is answered from
    the memo and its comment is not returned; in the snapshot built from
    such a catalog the column [b.c] of table [a] has no label. *)
Theorem comment_lost_on_key_collision :
  let db := [("a", "b.c", "Reviewed by finance")] in
  let self := snd (infer_column_semantics db "a.b" "c" "text" fresh) in
  column_key "a.b" "c" = column_key "a" "b.c" /\
  fetch_comment db "a" "b.c" = Some "Reviewed by finance" /\
  fst (infer_column_semantics db "a" "b.c" "text" self) = "" /\
  fst (infer_column_semantics db "a" "b.c" "text" fresh) = "Reviewed by finance" /\
  exists si,
    fst (Snapshot.analyze_schema string Scenario.dotted_names Scenario.new_analyzer)
    = Snapshot.Done si /\
    Dict.get "a" (Snapshot.tables si)
    = Some {| Snapshot.t_columns := [Scenario.plain_column "b.c" "text"];
              Snapshot.t_comment := "" |} /\
    Snapshot.column_semantics si !! "a.b.c" = None.
Proof.
  cbv zeta. repeat (split; [reflexivity |]).
  eexists. split; [vm_compute; reflexivity |]. split; reflexivity.
Qed.

Lemma comment_wins_witness :
  let db := [("orders", "order_date", "When the customer paid")] in
  let calls := [("orders", "order_id", "integer"); ("orders", "order_date", "date")] in
  dot_free calls = true /\
  fetch_comment db "orders" "order_date" = Some "When the customer paid" /\
  fst (infer_column_semantics db "orders" "order_date" "timestamp"
         (snd (infer_all db calls fresh))) = "When the customer paid".
Proof.
  cbv zeta. split; [reflexivity | split; [reflexivity |]].
  apply comment_wins; reflexivity.
Defined.

Lemma order_and_delivery_dates_witness :
  let first := infer_column_semantics [] "orders" "order_date" "timestamp" fresh in
  let second := infer_column_semantics [] "orders" "delivery_date" "timestamp" (snd first) in
  fst first = "Date when the order was placed" /\
  fst second = "Date when items were actually delivered to the customer".
Proof.
  destruct (order_and_delivery_dates [] fresh "timestamp") as (H1 & H2 & _);
    [reflexivity | left; reflexivity | left; reflexivity | reflexivity | reflexivity |].
  split; [exact H1 | exact H2].
Defined.

(** C5, as stated, fails on the code: the labels of the code start with a
    capital letter, and the code matches the lower-cased name.  (The code
    also removes every occurrence of [_id], not only the suffix.) *)
Lemma fallback_differs_from_specified :
  type_meaning "uuid" (PyStr.lower "customer_id") = "" /\
  fst (infer_column_semantics [] "orders" "customer_id" "uuid" fresh)
    = "Identifier for a customer" /\
  fallback_as_specified "customer_id" = "identifier for a customer" /\
  type_meaning "uuid" (PyStr.lower "Customer_ID") = "" /\
  fst (infer_column_semantics [] "orders" "Customer_ID" "uuid" fresh)
    = "Identifier for a customer" /\
  fallback_as_specified "Customer_ID" = "" /\
  type_meaning "uuid" (PyStr.lower "item_id_ref_id") = "" /\
  fst (infer_column_semantics [] "orders" "item_id_ref_id" "uuid" fresh)
    = "Identifier for a item_ref" /\
  fallback_as_specified "item_id_ref_id" = "identifier for a item_id_ref" /\
  fst (infer_column_semantics [] "orders" "customer_id" "uuid" fresh)
    <> fallback_as_specified "customer_id".
Proof. repeat split. discriminate. Qed.

Lemma identifier_fallback_witness :
  type_meaning "uuid" (PyStr.lower "Customer_ID") = "" /\
  fst (infer_column_semantics [] "orders" "Customer_ID" "uuid" fresh)
    = "Identifier for a customer" /\
  fst (infer_column_semantics [] "orders" "notes" "uuid" fresh) = "".
Proof.
  split; [reflexivity |].
  destruct (identifier_fallback [] fresh "orders" "Customer_ID" "uuid") as (H1 & _);
    [reflexivity | left; reflexivity | reflexivity |].
  destruct (identifier_fallback [] fresh "orders" "notes" "uuid") as (_ & H3);
    [reflexivity | left; reflexivity | reflexivity |].
  split; [exact (H1 "customer" eq_refl eq_refl) | apply H3; [reflexivity | discriminate]].
Defined.

End InferenceInstances.

(** A name that is not ASCII: the fallback works on the lower-cased name,
    which [str.lower] gives for the letters of the Latin-1 Supplement too. *)
Example accented_identifier :
  PyStr.lower (U := Scenario.latin1) Scenario.accented_column
  = Scenario.accented_relation +:+ "_id" /\
  fst (Inference.infer_column_semantics (U := Scenario.latin1) [] "menu"
         Scenario.accented_column "uuid" Inference.fresh)
  = "Identifier for a " +:+ Scenario.accented_relation.
Proof. split; reflexivity. Qed.

(** ** The matcher *)

Section MatcherFacts.

Import Re.

Lemma append_assoc (s1 s2 s3 : string) : (s1 +:+ s2) +:+ s3 = s1 +:+ (s2 +:+ s3).
Proof. induction s1 as [| a s1 IH]; push_append; [| rewrite IH]; reflexivity. Qed.

Lemma append_empty_r (s : string) : s +:+ "" = s.
Proof. induction s as [| a s IH]; push_append; [| rewrite IH]; reflexivity. Qed.

Lemma take_append (s1 s2 : string) : PyStr.take (String.length s1) (s1 +:+ s2) = s1.
Proof. induction s1 as [| a s1 IH]; push_append; simpl; [| rewrite IH]; reflexivity. Qed.

Lemma take_drop (n : nat) (s : string) : PyStr.take n s +:+ PyStr.drop n s = s.
Proof.
  revert s. induction n as [| n IH]; intros [| a s]; simpl; push_append;
    try reflexivity.
  rewrite IH. reflexivity.
Qed.

Lemma prefix_drop (p s : string) :
  String.prefix p s = true -> s = p +:+ PyStr.drop (String.length p) s.
Proof.
  revert s. induction p as [| a p IH]; intros s H.
  - reflexivity.
  - destruct s as [| b s]; [discriminate |]. rewrite prefix_cons in H.
    destruct (ascii_dec a b) as [-> | _]; [| discriminate].
    cbn [String.length PyStr.drop]. push_append. rewrite <- (IH _ H). reflexivity.
Qed.

(** A literal matches where it is a prefix; what is left is the text after
    it. *)
Lemma lit_match_prefix (p s : string) :
  lit_match false p s
  = if String.prefix p s then Some (PyStr.drop (String.length p) s) else None.
Proof.
  revert s. induction p as [| a p IH]; intros s.
  - rewrite prefix_nil. reflexivity.
  - destruct s as [| b s]; [reflexivity |].
    rewrite prefix_cons. cbn [lit_match char_match String.length PyStr.drop].
    destruct (ascii_dec a b) as [-> | Hne].
    + rewrite Ascii.eqb_refl. apply IH.
    + apply Ascii.eqb_neq in Hne. rewrite Hne. reflexivity.
Qed.

(** What is left after a match is a suffix of the text. *)
Lemma other_case_suffix (a : ascii) (s rest : string) :
  other_case a s = Some rest -> exists pre, s = pre +:+ rest.
Proof.
  unfold other_case. intros H.
  repeat match type of H with
         | (if Ascii.eqb ?x ?y then _ else _) = _ => destruct (Ascii.eqb x y)
         end;
    try discriminate H.
  - destruct (String.prefix _ s) eqn:Hp; [| discriminate H]. injection H as <-.
    eexists. exact (prefix_drop _ _ Hp).
  - destruct (String.prefix _ s) eqn:Hp; [| discriminate H]. injection H as <-.
    eexists. exact (prefix_drop _ _ Hp).
  - destruct (String.prefix (String "196" (String "176" "")) s) eqn:Hp1.
    + injection H as <-. eexists. exact (prefix_drop _ _ Hp1).
    + destruct (String.prefix (String "196" (String "177" "")) s) eqn:Hp2;
        [| discriminate H].
      injection H as <-. eexists. exact (prefix_drop _ _ Hp2).
Qed.

Lemma char_match_suffix (ic : bool) (a : ascii) (s rest : string) :
  char_match ic a s = Some rest -> exists pre, s = pre +:+ rest.
Proof.
  destruct s as [| b s]; [discriminate |]. cbn [char_match]. destruct ic.
  - destruct (Ascii.eqb _ _); [| apply other_case_suffix].
    intros [= <-]. exists (String b ""). reflexivity.
  - destruct (Ascii.eqb a b); [| discriminate].
    intros [= <-]. exists (String b ""). reflexivity.
Qed.

Lemma lit_match_suffix (ic : bool) (p s rest : string) :
  lit_match ic p s = Some rest -> exists pre, s = pre +:+ rest.
Proof.
  revert s. induction p as [| a p IH]; intros s H.
  - injection H as <-. exists "". reflexivity.
  - cbn [lit_match] in H. destruct (char_match ic a s) as [s1 |] eqn:E; [| discriminate].
    destruct (char_match_suffix _ _ _ _ E) as [pre1 ->].
    destruct (IH _ H) as [pre2 ->]. exists (pre1 +:+ pre2).
    rewrite append_assoc. reflexivity.
Qed.

(** *** Runs of white space *)

Lemma drop_space_suffix (s rest : string) :
  PyStr.drop_space s = Some rest ->
  exists pre, s = pre +:+ rest /\ String.length rest < String.length s.
Proof.
  unfold PyStr.drop_space. destruct s as [| c1 [| c2 [| c3 s3]]]; try discriminate;
    repeat match goal with
           | |- (if ?b then _ else _) = _ -> _ => destruct b
           end;
    intros H; try discriminate H; injection H as <-;
    first [ exists (String c1 ""); split; [reflexivity | cbn [String.length]; lia]
          | exists (String c1 (String c2 ""));
            split; [reflexivity | cbn [String.length]; lia]
          | exists (String c1 (String c2 (String c3 "")));
            split; [reflexivity | cbn [String.length]; lia] ].
Qed.

(** Induction along the runs of white space. *)
Lemma space_run_ind (P : string -> Prop) :
  (forall s, (forall rest, PyStr.drop_space s = Some rest -> P rest) -> P s) ->
  forall s, P s.
Proof.
  intros Hstep s. remember (String.length s) as n eqn:Hn.
  revert s Hn. induction n as [n IH] using lt_wf_ind. intros s ->.
  apply Hstep. intros rest Hrest.
  destruct (drop_space_suffix _ _ Hrest) as (pre & _ & Hlt).
  exact (IH _ Hlt rest eq_refl).
Qed.

Lemma lstrip_unfold (s : string) :
  PyStr.lstrip s
  = match PyStr.drop_space s with
    | Some rest => PyStr.lstrip rest
    | None => s
    end.
Proof.
  destruct s as [| c1 [| c2 [| c3 s3]]]; cbn [PyStr.lstrip PyStr.drop_space];
    repeat match goal with
           | |- context [if ?b then _ else _] => destruct b; cbn [PyStr.lstrip]
           end; reflexivity.
Qed.

Lemma spaces_greedy_unfold (s : string) :
  spaces_greedy s
  = match PyStr.drop_space s with
    | Some rest => spaces_greedy rest ++ [s]
    | None => [s]
    end.
Proof.
  destruct s as [| c1 [| c2 [| c3 s3]]]; cbn [spaces_greedy PyStr.drop_space];
    repeat match goal with
           | |- context [if ?b then _ else _] => destruct b; cbn [spaces_greedy]
           end; reflexivity.
Qed.

Lemma spaces_greedy_suffix (s rest : string) :
  In rest (spaces_greedy s) -> exists pre, s = pre +:+ rest.
Proof.
  revert rest. induction s as [s IH] using space_run_ind. intros rest.
  rewrite spaces_greedy_unfold.
  destruct (PyStr.drop_space s) as [s1 |] eqn:E.
  - intros H. apply in_app_or in H as [H | [<- | []]]; [| exists ""; reflexivity].
    destruct (drop_space_suffix _ _ E) as (pre1 & -> & _).
    destruct (IH _ eq_refl _ H) as [pre2 ->]. exists (pre1 +:+ pre2).
    rewrite append_assoc. reflexivity.
  - intros [<- | []]. exists "". reflexivity.
Qed.

Lemma any_lazy_suffix (s rest : string) :
  In rest (any_lazy s) -> exists pre, s = pre +:+ rest.
Proof.
  induction s as [| c s IH]; cbn [any_lazy]; intros H.
  - destruct H as [<- | []]. exists "". reflexivity.
  - destruct H as [<- | H]; [exists ""; reflexivity |].
    destruct (IH H) as [pre ->]. exists (String c pre). reflexivity.
Qed.

Lemma matches_suffix (ic : bool) (r : regex) (s : string) (m : result) :
  In m (matches ic r s) -> exists pre, s = pre +:+ fst m.
Proof.
  revert s m. induction r as [p | r1 IH1 r2 IH2 | r1 IH1 r2 IH2 | r IH | | | r IH];
    intros s m H; cbn [matches] in H.
  - destruct (lit_match ic p s) as [rest |] eqn:E; [| destruct H].
    destruct H as [<- | []]. exact (lit_match_suffix _ _ _ _ E).
  - apply in_flat_map in H as [m1 [H1 H2]].
    apply in_map_iff in H2 as [m2 [<- H2]]. cbn [fst].
    destruct (IH1 _ _ H1) as [pre1 ->]. destruct (IH2 _ _ H2) as [pre2 ->].
    exists (pre1 +:+ pre2). rewrite append_assoc. reflexivity.
  - apply in_app_or in H as [H | H]; [exact (IH1 _ _ H) | exact (IH2 _ _ H)].
  - apply in_app_or in H as [H | H]; [exact (IH _ _ H) |].
    destruct H as [<- | []]. exists "". reflexivity.
  - apply in_map_iff in H as [rest [<- H]]. exact (spaces_greedy_suffix _ _ H).
  - apply in_map_iff in H as [rest [<- H]]. exact (any_lazy_suffix _ _ H).
  - apply in_map_iff in H as [m' [<- H]]. exact (IH _ _ H).
Qed.

(** An anchored pattern is tried at the start of the text only: after it,
    the text is copied. *)
Lemma sub_from_anchored (ic : bool) (p : pattern) (repl : string) (k : nat) (s : string) :
  anchored p = true ->
  sub_from ic p repl false k s = PyStr.drop k s.
Proof.
  intros Ha. revert k. induction s as [| c s IH]; intros [| k]; cbn [sub_from PyStr.drop];
    try reflexivity.
  - unfold match_here. rewrite Ha. reflexivity.
  - unfold match_here. rewrite Ha. cbn [andb negb]. rewrite IH. reflexivity.
  - apply IH.
Qed.

(** [re.sub] with an anchored pattern replaces the match at the start of the
    text, if there is one, and nothing else. *)
Lemma sub_anchored (ic : bool) (p : pattern) (repl s : string) :
  anchored p = true ->
  sub ic p repl s
  = match head (matches ic (body p) s) with
    | Some m => repl +:+ fst m
    | None => s
    end.
Proof.
  intros Ha. unfold sub.
  assert (Hm : match_here ic p true s = head (matches ic (body p) s)).
  { unfold match_here. rewrite Ha. reflexivity. }
  destruct s as [| c s]; cbn [sub_from]; rewrite Hm.
  - destruct (matches ic (body p) "") as [| [rest g] l] eqn:E; [reflexivity |].
    cbn [head fst].
    destruct (matches_suffix ic (body p) "" (rest, g)) as [pre Hpre].
    { rewrite E. left. reflexivity. }
    destruct pre; push_append; [| discriminate]. cbn [fst] in Hpre. rewrite <- Hpre.
    reflexivity.
  - destruct (matches ic (body p) (String c s)) as [| [rest g] l] eqn:E; cbn [head fst].
    + rewrite sub_from_anchored by exact Ha. reflexivity.
    + destruct (matches_suffix ic (body p) (String c s) (rest, g)) as [pre Hpre].
      { rewrite E. left. reflexivity. }
      cbn [fst] in Hpre. rewrite !sub_from_anchored by exact Ha.
      f_equal. destruct pre as [| a pre]; push_append.
      * rewrite <- Hpre, Nat.eqb_refl. reflexivity.
      * injection Hpre as -> ->.
        assert (Hlen : (String.length rest =? String.length (String a (pre +:+ rest))) = false).
        { apply Nat.eqb_neq. cbn [String.length]. rewrite length_append. lia. }
        rewrite Hlen. cbn [String.length]. rewrite length_append.
        replace (S (String.length pre + String.length rest) - String.length rest - 1)
          with (String.length pre) by lia.
        apply drop_append.
Qed.

End MatcherFacts.

(** ** SQL extraction *)

Section ExtractFacts.

Import Re Extract.

Lemma spaces_greedy_head (s : string) :
  exists l, spaces_greedy s = PyStr.lstrip s :: l.
Proof.
  induction s as [s IH] using space_run_ind.
  rewrite spaces_greedy_unfold, lstrip_unfold.
  destruct (PyStr.drop_space s) as [rest |].
  - destruct (IH rest eq_refl) as [l ->]. exists (l ++ [s]). reflexivity.
  - exists []. reflexivity.
Qed.

(** Letter case does not touch the colon. *)
Lemma colon_match (s : string) :
  lit_match true ":" s
  = if String.prefix ":" s then Some (PyStr.drop 1 s) else None.
Proof.
  destruct s as [| b s]; [reflexivity |].
  rewrite prefix_cons, prefix_nil. cbn [lit_match char_match PyStr.drop].
  destruct (ascii_dec ":" b) as [<- | Hne]; [reflexivity |].
  assert (E : Ascii.eqb (PyStr.ascii_lower_char ":") (PyStr.ascii_lower_char b) = false).
  { apply Ascii.eqb_neq. intros H. apply Hne. revert H.
    destruct b as [[] [] [] [] [] [] [] []]; vm_compute; intros H;
      first [reflexivity | discriminate H]. }
  rewrite E. reflexivity.
Qed.

(** [:?\s*] takes the colon if there is one, and all the white space. *)
Lemma colon_space_head (s : string) :
  exists l,
    matches true (Cat (Opt (Lit ":")) Spaces) s = (after_label s, None) :: l.
Proof.
  cbn [matches]. rewrite colon_match. unfold after_label, drop_colon.
  destruct (String.prefix ":" s).
  - cbn [app flat_map fst snd].
    destruct (spaces_greedy_head (PyStr.drop 1 s)) as [l ->].
    cbn [map app fst snd later_group]. eexists. reflexivity.
  - cbn [app flat_map fst snd].
    destruct (spaces_greedy_head s) as [l ->].
    cbn [map app fst snd later_group]. eexists. reflexivity.
Qed.

(** The match of the label pattern at the start of a text. *)
Lemma label_match (s : string) :
  head (matches true (body label_pattern) s)
  = match after_iprefix "SQL query" s with
    | Some rest => Some (after_label rest, None)
    | None =>
        match after_iprefix "Query" s with
        | Some rest => Some (after_label rest, None)
        | None =>
            match after_iprefix "SQL" s with
            | Some rest => Some (after_label rest, None)
            | None => None
            end
        end
    end.
Proof.
  unfold label_pattern, body, after_iprefix.
  remember (Cat (Opt (Lit ":")) Spaces) as rest_pattern eqn:Hrest.
  cbn [matches].
  destruct (lit_match true "SQL query" s) as [rest |].
  { cbn [app flat_map fst snd]. subst rest_pattern.
    destruct (colon_space_head rest) as [l ->]. reflexivity. }
  destruct (lit_match true "Query" s) as [rest |].
  { cbn [app flat_map fst snd]. subst rest_pattern.
    destruct (colon_space_head rest) as [l ->]. reflexivity. }
  destruct (lit_match true "SQL" s) as [rest |].
  { cbn [app flat_map fst snd]. subst rest_pattern.
    destruct (colon_space_head rest) as [l ->]. reflexivity. }
  reflexivity.
Qed.

(** The substitution of the label pattern is the label stripping. *)
Lemma sub_label (s : string) : sub true label_pattern "" s = strip_label s.
Proof.
  rewrite sub_anchored by reflexivity. rewrite label_match. unfold strip_label.
  destruct (after_iprefix "SQL query" s); [reflexivity |].
  destruct (after_iprefix "Query" s); [reflexivity |].
  destruct (after_iprefix "SQL" s); reflexivity.
Qed.

(** Replacing the backtick by the empty string removes the backticks. *)
Lemma replace_backticks (s : string) : PyStr.replace "`" "" s = remove_backticks s.
Proof.
  unfold PyStr.replace. induction s as [| c s IH]; [reflexivity |].
  cbn [PyStr.replace_from remove_backticks]. rewrite prefix_cons, prefix_nil.
  destruct (ascii_dec "`" c) as [<- | Hne].
  - rewrite Ascii.eqb_refl. cbn [String.length Nat.sub]. rewrite IH. reflexivity.
  - assert (E : Ascii.eqb c "`" = false) by (apply Ascii.eqb_neq; congruence).
    rewrite E, IH. reflexivity.
Qed.

(** *** The fenced block *)

Lemma head_all_fences (s : string) : head (all_fences s) = find_fence s.
Proof.
  induction s as [| c s IH]; [reflexivity |].
  cbn [all_fences find_fence]. destruct (String.prefix fence (String c s)); [reflexivity |].
  cbn [app]. rewrite <- IH. destruct (all_fences s) as [| [before after] l]; reflexivity.
Qed.

Lemma find_fence_tail (c : ascii) (s : string) :
  find_fence (String c s) = None -> find_fence s = None.
Proof.
  cbn [find_fence]. destruct (String.prefix fence (String c s)); [discriminate |].
  destruct (find_fence s) as [[before after] |]; [discriminate | reflexivity].
Qed.

(** A fence in a suffix is a fence in the text. *)
Lemma find_fence_suffix (pre s : string) :
  find_fence (pre +:+ s) = None -> find_fence s = None.
Proof.
  induction pre as [| a pre IH]; push_append; intros H; [exact H |].
  apply IH. exact (find_fence_tail _ _ H).
Qed.

Lemma find_fence_split (s before after : string) :
  find_fence s = Some (before, after) -> s = before +:+ fence +:+ after.
Proof.
  revert before. induction s as [| c s IH]; intros before H; [discriminate |].
  cbn [find_fence] in H. destruct (String.prefix fence (String c s)) eqn:Hp.
  - injection H as <- <-. push_append. exact (prefix_drop _ _ Hp).
  - destruct (find_fence s) as [[b a] |]; [| discriminate].
    injection H as <- <-. push_append. rewrite <- (IH b eq_refl). reflexivity.
Qed.

(** The tag [sql] holds no backtick: a text that starts with it has a fence
    only if the text after the tag has one. *)
Lemma find_fence_tag (s : string) :
  String.prefix "sql" s = true ->
  find_fence (PyStr.drop 3 s) = None -> find_fence s = None.
Proof.
  intros Hp. rewrite (prefix_drop _ _ Hp) at 2. cbn [String.length].
  generalize (PyStr.drop 3 s). intros rest H. push_append.
  cbn [find_fence]. unfold fence. rewrite !prefix_cons.
  repeat match goal with
         | |- context [ascii_dec ?x ?y] =>
             destruct (ascii_dec x y) as [E | _]; [discriminate E |]
         end.
  rewrite H. reflexivity.
Qed.

Lemma find_fence_skip_tag (s : string) :
  find_fence (skip_tag s) = None <-> find_fence s = None.
Proof.
  unfold skip_tag. destruct (String.prefix "sql" s) eqn:Hp; [| tauto].
  split; [exact (find_fence_tag _ Hp) |].
  intros H. rewrite <- (take_drop 3 s) in H. exact (find_fence_suffix _ _ H).
Qed.

(** [(.*?)```] at [s]: one way to match for each fence of [s], the earliest
    first; the group is the text before the fence. *)
Lemma lazy_fence_candidates (whole s pre : string) :
  whole = pre +:+ s ->
  flat_map
    (fun m1 : result =>
       map (fun m2 : result => (fst m2, later_group (snd m2) (snd m1)))
         (matches false (Lit fence) (fst m1)))
    (map (fun m : result =>
            (fst m, Some (PyStr.take (String.length whole - String.length (fst m)) whole)))
       (map (fun rest : string => (rest, @None string)) (any_lazy s)))
  = map (fun sp : string * string => (snd sp, Some (pre +:+ fst sp))) (all_fences s).
Proof.
  revert pre. induction s as [| c s IH]; intros pre Hw.
  - reflexivity.
  - cbn [any_lazy map flat_map fst snd all_fences].
    rewrite (IH (pre +:+ String c "")).
    2:{ rewrite Hw, append_assoc. reflexivity. }
    rewrite map_app, map_map. f_equal.
    + cbn [matches]. rewrite lit_match_prefix. destruct (String.prefix fence (String c s)); [| reflexivity].
      cbn [map fst snd later_group]. rewrite append_empty_r.
      replace (String.length whole - String.length (String c s)) with (String.length pre).
      2:{ rewrite Hw, length_append. lia. }
      rewrite Hw, take_append. reflexivity.
    + apply map_ext. intros [before after]. cbn [fst snd].
      rewrite append_assoc. reflexivity.
Qed.

Lemma lazy_fence_matches (s : string) :
  matches false (Cat (Group LazyAny) (Lit fence)) s
  = map (fun sp : string * string => (snd sp, Some (fst sp))) (all_fences s).
Proof.
  change (matches false (Cat (Group LazyAny) (Lit fence)) s)
    with (flat_map
            (fun m1 : result =>
               map (fun m2 : result => (fst m2, later_group (snd m2) (snd m1)))
                 (matches false (Lit fence) (fst m1)))
            (map (fun m : result =>
                    (fst m, Some (PyStr.take (String.length s - String.length (fst m)) s)))
               (map (fun rest : string => (rest, @None string)) (any_lazy s)))).
  rewrite (lazy_fence_candidates s s "" eq_refl).
  apply map_ext. intros [before after]. reflexivity.
Qed.

Lemma head_fence_matches (f : result -> result) (s : string) (l : list result) :
  (forall rest g, f (rest, Some g) = (rest, Some g)) ->
  head (map f (matches false (Cat (Group LazyAny) (Lit fence)) s) ++ l)
  = match find_fence s with
    | Some (interior, after) => Some (after, Some interior)
    | None => head l
    end.
Proof.
  intros Hf. rewrite lazy_fence_matches, <- head_all_fences.
  destruct (all_fences s) as [| [before after] rest]; [reflexivity |].
  cbn [map app head fst snd]. rewrite Hf. reflexivity.
Qed.

(** The match of the block pattern at the start of a text. *)
Lemma block_match (s : string) :
  head (matches false (body sql_block_pattern) s)
  = if String.prefix fence s
    then match find_fence (skip_tag (PyStr.drop 3 s)) with
         | Some (interior, after) => Some (after, Some interior)
         | None => None
         end
    else None.
Proof.
  unfold sql_block_pattern, body.
  remember (Cat (Group LazyAny) (Lit fence)) as tail_pattern eqn:Htail.
  cbn [matches]. rewrite lit_match_prefix.
  destruct (String.prefix fence s); [| reflexivity].
  cbn [flat_map fst snd String.length fence]. rewrite app_nil_r, lit_match_prefix.
  set (rest := PyStr.drop 3 s).
  pose proof (find_fence_skip_tag rest) as Hskip. unfold skip_tag in *.
  destruct (String.prefix "sql" rest) eqn:Hp;
    cbn [app flat_map fst snd String.length]; subst tail_pattern;
    rewrite ?map_app, !map_map.
  - rewrite head_fence_matches by reflexivity.
    destruct (find_fence (PyStr.drop 3 rest)) as [[interior after] |] eqn:Hf;
      [reflexivity |].
    rewrite head_fence_matches by reflexivity.
    rewrite (proj1 Hskip eq_refl). reflexivity.
  - rewrite head_fence_matches by reflexivity.
    destruct (find_fence rest) as [[interior after] |]; reflexivity.
Qed.

(** A fenced block leaves a fence after its opening fence. *)
Lemma first_block_closing (s interior : string) :
  first_block s = Some interior ->
  exists before rest,
    s = before +:+ fence +:+ rest /\ find_fence rest <> None.
Proof.
  unfold first_block. intros H.
  destruct (find_fence s) as [[before rest] |] eqn:Ho; [| discriminate].
  exists before, rest. split; [exact (find_fence_split _ _ _ Ho) |].
  intros Hn. apply (proj2 (find_fence_skip_tag rest)) in Hn.
  rewrite Hn in H. discriminate.
Qed.

(** When the first fence of a text has no closing fence, no later position
    starts a fenced block. *)
Lemma no_block_after_open_fence (c : ascii) (s : string) :
  String.prefix fence (String c s) = true ->
  find_fence (skip_tag (PyStr.drop 3 (String c s))) = None ->
  first_block s = None.
Proof.
  intros Hp Hn. apply (proj1 (find_fence_skip_tag _)) in Hn.
  destruct (first_block s) as [interior |] eqn:Hb; [| reflexivity].
  exfalso. destruct (first_block_closing _ _ Hb) as (before & rest & Hs & Hrest).
  apply Hrest. pose proof (prefix_drop _ _ Hp) as Hsplit.
  cbn [String.length fence] in Hsplit. revert Hn Hsplit.
  generalize (PyStr.drop 3 (String c s)). intros rest0 Hn Hsplit.
  unfold fence in Hs, Hsplit. push_append. injection Hsplit as -> ->.
  destruct before as [| b1 [| b2 before]]; push_append;
    injection Hs; intros; subst.
  - exact (find_fence_tail _ _ Hn).
  - exact (find_fence_tail _ _ (find_fence_tail _ _ Hn)).
  - apply find_fence_suffix in Hn.
    exact (find_fence_tail _ _ (find_fence_tail _ _ (find_fence_tail _ _ Hn))).
Qed.

(** The first element of [re.findall] with the block pattern is the
    interior of the first fenced block. *)
Lemma findall_first_block (at_start : bool) (s : string) :
  head (findall_from false sql_block_pattern at_start 0 s) = first_block s.
Proof.
  revert at_start. induction s as [| c s IH]; intros at_start; [reflexivity |].
  cbn [findall_from]. unfold match_here. cbn [anchored sql_block_pattern andb].
  fold sql_block_pattern. rewrite block_match.
  unfold first_block at 1. cbn [find_fence].
  destruct (String.prefix fence (String c s)) eqn:Hp.
  - destruct (find_fence (skip_tag (PyStr.drop 3 (String c s))))
      as [[interior after] |] eqn:Hf.
    + reflexivity.
    + rewrite IH. exact (no_block_after_open_fence _ _ Hp Hf).
  - rewrite IH. unfold first_block.
    destruct (find_fence s) as [[before rest] |]; reflexivity.
Qed.

(** C3 (amended). For every response, [extract_sql_from_response] takes the
    interior of the first fenced block (the tag [sql] passed over), or the
    whole response when there is no block, trimmed; strips one leading label
    [SQL query], [Query] or [SQL], in any letter case, with the colon if one
    follows and the white space after it; and removes every backtick.  The
    three examples of the specification hold. *)
Theorem extract_sql_described (response : string) :
  extract_sql_from_response response
  = remove_backticks (strip_label (query_text response)) /\
  extract_sql_from_response
    ("Here:" +:+ Render.nl +:+ "```sql" +:+ Render.nl +:+ "SELECT 1;" +:+ Render.nl +:+ "```")
  = "SELECT 1;" /\
  extract_sql_from_response "SQL: SELECT 1;" = "SELECT 1;" /\
  extract_sql_from_response "" = "".
Proof.
  split; [| repeat split].
  unfold extract_sql_from_response, query_text.
  rewrite replace_backticks, sub_label. do 2 f_equal.
  pose proof (findall_first_block true response) as H.
  unfold findall. destruct (findall_from false sql_block_pattern true 0 response);
    cbn [head] in H; rewrite <- H; reflexivity.
Qed.

(** C3, as stated, fails on the code: a label without a colon is stripped
    too. *)
Lemma label_without_colon_is_stripped :
  extract_sql_from_response "SQL SELECT 1;" = "SELECT 1;" /\
  extract_as_specified "SQL SELECT 1;" = "SQL SELECT 1;" /\
  extract_sql_from_response "Query the `users` table" = "the users table" /\
  extract_as_specified "Query the `users` table" = "Query the users table" /\
  extract_sql_from_response "SQL SELECT 1;" <> extract_as_specified "SQL SELECT 1;".
Proof. repeat split. discriminate. Qed.

Example extract_as_specified_examples :
  extract_as_specified
    ("Here:" +:+ Render.nl +:+ "```sql" +:+ Render.nl +:+ "SELECT 1;" +:+ Render.nl +:+ "```")
  = "SELECT 1;" /\
  extract_as_specified "SQL: SELECT 1;" = "SELECT 1;" /\
  extract_as_specified "" = "".
Proof. repeat split. Qed.

End ExtractFacts.

(** ** The snapshot build *)

Section DictFacts.

Context {V : Type}.

Lemma dict_get_set_eq (k : string) (v : V) (d : list (string * V)) :
  Dict.get k (Dict.set k v d) = Some v.
Proof.
  induction d as [| [k' v'] d IH]; cbn [Dict.set Dict.get].
  - rewrite String.eqb_refl. reflexivity.
  - destruct (String.eqb k' k) eqn:E; cbn [Dict.get].
    + rewrite String.eqb_refl. reflexivity.
    + rewrite E. exact IH.
Qed.

Lemma dict_get_set_ne (k k' : string) (v : V) (d : list (string * V)) :
  k <> k' -> Dict.get k' (Dict.set k v d) = Dict.get k' d.
Proof.
  intros Hne. induction d as [| [k0 v0] d IH]; cbn [Dict.set Dict.get].
  - apply String.eqb_neq in Hne. rewrite Hne. reflexivity.
  - destruct (String.eqb k0 k) eqn:E; cbn [Dict.get].
    + apply String.eqb_eq in E. subst k0.
      apply String.eqb_neq in Hne. rewrite Hne. reflexivity.
    + rewrite IH. reflexivity.
Qed.

End DictFacts.

Section SnapshotFacts.

Import Snapshot.

Variable value : Type.
Variable db : catalog value.

Context {U : PyStr.Unicode}.

(** Processing the columns of a table changes the label map of the snapshot
    under construction, and nothing else of it. *)
Lemma process_columns_frame (table : string) (cs : list column) (si : schema_info value)
    (self : Inference.analyzer) :
  let r := fst (process_columns value db table si cs self) in
  tables (snd r) = tables si /\
  sample_data (snd r) = sample_data si /\
  Forall2 same_column (fst r) cs.
Proof.
  revert si self. induction cs as [| c cs IH]; intros si self.
  - cbn. repeat split. constructor.
  - cbn [process_columns]. unfold bind.
    destruct (process_column value db table si c self) as [[c' si1] self1] eqn:E1.
    specialize (IH si1 self1). cbn [snd fst].
    destruct (process_columns value db table si1 cs self1) as [[cs' si2] self2].
    cbn [fst snd ret] in *. destruct IH as (Ht & Hs & Hc).
    unfold process_column, bind in E1.
    destruct (Inference.infer_column_semantics _ _ _ _ self) as [label self'].
    destruct (PyStr.truthy label); injection E1 as <- <- <-.
    + rewrite Ht, Hs. repeat split. constructor; [| exact Hc].
      right. exists label. reflexivity.
    + rewrite Ht, Hs. repeat split. constructor; [| exact Hc]. left. reflexivity.
Qed.

Lemma process_table_spec (si : schema_info value) (table : string) (self : Inference.analyzer) :
  sample_sound value db si ->
  let si' := fst (process_table value db si table self) in
  sample_sound value db si' /\
  table_done value db si' table /\
  forall t, table_done value db si t -> table_done value db si' t.
Proof.
  intros Hsound. unfold process_table, bind.
  pose proof (process_columns_frame table (cat_columns db table) si self) as Hf.
  destruct (process_columns value db table si (cat_columns db table) self)
    as [[cs' si1] self1].
  cbn [fst snd] in Hf. destruct Hf as (Ht & Hs & Hc).
  assert (Hcomment :
    (if PyStr.truthy (comment_text (cat_table_comment db table))
     then comment_text (cat_table_comment db table) else "")
    = comment_text (cat_table_comment db table)).
  { destruct (comment_text (cat_table_comment db table)); reflexivity. }
  rewrite Hcomment.
  set (info := {| t_columns := cs'; t_comment := comment_text (cat_table_comment db table) |}).
  assert (Hexp : expected_sample value db table
                 = match sample_of value db table 3 with
                   | [] => None
                   | r :: rows => Some (r :: rows)
                   end).
  { unfold expected_sample, sample_of.
    destruct (cat_sample_rows db table 3) as [e | [| r rows]]; reflexivity. }
  assert (Hanalyzed : forall sd,
    table_analyzed value db
      {| tables := Dict.set table info (tables si1);
         relationships := relationships si1; primary_keys := primary_keys si1;
         sample_data := sd; column_semantics := column_semantics si1 |} table).
  { intros sd. exists info. cbn [tables]. rewrite dict_get_set_eq. repeat split. exact Hc. }
  assert (Hkeep : forall sd t,
    table <> t -> table_analyzed value db si t ->
    table_analyzed value db
      {| tables := Dict.set table info (tables si1);
         relationships := relationships si1; primary_keys := primary_keys si1;
         sample_data := sd; column_semantics := column_semantics si1 |} t).
  { intros sd t Hne (info' & Hg & Hrest). exists info'. cbn [tables].
    rewrite dict_get_set_ne by exact Hne. rewrite Ht. split; [exact Hg | exact Hrest]. }
  destruct (sample_of value db table 3) as [| r rows] eqn:Hsample;
    unfold ret, set_sample, set_table; cbn [fst snd tables sample_data].
  - (* no sample: the mapping is left as it is *)
    unfold sample_sound, table_done. cbn [sample_data]. rewrite Hs. repeat split.
    + exact Hsound.
    + apply Hanalyzed.
    + destruct (Hsound table) as [H | H]; congruence.
    + destruct (decide (table = t)) as [<- | Hne]; [apply Hanalyzed |].
      apply Hkeep; [exact Hne | apply H].
    + apply H.
  - (* a sample: it is recorded under the table *)
    unfold sample_sound, table_done. cbn [sample_data]. rewrite Hs. repeat split.
    + intros t. destruct (decide (table = t)) as [<- | Hne].
      * right. rewrite lookup_insert_eq. congruence.
      * rewrite lookup_insert_ne by exact Hne. apply Hsound.
    + apply Hanalyzed.
    + rewrite lookup_insert_eq. congruence.
    + destruct (decide (table = t)) as [<- | Hne]; [apply Hanalyzed |].
      apply Hkeep; [exact Hne | apply H].
    + destruct (decide (table = t)) as [<- | Hne].
      * rewrite lookup_insert_eq. congruence.
      * rewrite lookup_insert_ne by exact Hne. apply H.
Qed.

Lemma process_tables_spec (ts : list string) (si : schema_info value) (self : Inference.analyzer) :
  sample_sound value db si ->
  let si' := fst (process_tables value db si ts self) in
  (forall t, In t ts -> table_done value db si' t) /\
  (forall t, table_done value db si t -> table_done value db si' t).
Proof.
  revert si self. induction ts as [| table ts IH]; intros si self Hsound.
  - cbn. split; [intros t [] | auto].
  - cbn [process_tables]. unfold bind.
    pose proof (process_table_spec si table self Hsound) as Hstep.
    destruct (process_table value db si table self) as [si1 self1].
    cbn [fst] in Hstep. destruct Hstep as (Hsound1 & Hdone & Hkeep).
    specialize (IH si1 self1 Hsound1). cbn zeta in IH. destruct IH as [IHin IHkeep].
    split.
    + intros t [<- | Hin]; [apply IHkeep, Hdone | apply IHin, Hin].
    + intros t Ht. apply IHkeep, Hkeep, Ht.
Qed.

Lemma add_relationships_frame (fks : list foreign_key) (si : schema_info value) :
  let si' := fold_left (fun si fk => add_relationship value fk si) fks si in
  tables si' = tables si /\ sample_data si' = sample_data si.
Proof.
  revert si. induction fks as [| fk fks IH]; intros si; [split; reflexivity |].
  cbn [fold_left]. destruct (IH (add_relationship value fk si)) as [Ht Hs].
  cbn zeta. rewrite Ht, Hs. split; reflexivity.
Qed.

(** On the answers alone, every table of the catalog is analyzed and has
    the sample that its own fetch gives. *)
Lemma answers_complete (self : Inference.analyzer) (t : string) :
  In t (cat_tables db) ->
  let si := fst (snapshot_of_answers value db self) in
  table_analyzed value db si t /\
  sample_data si !! t = expected_sample value db t.
Proof.
  intros Ht. cbv zeta. unfold snapshot_of_answers, bind.
  set (si0 := {| tables := []; relationships := [];
                 primary_keys := group_primary_keys (cat_primary_key_rows db);
                 sample_data := ∅; column_semantics := ∅ |}).
  assert (Hsound : sample_sound value db si0).
  { intros t0. left. apply lookup_empty. }
  destruct (process_tables_spec (cat_tables db) si0 self Hsound) as [Hdone _].
  destruct (process_tables value db si0 (cat_tables db) self) as [si1 self1].
  cbn [fst snd modify ret] in *.
  destruct (add_relationships_frame (cat_foreign_keys db) si1) as [Ht' Hs'].
  destruct (Hdone t Ht) as [(info & Hg & Hrest) Hsample].
  split; [exists info |]; rewrite ?Ht', ?Hs'; [split; [exact Hg | exact Hrest] | exact Hsample].
Qed.

(** *** The build on the connection

    As long as no statement is refused, the build on the connection is the
    build on the answers; the statement that fails and is swallowed by
    [get_sample_data] leaves the transaction aborted, and the next statement
    of the build is refused. *)

Lemma build_state_cases (st : build_state) :
  st = running (analyzer_of st) \/ st = refusing (analyzer_of st).
Proof. destruct st as [self [|]]; [right | left]; reflexivity. Qed.

Lemma execute_answered {A : Type} (a : A) (self : Inference.analyzer) :
  execute (inr a) (running self) = (Done a, running self).
Proof. reflexivity. Qed.

Lemma execute_refused {A : Type} (answer : string + A) (self : Inference.analyzer) :
  execute answer (refusing self) = (Failed in_failed_transaction, refusing self).
Proof. reflexivity. Qed.

Lemma infer_column_semantics_runs (t c ty : string) (self : Inference.analyzer) :
  infer_column_semantics value db t c ty (running self) =
  let r := Inference.infer_column_semantics (cat_column_comments db) t c ty self in
  (Done (fst r), running (snd r)).
Proof.
  unfold infer_column_semantics. cbn [analyzer_of aborted running].
  destruct (Inference.column_semantics self !! Inference.column_key t c) as [v |] eqn:E.
  - rewrite (infer_hit _ _ _ _ _ _ E). reflexivity.
  - destruct (Inference.infer_column_semantics _ _ _ _ self). reflexivity.
Qed.

Lemma column_step_runs (t : string) (si : schema_info value) (c : column)
    (self : Inference.analyzer) :
  column_step value db t si c (running self) =
  let r := process_column value db t si c self in
  (Done (fst r), running (snd r)).
Proof.
  unfold column_step, process_column, bbind, bind.
  rewrite infer_column_semantics_runs. cbv zeta.
  destruct (Inference.infer_column_semantics _ _ _ _ self) as [label self'].
  cbn [fst snd]. destruct (PyStr.truthy label); reflexivity.
Qed.

Lemma columns_loop_runs (t : string) (cs : list column) (si : schema_info value)
    (self : Inference.analyzer) :
  columns_loop value db t si cs (running self) =
  let r := process_columns value db t si cs self in
  (Done (fst r), running (snd r)).
Proof.
  revert si self. induction cs as [| c cs IH]; intros si self; [reflexivity |].
  cbn [columns_loop process_columns]. unfold bbind, bind.
  rewrite column_step_runs. cbv zeta.
  destruct (process_column value db t si c self) as [[c' si1] self1]. cbn [fst snd].
  rewrite IH. cbv zeta.
  destruct (process_columns value db t si1 cs self1) as [[cs' si2] self2]. reflexivity.
Qed.

(** One table on a transaction that is not aborted: the step of the build
    on the answers; the transaction is aborted afterwards when the statement
    for the sample rows has failed. *)
Lemma table_step_runs (si : schema_info value) (table : string)
    (self : Inference.analyzer) :
  table_step value db si table (running self) =
  let r := process_table value db si table self in
  (Done (fst r),
   {| analyzer_of := snd r; aborted := sample_fails value db table |}).
Proof.
  unfold table_step, process_table, bbind, bind.
  unfold get_table_columns, get_comment_for_table, bbind, bret.
  rewrite !execute_answered. rewrite columns_loop_runs. cbv zeta.
  destruct (process_columns value db table si (cat_columns db table) self)
    as [[cs' si1] self1]. cbn [fst snd].
  unfold get_sample_data, or_else, sample_of, sample_fails, execute.
  cbn [aborted running analyzer_of].
  destruct (cat_sample_rows db table 3) as [e | [| r rows]]; reflexivity.
Qed.

(** One table on an aborted transaction: the first statement of the step is
    refused. *)
Lemma table_step_refused (si : schema_info value) (table : string)
    (self : Inference.analyzer) :
  table_step value db si table (refusing self)
  = (Failed in_failed_transaction, refusing self).
Proof. reflexivity. Qed.

Lemma tables_loop_runs (ts : list string) (si : schema_info value)
    (self : Inference.analyzer) :
  samples_answered value db ts = true ->
  tables_loop value db si ts (running self) =
  let r := process_tables value db si ts self in
  (Done (fst r),
   {| analyzer_of := snd r; aborted := ends_aborted value db ts |}).
Proof.
  revert si self. induction ts as [| table ts IH]; intros si self Hans; [reflexivity |].
  cbn [tables_loop process_tables]. unfold bbind, bind.
  rewrite table_step_runs. cbv zeta.
  destruct (process_table value db si table self) as [si1 self1]. cbn [fst snd].
  destruct ts as [| table' ts']; [reflexivity |].
  cbn [samples_answered] in Hans. apply andb_true_iff in Hans as [Hok Hrest].
  apply negb_true_iff in Hok. rewrite Hok.
  change {| analyzer_of := self1; aborted := false |} with (running self1).
  rewrite (IH si1 self1 Hrest). reflexivity.
Qed.

Lemma tables_loop_aborts (ts : list string) (si : schema_info value)
    (self : Inference.analyzer) :
  samples_answered value db ts = false ->
  fst (tables_loop value db si ts (running self)) = Failed in_failed_transaction.
Proof.
  revert si self. induction ts as [| table ts IH]; intros si self Hans; [discriminate |].
  cbn [tables_loop]. unfold bbind.
  rewrite table_step_runs. cbv zeta.
  destruct (process_table value db si table self) as [si1 self1]. cbn [fst snd].
  destruct ts as [| table' ts']; [discriminate |].
  cbn [samples_answered] in Hans.
  destruct (sample_fails value db table) eqn:Hfail.
  - change {| analyzer_of := self1; aborted := true |} with (refusing self1).
    cbn [tables_loop]. unfold bbind. rewrite table_step_refused. reflexivity.
  - cbn [negb andb] in Hans.
    change {| analyzer_of := self1; aborted := false |} with (running self1).
    apply IH. exact Hans.
Qed.

(** The build returns when no statement for sample rows fails before the
    one of the last table: it returns the snapshot of the answers. *)
Lemma analyze_schema_runs (self : Inference.analyzer) :
  samples_answered value db (cat_tables db) = true ->
  analyze_schema value db (running self) =
  let r := snapshot_of_answers value db self in
  (Done (fst r),
   {| analyzer_of := snd r; aborted := ends_aborted value db (cat_tables db) |}).
Proof.
  intros Hans. unfold analyze_schema, snapshot_of_answers, bbind, bind.
  unfold get_tables, get_foreign_keys, get_primary_keys, bbind, bret.
  rewrite !execute_answered.
  rewrite (tables_loop_runs _ _ _ Hans). cbv zeta.
  destruct (process_tables value db _ (cat_tables db) self) as [si1 self1].
  reflexivity.
Qed.

(** A statement for sample rows that fails before the one of the last table
    makes the build raise. *)
Lemma analyze_schema_aborts (self : Inference.analyzer) :
  samples_answered value db (cat_tables db) = false ->
  fst (analyze_schema value db (running self)) = Failed in_failed_transaction.
Proof.
  intros Hans. unfold analyze_schema, bbind.
  unfold get_tables, get_foreign_keys, get_primary_keys, bbind, bret.
  rewrite !execute_answered.
  pose proof (tables_loop_aborts (cat_tables db)
                {| tables := []; relationships := [];
                   primary_keys := group_primary_keys (cat_primary_key_rows db);
                   sample_data := ∅; column_semantics := ∅ |} self Hans) as Hloop.
  destruct (tables_loop value db _ (cat_tables db) (running self)) as [[si | e] st].
  - discriminate Hloop.
  - exact Hloop.
Qed.

Lemma analyze_schema_refused (self : Inference.analyzer) :
  fst (analyze_schema value db (refusing self)) = Failed in_failed_transaction.
Proof. reflexivity. Qed.

(** What a build that returns has returned. *)
Lemma analyze_schema_done (st st' : build_state) (si : schema_info value) :
  analyze_schema value db st = (Done si, st') ->
  aborted st = false /\
  samples_answered value db (cat_tables db) = true /\
  si = fst (snapshot_of_answers value db (analyzer_of st)) /\
  analyzer_of st' = snd (snapshot_of_answers value db (analyzer_of st)).
Proof.
  intros Hdone.
  destruct (build_state_cases st) as [Hst | Hst]; rewrite Hst in Hdone.
  - destruct (samples_answered value db (cat_tables db)) eqn:Hans.
    + rewrite (analyze_schema_runs _ Hans) in Hdone. cbv zeta in Hdone.
      injection Hdone as <- <-. rewrite Hst at 1. repeat split.
    + pose proof (analyze_schema_aborts (analyzer_of st) Hans) as Hf.
      rewrite Hdone in Hf. discriminate Hf.
  - pose proof (analyze_schema_refused (analyzer_of st)) as Hf.
    rewrite Hdone in Hf. discriminate Hf.
Qed.

(** When the build returns, every table of the catalog is analyzed and has
    the sample that its own fetch gives: a sample fetch that fails for the
    last table is isolated. *)
Lemma returned_snapshot_is_complete (st st' : build_state) (si : schema_info value) :
  analyze_schema value db st = (Done si, st') ->
  forall t, In t (cat_tables db) ->
    table_analyzed value db si t /\
    sample_data si !! t = expected_sample value db t.
Proof.
  intros Hdone t Ht.
  destruct (analyze_schema_done _ _ _ Hdone) as (_ & _ & -> & _).
  exact (answers_complete (analyzer_of st) t Ht).
Qed.

(** A table whose sample fetch fails, and which is not the last table that
    the server lists, makes the build raise: the failure is swallowed, and
    the next statement is refused. *)
Lemma samples_answered_false (ts : list string) (table : string) :
  In table (removelast ts) ->
  sample_fails value db table = true ->
  samples_answered value db ts = false.
Proof.
  induction ts as [| t ts IH]; intros Hin Hfail; [destruct Hin |].
  destruct ts as [| t' ts']; [destruct Hin |].
  change (samples_answered value db (t :: t' :: ts'))
    with (negb (sample_fails value db t) && samples_answered value db (t' :: ts')).
  cbn [removelast] in Hin, IH.
  destruct Hin as [<- | Hin].
  - rewrite Hfail. reflexivity.
  - rewrite (IH Hin Hfail). apply andb_false_r.
Qed.

Lemma sample_failure_raises (self : Inference.analyzer) (table e : string) :
  In table (removelast (cat_tables db)) ->
  cat_sample_rows db table 3 = inl e ->
  fst (analyze_schema value db (running self)) = Failed in_failed_transaction.
Proof.
  intros Hin Hfail. apply analyze_schema_aborts.
  apply (samples_answered_false _ table Hin).
  unfold sample_fails. rewrite Hfail. reflexivity.
Qed.

End SnapshotFacts.

(** ** The renderers *)

Section RenderFacts.

Import Snapshot Render.

Variable value : Type.
Variable str_value : value -> string.
Variable str_row : row value -> string.

Lemma concat_cons (x : string) (l : list string) :
  String.concat "" (x :: l) = x +:+ String.concat "" l.
Proof.
  destruct l as [| y l]; cbn [String.concat]; push_append;
    [rewrite append_empty_r |]; reflexivity.
Qed.

Lemma concat_app (l1 l2 : list string) :
  String.concat "" (l1 ++ l2) = String.concat "" l1 +:+ String.concat "" l2.
Proof.
  induction l1 as [| x l1 IH]; [reflexivity |].
  rewrite <- app_comm_cons, !concat_cons, IH, append_assoc. reflexivity.
Qed.

(** The text rendered for one element of a list is a piece of the text
    rendered for the list. *)
Lemma concat_map_in {A : Type} (f : A -> string) (x : A) (l : list A) :
  In x l ->
  exists before after, String.concat "" (map f l) = before +:+ f x +:+ after.
Proof.
  intros H. apply in_split in H as (l1 & l2 & ->).
  rewrite map_app, concat_app, map_cons, concat_cons.
  eexists. eexists. reflexivity.
Qed.

(** With a label on the owning side and none on the referenced side, the
    connective names the referenced table. *)
Lemma connective_names_table (fk_semantic references_table : string) :
  PyStr.truthy fk_semantic = true ->
  connective fk_semantic "" references_table
  = fk_semantic +:+ " to " +:+ references_table +:+ ")".
Proof.
  intros H. unfold connective. rewrite H. cbn [PyStr.truthy].
  rewrite append_assoc. reflexivity.
Qed.

(** C10. For a relationship whose owning column has a non-empty label and
    whose referenced column has none, the human description contains the
    lines [  - t.c references rt.rc] and [    (Connects {label} to {rt})],
    and the model brief contains the line
    [- t.c -> rt.rc (Connects {label} to {rt})] (with the arrow U+2192):
    both name the referenced table after [to]. *)
Theorem connective_falls_back_to_table (si : schema_info value) (rel : relationship) :
  In rel (relationships si) ->
  let fk_semantic :=
    get_semantic (column_semantics si) (dotted (rel_table rel) (rel_column rel)) in
  PyStr.truthy fk_semantic = true ->
  get_semantic (column_semantics si)
    (dotted (references_table rel) (references_column rel)) = "" ->
  (exists before after,
     generate_schema_description value str_row si =
     before +:+
     ("  - " +:+ dotted (rel_table rel) (rel_column rel) +:+ " references " +:+
      dotted (references_table rel) (references_column rel) +:+ nl +:+
      "    (Connects " +:+ fk_semantic +:+ " to " +:+ references_table rel +:+ ")" +:+ nl)
     +:+ after) /\
  (exists before after,
     generate_schema_for_llm value str_value si =
     before +:+
     ("- " +:+ dotted (rel_table rel) (rel_column rel) +:+ " " +:+ arrow +:+ " " +:+
      dotted (references_table rel) (references_column rel) +:+
      " (Connects " +:+ fk_semantic +:+ " to " +:+ references_table rel +:+ ")" +:+ nl)
     +:+ after).
Proof.
  intros Hin fk_semantic Hfk Hpk. split.
  - destruct (concat_map_in (describe_relationship value si) rel _ Hin)
      as (before & after & Hcat).
    unfold generate_schema_description.
    destruct (relationships si) as [| r0 rels] eqn:Hrels; [destruct Hin |].
    rewrite Hcat.
    assert (Hline : describe_relationship value si rel =
      "  - " +:+ dotted (rel_table rel) (rel_column rel) +:+ " references " +:+
      dotted (references_table rel) (references_column rel) +:+ nl +:+
      "    (Connects " +:+ fk_semantic +:+ " to " +:+ references_table rel +:+ ")" +:+ nl).
    { unfold describe_relationship. fold fk_semantic. rewrite Hpk, Hfk.
      cbn [orb]. rewrite (connective_names_table _ _ Hfk).
      rewrite !append_assoc. reflexivity. }
    rewrite Hline.
    exists ("Database Schema:" +:+ nl +:+ nl +:+
            String.concat "" (map (describe_table value str_row si) (tables si)) +:+
            "Relationships:" +:+ nl +:+ before), after.
    rewrite !append_assoc. reflexivity.
  - destruct (concat_map_in (brief_relationship value si) rel _ Hin)
      as (before & after & Hcat).
    unfold generate_schema_for_llm.
    destruct (relationships si) as [| r0 rels] eqn:Hrels; [destruct Hin |].
    rewrite Hcat.
    assert (Hline : brief_relationship value si rel =
      "- " +:+ dotted (rel_table rel) (rel_column rel) +:+ " " +:+ arrow +:+ " " +:+
      dotted (references_table rel) (references_column rel) +:+
      " (Connects " +:+ fk_semantic +:+ " to " +:+ references_table rel +:+ ")" +:+ nl).
    { unfold brief_relationship. fold fk_semantic. rewrite Hpk, Hfk.
      cbn [orb]. rewrite (connective_names_table _ _ Hfk).
      rewrite !append_assoc. reflexivity. }
    rewrite Hline.
    exists ("# Database Schema" +:+ nl +:+ nl +:+ guidance +:+
            String.concat "" (map (brief_table value str_value si) (tables si)) +:+
            "## Relationships" +:+ nl +:+ nl +:+ before),
           (after +:+ brief_date_reference value si).
    rewrite !append_assoc. reflexivity.
Qed.

End RenderFacts.

(** ** The question flow *)

Section SessionFacts.

Import Session.
Local Open Scope flow_scope.

Variable env : collaborators.

Lemma record_record (l1 l2 : list event) (w : world) :
  record l2 (record l1 w) = record (l1 ++ l2) w.
Proof. unfold record. cbn. rewrite <- app_assoc. reflexivity. Qed.

Lemma record_with_entry (l : list event) (entry : history_entry) (w : world) :
  record l (with_entry entry w) = with_entry entry (record l w).
Proof. reflexivity. Qed.

(** With a connection object present, [execute_query] goes straight to the
    driver: it neither checks that the connection is live nor connects
    again. *)
Lemma execute_query_connected (query : string) (w : world) (c : conn) :
  connection w = Some c ->
  execute_query env query w =
  match drv_cursor env (trace w) c with
  | Some e => (Raise e, w)
  | None =>
      match drv_execute env (trace w) c query with
      | inr r => (Return r, record [DbExecute c query] w)
      | inl e => (Raise ("Error executing query: " +:+ e), record [DbExecute c query] w)
      end
  end.
Proof.
  intros Hc. unfold execute_query, fbind, get_world. rewrite Hc. cbn. rewrite Hc.
  destruct (drv_cursor env (trace w) c); [reflexivity |].
  unfold emit. destruct (drv_execute env (trace w) c query); reflexivity.
Qed.

Lemma explain_results_answer (question sql_query : string) (results : list row)
    (error : option string) (w : world) :
  explain_results env question sql_query results error w =
  let error := effective_error error in
  match llm_explain env question sql_query results error with
  | inr text => (Return (PyStr.strip text), record [LlmExplain question sql_query error] w)
  | inl e => (Raise e, record [LlmExplain question sql_query error] w)
  end.
Proof.
  unfold explain_results, fbind, emit, answer. cbv zeta.
  destruct (llm_explain env question sql_query results (effective_error error));
    reflexivity.
Qed.

Section OneRun.

Variable wd : widgets.

(** In a run at most one button is pressed. *)
Lemma one_button_per_run (a b : button) :
  pressed a wd = true -> a <> b -> pressed b wd = false.
Proof.
  unfold pressed. destruct (clicked wd) as [c |]; [| discriminate].
  destruct a, b, c; cbn; congruence.
Qed.

(** The generated query fails: the [try] body raises after the statement
    has been sent, and the history is as it was. *)
Lemma run_generated_query_fails (sql_query e : string) (w : world) (c : conn) :
  connection w = Some c ->
  drv_cursor env (trace w) c = None ->
  drv_execute env (trace w) c sql_query = inl e ->
  Main.run_generated_query env wd sql_query w
  = (Raise ("Error executing query: " +:+ e), record [DbExecute c sql_query] w).
Proof.
  intros Hc Hcur Hex. unfold Main.run_generated_query, fbind.
  rewrite (execute_query_connected _ _ _ Hc), Hcur, Hex. reflexivity.
Qed.

(** The generated query is answered and explained: the answer is shown and
    the entry of the query ends the history. *)
Lemma run_generated_query_succeeds (sql_query explanation : string)
    (results : list row) (columns : list string) (w : world) (c : conn) :
  connection w = Some c ->
  drv_cursor env (trace w) c = None ->
  drv_execute env (trace w) c sql_query = inr (results, columns) ->
  llm_explain env (question wd) sql_query results None = inr explanation ->
  exists shown,
    Main.run_generated_query env wd sql_query w
    = (Return tt,
       with_entry
         {| h_question := question wd;
            h_sql_query := sql_query;
            h_results_count := length results;
            h_explanation := PyStr.strip explanation;
            h_timestamp := timestamp env |}
         (record ([DbExecute c sql_query; LlmExplain (question wd) sql_query None;
                   UiWrite (PyStr.strip explanation)] ++ shown) w)).
Proof.
  intros Hc Hcur Hex Hexp. unfold Main.run_generated_query, fbind.
  rewrite (execute_query_connected _ _ _ Hc), Hcur, Hex.
  rewrite explain_results_answer. cbn [effective_error]. rewrite Hexp.
  unfold emit, append_history, when.
  destruct (nonempty results && nonempty columns); eexists;
    unfold emit, fret; rewrite ?record_record; reflexivity.
Qed.

(** The [except] clause of the generated query in a run started by
    [Generate SQL]: the button [Execute Fixed Query] is not pressed in that
    run, and the replacement is not executed. *)
Lemma on_query_error_shows (sql_query e : string) (w : world) :
  submit_button wd = true ->
  Main.on_query_error env wd sql_query e w =
  let shown := [UiError ("Error executing the query: " +:+ e);
                LlmExplain (question wd) sql_query (effective_error (Some e))] in
  match llm_explain env (question wd) sql_query [] (effective_error (Some e)) with
  | inr text => (Return tt, record (shown ++ [UiWrite (PyStr.strip text)]) w)
  | inl e' => (Raise e', record shown w)
  end.
Proof.
  intros Hsub.
  assert (Hfix : execute_fixed_button wd = false).
  { apply (one_button_per_run GenerateSql); [exact Hsub | discriminate]. }
  unfold Main.on_query_error, fbind, emit.
  rewrite explain_results_answer. cbv zeta.
  destruct (llm_explain env (question wd) sql_query [] (effective_error (Some e)));
    rewrite ?Hfix; cbn [when]; unfold fret; rewrite ?record_record; reflexivity.
Qed.

(** The question block of a run started by [Generate SQL], up to the
    execution of the query that the model wrote. *)
Lemma process_question_generated (w : world) (raw : string) :
  connected w = true ->
  llm_initialized w = true ->
  submit_button wd = true ->
  PyStr.truthy (question wd) = true ->
  llm_generate env (schema_for_llm w) (question wd) = inr raw ->
  let sql_query := Extract.extract_sql_from_response raw in
  Main.process_question env wd w
  = try_except
      (try_except (Main.run_generated_query env wd sql_query)
         (Main.on_query_error env wd sql_query))
      (fun e => emit (UiError ("Error generating SQL: " +:+ e)))
      (record [LlmGenerate (question wd); UiText raw; UiCode sql_query] w).
Proof.
  intros Hcon Hllm Hsub Hq Hgen sql_query.
  unfold Main.process_question, fbind, get_world.
  rewrite Hsub, Hq, Hcon, Hllm. cbn [andb negb orb when].
  unfold try_except at 1. unfold generate_response, fbind, get_world, emit, answer.
  rewrite Hgen. unfold fret. cbv beta iota. fold sql_query.
  rewrite !record_record. reflexivity.
Qed.

(** The manual block of a run in which [Execute Manual Query] is not
    pressed, on a connected session: nothing is done. *)
Lemma manual_block_idle (w : world) :
  connected w = true ->
  execute_manual_button wd = false ->
  Main.manual_block env wd w = (Return tt, w).
Proof.
  intros Hcon Hbtn. unfold Main.manual_block, fbind, get_world.
  rewrite Hcon, Hbtn. reflexivity.
Qed.

(** C7 (amended). An attempt is recorded in the history when its query is
    answered and explained, and not when it fails.  In a run started by
    [Generate SQL] in which the driver fails on the generated query, the
    statement has been sent, the error is shown and the model is asked to
    analyse it, and the history is as it was: the failing attempt has no
    entry.  When the query is answered and its explanation is obtained, the
    history gains exactly the entry of the query. *)
Theorem failed_attempt_leaves_no_entry (w : world) (c : conn) (raw : string) :
  connected w = true ->
  llm_initialized w = true ->
  clicked wd = Some GenerateSql ->
  PyStr.truthy (question wd) = true ->
  connection w = Some c ->
  llm_generate env (schema_for_llm w) (question wd) = inr raw ->
  let sql_query := Extract.extract_sql_from_response raw in
  let sent := trace w ++ [LlmGenerate (question wd); UiText raw; UiCode sql_query] in
  drv_cursor env sent c = None ->
  let run := Main.main env wd w in
  (forall e,
     drv_execute env sent c sql_query = inl e ->
     fst run = Return tt /\
     query_history (snd run) = query_history w /\
     exists rest,
       trace (snd run)
       = sent ++
         [DbExecute c sql_query;
          UiError ("Error executing the query: Error executing query: " +:+ e);
          LlmExplain (question wd) sql_query (Some ("Error executing query: " +:+ e))]
         ++ rest) /\
  (forall results columns explanation,
     drv_execute env sent c sql_query = inr (results, columns) ->
     llm_explain env (question wd) sql_query results None = inr explanation ->
     fst run = Return tt /\
     query_history (snd run)
     = query_history w ++
       [{| h_question := question wd;
           h_sql_query := sql_query;
           h_results_count := length results;
           h_explanation := PyStr.strip explanation;
           h_timestamp := timestamp env |}]).
Proof.
  intros Hcon Hllm Hclick Hq Hc Hgen sql_query sent Hcur run.
  assert (Hsub : submit_button wd = true).
  { unfold submit_button, pressed. rewrite Hclick. reflexivity. }
  assert (Hman : execute_manual_button wd = false).
  { unfold execute_manual_button, pressed. rewrite Hclick. reflexivity. }
  pose proof (process_question_generated w raw Hcon Hllm Hsub Hq Hgen) as Hrun.
  cbv zeta in Hrun. fold sql_query in Hrun.
  set (w1 := record [LlmGenerate (question wd); UiText raw; UiCode sql_query] w) in Hrun.
  assert (Hc1 : connection w1 = Some c) by exact Hc.
  assert (Ht1 : trace w1 = sent) by reflexivity.
  split.
  - intros e Hex.
    assert (Hfail := run_generated_query_fails sql_query e w1 c Hc1).
    rewrite Ht1 in Hfail. specialize (Hfail Hcur Hex).
    unfold run, Main.main, fbind. rewrite Hrun.
    unfold try_except. rewrite Hfail.
    rewrite (on_query_error_shows _ _ _ Hsub). cbv zeta.
    assert (Heff : effective_error (Some ("Error executing query: " +:+ e))
                   = Some ("Error executing query: " +:+ e)).
    { unfold effective_error. rewrite append_cons. reflexivity. }
    rewrite Heff.
    destruct (llm_explain env (question wd) sql_query [] _) as [e' | text];
      unfold emit; rewrite ?record_record.
    + rewrite manual_block_idle; [| exact Hcon | exact Hman].
      cbn [fst snd]. split; [reflexivity |]. split; [reflexivity |].
      eexists. unfold w1. rewrite record_record. cbn [trace record].
      unfold sent. rewrite <- !app_assoc. cbn [app]. reflexivity.
    + rewrite manual_block_idle; [| exact Hcon | exact Hman].
      cbn [fst snd]. split; [reflexivity |]. split; [reflexivity |].
      eexists. unfold w1. rewrite record_record. cbn [trace record].
      unfold sent. rewrite <- !app_assoc. cbn [app]. reflexivity.
  - intros results columns explanation Hex Hexp.
    assert (Hok := run_generated_query_succeeds sql_query explanation results columns
                     w1 c Hc1).
    rewrite Ht1 in Hok. destruct (Hok Hcur Hex Hexp) as [shown Hdone].
    unfold run, Main.main, fbind. rewrite Hrun.
    unfold try_except. rewrite Hdone.
    rewrite manual_block_idle; [| exact Hcon | exact Hman].
    split; reflexivity.
Qed.

(** The run that a click on [Execute Fixed Query] starts, on a connected
    session: in that run [Generate SQL] is not pressed, the question block
    is skipped, and the replacement is not executed. *)
Lemma fixed_query_is_not_executed (w : world) :
  connected w = true ->
  clicked wd = Some ExecuteFixedQuery ->
  Main.main env wd w = (Return tt, w).
Proof.
  intros Hcon Hclick. unfold Main.main, fbind, Main.process_question, get_world.
  unfold submit_button, pressed. rewrite Hclick. cbn [button_eqb andb when fret].
  apply manual_block_idle; [exact Hcon |].
  unfold execute_manual_button, pressed. rewrite Hclick. reflexivity.
Qed.

End OneRun.

End SessionFacts.

(** *** No liveness check in [pg-query/streamlit.py] *)

Import Session.

Lemma quiet_fret {A : Type} (a : A) : never_checks_liveness (fret a).
Proof. intros w. exists []. cbn. rewrite app_nil_r. split; reflexivity. Qed.

Lemma quiet_raise {A : Type} (e : string) : never_checks_liveness (@raise A e).
Proof. intros w. exists []. cbn. rewrite app_nil_r. split; reflexivity. Qed.

Lemma quiet_emit (e : event) :
  is_liveness_check e = false -> never_checks_liveness (emit e).
Proof. intros H w. exists [e]. cbn. rewrite H. split; reflexivity. Qed.

Lemma quiet_append_history (entry : history_entry) :
  never_checks_liveness (append_history entry).
Proof. intros w. exists []. cbn. rewrite app_nil_r. split; reflexivity. Qed.

Lemma quiet_set_connection (c : conn) : never_checks_liveness (set_connection c).
Proof. intros w. exists []. cbn. rewrite app_nil_r. split; reflexivity. Qed.

Lemma quiet_bind {A B : Type} (m : Flow A) (k : A -> Flow B) :
  never_checks_liveness m ->
  (forall a, never_checks_liveness (k a)) ->
  never_checks_liveness (fbind m k).
Proof.
  intros Hm Hk w. unfold fbind. destruct (Hm w) as (l1 & Ht1 & Hq1).
  destruct (m w) as [[a | e |] w1]; cbn [snd] in *.
  - destruct (Hk a w1) as (l2 & Ht2 & Hq2). exists (l1 ++ l2).
    rewrite Ht2, Ht1, <- app_assoc, forallb_app, Hq1, Hq2. split; reflexivity.
  - exists l1. split; assumption.
  - exists l1. split; assumption.
Qed.

Lemma quiet_get_world {B : Type} (k : world -> Flow B) :
  (forall w0, never_checks_liveness (k w0)) ->
  never_checks_liveness (fbind get_world k).
Proof. intros Hk w. unfold fbind, get_world. apply Hk. Qed.

Lemma quiet_try_except {A : Type} (m : Flow A) (handler : string -> Flow A) :
  never_checks_liveness m ->
  (forall e, never_checks_liveness (handler e)) ->
  never_checks_liveness (try_except m handler).
Proof.
  intros Hm Hh w. unfold try_except. destruct (Hm w) as (l1 & Ht1 & Hq1).
  destruct (m w) as [[a | e |] w1]; cbn [snd] in *.
  - exists l1. split; assumption.
  - destruct (Hh e w1) as (l2 & Ht2 & Hq2). exists (l1 ++ l2).
    rewrite Ht2, Ht1, <- app_assoc, forallb_app, Hq1, Hq2. split; reflexivity.
  - exists l1. split; assumption.
Qed.

Lemma quiet_when (cond : bool) (body : Flow unit) :
  never_checks_liveness body -> never_checks_liveness (when cond body).
Proof. intros H. destruct cond; [exact H | apply quiet_fret]. Qed.

Lemma quiet_answer {A : Type} (r : string + A) : never_checks_liveness (answer r).
Proof. destruct r; [apply quiet_raise | apply quiet_fret]. Qed.

Ltac quiet_step :=
  lazymatch goal with
  | |- never_checks_liveness (fret _) => apply quiet_fret
  | |- never_checks_liveness (raise _) => apply quiet_raise
  | |- never_checks_liveness (append_history _) => apply quiet_append_history
  | |- never_checks_liveness (set_connection _) => apply quiet_set_connection
  | |- never_checks_liveness (answer _) => apply quiet_answer
  | |- never_checks_liveness (emit _) => apply quiet_emit; reflexivity
  | |- never_checks_liveness (fbind get_world _) => apply quiet_get_world; intros ?
  | |- never_checks_liveness (fbind _ _) => apply quiet_bind; [| intros ?]
  | |- never_checks_liveness (try_except _ _) => apply quiet_try_except; [| intros ?]
  | |- never_checks_liveness (when _ _) => apply quiet_when
  | |- never_checks_liveness (match ?x with _ => _ end) => destruct x
  end.

Ltac quiet := repeat quiet_step.

Lemma quiet_connect (env : collaborators) : never_checks_liveness (connect env).
Proof. unfold connect. quiet. Qed.

Lemma quiet_execute_query (env : collaborators) (query : string) :
  never_checks_liveness (execute_query env query).
Proof. unfold execute_query. quiet. apply quiet_connect. Qed.

Lemma quiet_generate_response (env : collaborators) (question : string) :
  never_checks_liveness (generate_response env question).
Proof. unfold generate_response. quiet. Qed.

Lemma quiet_explain_results (env : collaborators) (question sql_query : string)
    (results : list row) (error : option string) :
  never_checks_liveness (explain_results env question sql_query results error).
Proof. unfold explain_results. quiet. Qed.

Ltac quiet_flow :=
  repeat lazymatch goal with
         | |- never_checks_liveness (connect _) => apply quiet_connect
         | |- never_checks_liveness (execute_query _ _) => apply quiet_execute_query
         | |- never_checks_liveness (generate_response _ _) =>
             apply quiet_generate_response
         | |- never_checks_liveness (explain_results _ _ _ _ _) =>
             apply quiet_explain_results
         | |- _ => quiet_step
         end.

(** On no input does [main] of [pg-query/streamlit.py] check that the
    connection is live. *)
Theorem main_never_checks_liveness (env : collaborators) (wd : widgets) :
  never_checks_liveness (Main.main env wd).
Proof.
  unfold Main.main, Main.process_question, Main.manual_block,
    Main.run_generated_query, Main.on_query_error, Main.run_fixed_query.
  quiet_flow.
Qed.


(** *** What is sent to the database *)

Lemma quiet_extends {A : Type} (m : Flow A) (w : world) :
  never_checks_liveness m -> exists added, trace (snd (m w)) = trace w ++ added.
Proof. intros H. destruct (H w) as (added & Ht & _). exists added. exact Ht. Qed.

Lemma starts_with_bind {A B : Type} (e : event) (m : Flow A) (k : A -> Flow B)
    (w : world) :
  starts_with e m w ->
  (forall a, never_checks_liveness (k a)) ->
  starts_with e (fbind m k) w.
Proof.
  intros [rest Hm] Hk. unfold starts_with, fbind.
  destruct (m w) as [[a | e' |] w1]; cbn [snd] in *.
  - destruct (quiet_extends (k a) w1 (Hk a)) as [added Ha].
    exists (rest ++ added). rewrite Ha, Hm, <- app_assoc. reflexivity.
  - exists rest. exact Hm.
  - exists rest. exact Hm.
Qed.

Lemma starts_with_try_except {A : Type} (e : event) (m : Flow A)
    (handler : string -> Flow A) (w : world) :
  starts_with e m w ->
  (forall e', never_checks_liveness (handler e')) ->
  starts_with e (try_except m handler) w.
Proof.
  intros [rest Hm] Hh. unfold starts_with, try_except.
  destruct (m w) as [[a | e' |] w1]; cbn [snd] in *.
  - exists rest. exact Hm.
  - destruct (quiet_extends (handler e') w1 (Hh e')) as [added Ha].
    exists (rest ++ added). rewrite Ha, Hm, <- app_assoc. reflexivity.
  - exists rest. exact Hm.
Qed.

Section EmptyExtraction.

Local Open Scope flow_scope.

Variable env : collaborators.
Variable wd : widgets.

(** [main] of [pg-query/ui/streamlit.py] stops on an empty extraction:
    nothing is sent to the database, and the message shown is not the one of
    an execution error. *)
Lemma ui_stops_on_empty_extraction (w : world) (raw : string) :
  connected w = true ->
  llm_initialized w = true ->
  submit_button wd = true ->
  PyStr.truthy (question wd) = true ->
  llm_generate env (schema_for_llm w) (question wd) = inr raw ->
  Extract.extract_sql_from_response raw = "" ->
  UiMain.process_question env wd w
  = (Stopped,
     record [LlmGenerate (question wd); UiText raw;
             UiError "Failed to generate a valid SQL query. The LLM did not provide a query in the correct format (between triple backticks).";
             UiText raw] w).
Proof.
  intros Hcon Hllm Hsub Hq Hgen Hex.
  unfold UiMain.process_question, fbind, get_world.
  rewrite Hsub, Hq, Hcon, Hllm. cbn [andb negb orb when].
  unfold try_except, generate_response, fbind, get_world, emit, answer.
  rewrite Hgen. unfold fret. cbv beta iota. rewrite Hex.
  cbn [PyStr.truthy negb when]. unfold fbind, emit, stop.
  rewrite !record_record. reflexivity.
Qed.

(** [main] of [pg-query/streamlit.py] sends to the database whatever the
    extraction yields, the empty string included. *)
Lemma main_executes_the_extraction (w : world) (raw : string) (c : conn) :
  connected w = true ->
  llm_initialized w = true ->
  submit_button wd = true ->
  PyStr.truthy (question wd) = true ->
  llm_generate env (schema_for_llm w) (question wd) = inr raw ->
  connection w = Some c ->
  drv_cursor env
    (trace w ++ [LlmGenerate (question wd); UiText raw;
                 UiCode (Extract.extract_sql_from_response raw)]) c = None ->
  exists rest,
    trace (snd (Main.process_question env wd w))
    = trace w ++
      [LlmGenerate (question wd); UiText raw;
       UiCode (Extract.extract_sql_from_response raw);
       DbExecute c (Extract.extract_sql_from_response raw)] ++ rest.
Proof.
  intros Hcon Hllm Hsub Hq Hgen Hc Hcur.
  set (sql_query := Extract.extract_sql_from_response raw) in *.
  set (w1 := record [LlmGenerate (question wd); UiText raw; UiCode sql_query] w).
  assert (Hrun : Main.process_question env wd w
                 = try_except
                     (try_except (Main.run_generated_query env wd sql_query)
                        (Main.on_query_error env wd sql_query))
                     (fun e => emit (UiError ("Error generating SQL: " +:+ e))) w1).
  { unfold Main.process_question, fbind, get_world.
    rewrite Hsub, Hq, Hcon, Hllm. cbn [andb negb orb when].
    unfold try_except at 1. unfold generate_response, fbind, get_world, emit, answer.
    rewrite Hgen. unfold fret. cbv beta iota. fold sql_query.
    rewrite !record_record. reflexivity. }
  rewrite Hrun.
  assert (Hstart : starts_with (DbExecute c sql_query)
                     (try_except
                        (try_except (Main.run_generated_query env wd sql_query)
                           (Main.on_query_error env wd sql_query))
                        (fun e => emit (UiError ("Error generating SQL: " +:+ e)))) w1).
  { apply starts_with_try_except; [| intros e'; quiet_flow].
    apply starts_with_try_except.
    2:{ intros e'. unfold Main.on_query_error, Main.run_fixed_query. quiet_flow. }
    unfold Main.run_generated_query. apply starts_with_bind; [| intros a; quiet_flow].
    unfold starts_with. rewrite (execute_query_connected env sql_query w1 c Hc).
    change (trace w1)
      with (trace w ++ [LlmGenerate (question wd); UiText raw; UiCode sql_query]).
    rewrite Hcur.
    destruct (drv_execute env _ c sql_query); exists []; reflexivity. }
  destruct Hstart as [rest Hrest]. exists rest. rewrite Hrest.
  unfold w1. cbn [trace record]. rewrite <- app_assoc. reflexivity.
Qed.

End EmptyExtraction.

(** ** The properties on concrete runs *)

Section ConcreteRuns.

Import Scenario.

Local Existing Instance ascii_only.

(** C4 on the code. The model answers with nothing and the extraction is
    empty.  [main] of [pg-query/streamlit.py] sends the empty string to the
    database and shows the failure as an execution error; [main] of
    [pg-query/ui/streamlit.py] stops before the database is reached and
    shows a message of its own. *)
Theorem empty_query_is_executed :
  let run := Main.process_question silent_model ask ready in
  let ui_run := UiMain.process_question silent_model ask ready in
  Extract.extract_sql_from_response "" = "" /\
  executed_queries (trace (snd run)) = [""] /\
  trace (snd run) =
    [LlmGenerate "How many orders are there?"; UiText ""; UiCode ""; DbExecute 1 "";
     UiError "Error executing the query: Error executing query: can't execute an empty query";
     LlmExplain "How many orders are there?" ""
       (Some "Error executing query: can't execute an empty query");
     UiWrite "The query is empty."] /\
  fst ui_run = Stopped /\
  executed_queries (trace (snd ui_run)) = [] /\
  trace (snd ui_run) =
    [LlmGenerate "How many orders are there?"; UiText "";
     UiError "Failed to generate a valid SQL query. The LLM did not provide a query in the correct format (between triple backticks).";
     UiText ""].
Proof. repeat split. Qed.

(** C7, as stated, fails on the code.  The generated query fails: it has
    been sent to the database, and the history has no entry for it.  The
    user then replaces the query and clicks [Execute Fixed Query]: the run
    that the click starts sends nothing to the database, and the history is
    still empty. *)
Lemma attempts_missing_from_history :
  let first := Main.main wrong_table ask ready in
  let second := Main.main wrong_table press_fix (snd first) in
  executed_queries (trace (snd first)) = ["SELECT count(*) FROM order_list;"] /\
  query_history (snd first) = [] /\
  fixed_query press_fix "SELECT count(*) FROM order_list;"
  = "SELECT count(*) FROM orders;" /\
  executed_queries (trace (snd second)) = ["SELECT count(*) FROM order_list;"] /\
  query_history (snd second) = [].
Proof. repeat split. Qed.

(** After the failure of the generated query the transaction of the
    connection is aborted: the query that the user then runs in the manual
    block, which the database would answer, is refused, and it has no entry
    either. *)
Example failed_statement_blocks_the_next :
  let first := Main.main wrong_table ask ready in
  let second := Main.main wrong_table ask_manually (snd first) in
  drv_execute wrong_table [] 1 "SELECT count(*) FROM orders;"
  = inr ([[("count", "42")]], ["count"]) /\
  skipn (length (trace (snd first))) (trace (snd second))
  = [DbExecute 1 "SELECT count(*) FROM orders;";
     UiError ("Error executing the query: Error executing query: "
              +:+ Snapshot.in_failed_transaction)] /\
  query_history (snd second) = [].
Proof. repeat split. Qed.

Lemma failed_attempt_leaves_no_entry_witness :
  let run := Main.main wrong_table ask ready in
  fst run = Return tt /\
  query_history (snd run) = query_history ready /\
  exists rest,
    trace (snd run)
    = (trace ready ++
       [LlmGenerate "How many orders are there?";
        UiText "```sql
SELECT count(*) FROM order_list;
```";
        UiCode "SELECT count(*) FROM order_list;"]) ++
      [DbExecute 1 "SELECT count(*) FROM order_list;";
       UiError "Error executing the query: Error executing query: relation does not exist";
       LlmExplain "How many orders are there?" "SELECT count(*) FROM order_list;"
         (Some "Error executing query: relation does not exist")] ++ rest.
Proof.
  cbv zeta.
  destruct (failed_attempt_leaves_no_entry wrong_table ask ready 1
              "```sql
SELECT count(*) FROM order_list;
```") as [Hfail _]; try reflexivity.
  exact (Hfail "relation does not exist" eq_refl).
Defined.

(** C8 on the code. The connection object is present and has lost its
    server; a new connection would work.  [main] of [pg-query/streamlit.py]
    sends the query on the dead connection, without a liveness check and
    without connecting again, and the failure surfaces as an execution
    error; [main] of [pg-query/ui/streamlit.py] checks, connects once and
    runs the query on the new connection. *)
Theorem dead_connection_is_not_detected :
  let run := Main.process_question dead_connection ask ready in
  let ui_run := UiMain.process_question dead_connection ask ready in
  connection ready = Some 1 /\
  (forall tr, drv_alive dead_connection tr 1 = false) /\
  trace (snd run) =
    [LlmGenerate "How many orders are there?";
     UiText "```sql
SELECT count(*) FROM orders;
```";
     UiCode "SELECT count(*) FROM orders;";
     DbExecute 1 "SELECT count(*) FROM orders;";
     UiError "Error executing the query: Error executing query: server closed the connection unexpectedly";
     LlmExplain "How many orders are there?" "SELECT count(*) FROM orders;"
       (Some "Error executing query: server closed the connection unexpectedly");
     UiWrite "The connection was lost."] /\
  filter (fun e => is_liveness_check e || is_connect e) (trace (snd run)) = [] /\
  connection (snd run) = Some 1 /\
  filter (fun e => is_liveness_check e || is_connect e) (trace (snd ui_run))
  = [DbPing 1; DbConnect] /\
  executed_queries (trace (snd ui_run)) = ["SELECT count(*) FROM orders;"] /\
  connection (snd ui_run) = Some 2.
Proof. repeat split. Qed.

(** C9 on the code.  The server lists [customers] before [orders] and
    refuses the statement for the sample rows of [customers].
    [get_sample_data] swallows the failure and returns no rows, and the
    transaction is left aborted; the next statement of the build, the column
    query of [orders], is refused, and [analyze_schema] raises: no snapshot
    is built and [orders] is not analyzed.  When the server lists
    [customers] last, no statement follows the failure: the build returns,
    with [customers] in the snapshot and without sample rows. *)
Theorem sample_failure_aborts_the_build :
  Snapshot.cat_sample_rows shop_customers_first "customers" 3
  = inl "permission denied for table customers" /\
  Snapshot.get_sample_data string shop_customers_first "customers" 3 new_analyzer
  = (Snapshot.Done [], Snapshot.refusing Inference.fresh) /\
  fst (Snapshot.get_table_columns string shop_customers_first "orders"
         (Snapshot.refusing Inference.fresh))
  = Snapshot.Failed Snapshot.in_failed_transaction /\
  fst (Snapshot.analyze_schema string shop_customers_first new_analyzer)
  = Snapshot.Failed Snapshot.in_failed_transaction /\
  exists si,
    fst (Snapshot.analyze_schema string shop new_analyzer) = Snapshot.Done si /\
    Dict.get "customers" (Snapshot.tables si)
    = Some {| Snapshot.t_columns :=
                [plain_column "code" "uuid";
                 Snapshot.with_semantics (plain_column "name" "text") "Name or title"];
              Snapshot.t_comment := "People who buy" |} /\
    Snapshot.sample_data si !! "customers" = None.
Proof.
  repeat (split; [reflexivity |]).
  eexists. split; [vm_compute; reflexivity |]. split; reflexivity.
Qed.

(** C2 on the code.  The columns [order_date] and [delivery_date] of
    [orders] are declared [timestamp]; [information_schema.columns], which
    [get_table_columns] reads, reports their [data_type] as [timestamp
    without time zone].  This is none of the type names of the date rules:
    no rule is consulted, the label of both columns is empty, and in the
    snapshot that [analyze_schema] returns neither column has a label. *)
Theorem timestamp_columns_get_no_label :
  map (fun c => (Snapshot.c_name c, Snapshot.c_type c))
    (Snapshot.cat_columns shop "orders")
  = [("order_id", "integer"); ("customer_id", "uuid");
     ("order_date", "timestamp without time zone");
     ("delivery_date", "timestamp without time zone")] /\
  PyStr.member "timestamp without time zone" Inference.date_types = false /\
  fst (Inference.infer_column_semantics [] "orders" "order_date"
         "timestamp without time zone" Inference.fresh) = "" /\
  fst (Inference.infer_column_semantics [] "orders" "delivery_date"
         "timestamp without time zone" Inference.fresh) = "" /\
  exists si,
    fst (Snapshot.analyze_schema string shop new_analyzer) = Snapshot.Done si /\
    Snapshot.column_semantics si !! "orders.order_date" = None /\
    Snapshot.column_semantics si !! "orders.delivery_date" = None /\
    Dict.get "orders" (Snapshot.tables si)
    = Some {| Snapshot.t_columns :=
                [Snapshot.with_semantics (plain_column "order_id" "integer")
                   "Identifier or foreign key";
                 Snapshot.with_semantics (plain_column "customer_id" "uuid")
                   "Identifier for a customer";
                 plain_column "order_date" "timestamp without time zone";
                 plain_column "delivery_date" "timestamp without time zone"];
              Snapshot.t_comment := "" |}.
Proof.
  repeat (split; [reflexivity |]).
  eexists. split; [vm_compute; reflexivity |]. repeat split.
Qed.

Lemma connective_falls_back_to_table_witness :
  In shop_relationship (Snapshot.relationships shop_snapshot) /\
  Render.get_semantic (Snapshot.column_semantics shop_snapshot) "orders.customer_id"
  = "Identifier for a customer" /\
  Render.get_semantic (Snapshot.column_semantics shop_snapshot) "customers.code" = "" /\
  (exists before after,
     Render.generate_schema_description string show_row shop_snapshot =
     before +:+
     "  - orders.customer_id references customers.code
    (Connects Identifier for a customer to customers)
" +:+ after) /\
  (exists before after,
     Render.generate_schema_for_llm string show_value shop_snapshot =
     before +:+
     ("- orders.customer_id " +:+ Render.arrow +:+
      " customers.code (Connects Identifier for a customer to customers)" +:+ Render.nl)
     +:+ after).
Proof.
  split; [left; reflexivity | split; [reflexivity | split; [reflexivity |]]].
  exact (connective_falls_back_to_table string show_value show_row shop_snapshot
           shop_relationship (or_introl eq_refl) eq_refl eq_refl).
Defined.

End ConcreteRuns.

(** ** The definitions on small inputs *)

Section SmallInputs.

Context {U : PyStr.Unicode}.

Example replace_suffix : PyStr.replace "_id" "" "customer_id" = "customer".
Proof. reflexivity. Qed.

Example replace_twice : PyStr.replace "is_" "" "is_this_valid" = "thvalid".
Proof. reflexivity. Qed.

Example strip_both_ends : PyStr.strip "  a b
 " = "a b".
Proof. reflexivity. Qed.

Example endswith_id : PyStr.endswith "order_id" "_id" = true.
Proof. reflexivity. Qed.

Example lower_mixed : PyStr.lower "Order_ID" = "order_id".
Proof. reflexivity. Qed.

Example numeric_identifier :
  fst (Inference.infer_column_semantics [] "orders" "customer_id" "integer" Inference.fresh)
  = "Identifier or foreign key".
Proof. reflexivity. Qed.

Example discount_is_a_count :
  fst (Inference.infer_column_semantics [] "orders" "discount" "numeric" Inference.fresh)
  = "Quantity or count".
Proof. reflexivity. Qed.

Example boolean_attribute :
  fst (Inference.infer_column_semantics [] "users" "is_active" "boolean" Inference.fresh)
  = "Indicates if the record active".
Proof. reflexivity. Qed.

Example delivered_before_ordered :
  fst (Inference.infer_column_semantics [] "orders" "order_date_delivered_at" "date"
         Inference.fresh)
  = "Date when items were actually delivered to the customer".
Proof. reflexivity. Qed.

(** The date rules fire on the four type names of the source only. *)
Example long_timestamp_name :
  fst (Inference.infer_column_semantics [] "orders" "order_date"
         "timestamp without time zone" Inference.fresh)
  = "".
Proof. reflexivity. Qed.

(** The name [id] itself. *)
Example plain_id :
  fst (Inference.infer_column_semantics [] "orders" "id" "uuid" Inference.fresh)
  = "Identifier for a id".
Proof. reflexivity. Qed.

Example findall_two_blocks :
  Re.findall false Extract.sql_block_pattern "a```sql x``` b ```y``` ```" = [" x"; "y"].
Proof. reflexivity. Qed.

Example upper_case_tag :
  Extract.extract_sql_from_response "```SQL select `a` from t``` and ```x```"
  = "select a from t".
Proof. reflexivity. Qed.

Example unclosed_fence :
  Extract.extract_sql_from_response "```sql SELECT 1;" = "sql SELECT 1;".
Proof. reflexivity. Qed.

(** Texts that are not ASCII: a no-break space and the control character
    [NEXT LINE] are white space; the letter [LATIN SMALL LETTER LONG S]
    matches [S] under [re.IGNORECASE]. *)
Example strip_no_break_space :
  PyStr.strip (Scenario.no_break_space +:+ "SELECT 1;" +:+ Scenario.next_line) = "SELECT 1;".
Proof. reflexivity. Qed.

Example extract_no_break_space :
  Extract.extract_sql_from_response (Scenario.no_break_space +:+ "SELECT 1;") = "SELECT 1;".
Proof. reflexivity. Qed.

Example extract_next_line :
  Extract.extract_sql_from_response ("SQL:" +:+ Scenario.next_line +:+ "SELECT 1;")
  = "SELECT 1;".
Proof. reflexivity. Qed.

Example extract_long_s :
  Extract.extract_sql_from_response (Scenario.long_s +:+ "QL: SELECT 1;") = "SELECT 1;".
Proof. reflexivity. Qed.

End SmallInputs.

(** * Further properties of the code *)

(** ** The pattern rules *)

Section PatternRules.

Import Inference.

Variable db : comment_store.

Context {U : PyStr.Unicode}.

Lemma member_In (x : string) (xs : list string) :
  PyStr.member x xs = true -> In x xs.
Proof.
  unfold PyStr.member. intros H. apply existsb_exists in H as (y & Hy & He).
  apply String.eqb_eq in He. subst y. exact Hy.
Qed.

(** No type name is both a date/time name and a numeric name. *)
Lemma numeric_not_date (ty : string) :
  PyStr.member ty numeric_types = true -> PyStr.member ty date_types = false.
Proof.
  intros H. apply member_In in H. cbn in H.
  repeat destruct H as [<- | H]; try reflexivity. destruct H.
Qed.

Lemma type_meaning_numeric (ty col_lower : string) :
  PyStr.member ty numeric_types = true ->
  type_meaning ty col_lower = numeric_meaning col_lower.
Proof.
  intros H. unfold type_meaning. rewrite (numeric_not_date _ H), H. reflexivity.
Qed.

(** When the numeric rules give no label, the name ends with none of the
    identifier suffixes, so the fallback gives none either. *)
Lemma numeric_meaning_empty (col_lower : string) :
  numeric_meaning col_lower = "" -> fallback_meaning col_lower = "".
Proof.
  unfold numeric_meaning, fallback_meaning.
  repeat match goal with
         | |- context [if ?b then _ else _] =>
             destruct b; [intros H; try discriminate H; try reflexivity |]
         end.
  reflexivity.
Qed.

(** X1. For a column of a numeric type the identifier fallback never fires: the
    label is the one of the numeric rules, and it is never "Identifier for a
    {relation}" nor "Primary identifier". *)
Theorem numeric_columns_skip_the_fallback (self : analyzer) (t c ty : string) :
  column_semantics self !! column_key t c = None ->
  no_comment db t c ->
  PyStr.member ty numeric_types = true ->
  fst (infer_column_semantics db t c ty self) = numeric_meaning (PyStr.lower c) /\
  (forall relation,
     fst (infer_column_semantics db t c ty self) <> "Identifier for a " +:+ relation) /\
  fst (infer_column_semantics db t c ty self) <> "Primary identifier".
Proof.
  intros Hm Hc Hty.
  assert (Hlabel : fst (infer_column_semantics db t c ty self)
                   = numeric_meaning (PyStr.lower c)).
  { rewrite (infer_miss _ _ _ _ _ Hm). cbn [fst].
    rewrite (computed_label_no_comment _ _ _ _ Hc).
    unfold pattern_meaning. rewrite (type_meaning_numeric _ _ Hty).
    destruct (numeric_meaning (PyStr.lower c)) eqn:E; [| reflexivity].
    cbn [PyStr.truthy]. apply numeric_meaning_empty. exact E. }
  rewrite Hlabel. split; [reflexivity |].
  unfold numeric_meaning.
  split; [intros relation |];
    repeat match goal with
           | |- context [if ?b then _ else _] => destruct b
           end;
    push_append; discriminate.
Qed.

End PatternRules.

Section DeadRule.

Import Inference.

Variable db : comment_store.

Context {U : PyStr.Unicode}.

Lemma prefix_append (p s : string) : String.prefix p (p +:+ s) = true.
Proof.
  induction p as [| a p IH]; push_append; [apply prefix_nil |].
  rewrite prefix_cons. destruct (ascii_dec a a); [exact IH | contradiction].
Qed.

(** A name that contains [discount] contains [count]. *)
Lemma contains_discount_count (s : string) :
  PyStr.contains "discount" s = true -> PyStr.contains "count" s = true.
Proof.
  induction s as [| a s IH]; [intros H; discriminate H |].
  rewrite contains_cons. intros H. apply orb_true_iff in H as [H | H].
  - rewrite (prefix_drop _ _ H). cbn [String.length].
    generalize (PyStr.drop 8 (String a s)). intros rest. push_append.
    rewrite !contains_cons.
    change (String "c" (String "o" (String "u" (String "n" (String "t" rest)))))
      with ("count" +:+ rest).
    rewrite prefix_append, !orb_true_r. reflexivity.
  - rewrite contains_cons, (IH H), orb_true_r. reflexivity.
Qed.

(** The numeric rules never reach the discount branch: the test for [count]
    comes first. *)
Lemma numeric_meaning_not_discount (col_lower : string) :
  numeric_meaning col_lower <> discount_label.
Proof.
  unfold numeric_meaning, discount_label.
  destruct (PyStr.contains "price" col_lower || PyStr.contains "cost" col_lower
            || PyStr.contains "amount" col_lower); [discriminate |].
  destruct (PyStr.contains "count" col_lower) eqn:Hcount.
  - rewrite orb_true_r. discriminate.
  - destruct (PyStr.contains "discount" col_lower) eqn:Hd.
    + apply contains_discount_count in Hd. congruence.
    + repeat match goal with
             | |- context [if ?b then _ else _] => destruct b
             end; discriminate.
Qed.

(** X2. No column is ever labelled by the pattern rules as a discount value:
    whatever the name and the declared type, without a stored comment the
    label is not the discount label. *)
Theorem discount_label_is_unreachable (self : analyzer) (t c ty : string) :
  column_semantics self !! column_key t c = None ->
  no_comment db t c ->
  fst (infer_column_semantics db t c ty self) <> discount_label.
Proof.
  intros Hm Hc.
  rewrite (infer_miss _ _ _ _ _ Hm). cbn [fst].
  rewrite (computed_label_no_comment _ _ _ _ Hc).
  unfold pattern_meaning.
  assert (Hfb : fallback_meaning (PyStr.lower c) <> discount_label).
  { unfold fallback_meaning, discount_label.
    repeat match goal with
           | |- context [if ?b then _ else _] => destruct b
           end; push_append; discriminate. }
  assert (Hty : type_meaning ty (PyStr.lower c) <> discount_label).
  { unfold type_meaning.
    destruct (PyStr.member ty date_types).
    { unfold date_meaning, discount_label.
      repeat match goal with
             | |- context [if ?b then _ else _] => destruct b
             end; discriminate. }
    destruct (PyStr.member ty numeric_types); [apply numeric_meaning_not_discount |].
    destruct (String.eqb ty "boolean").
    { unfold boolean_meaning, discount_label.
      repeat match goal with
             | |- context [if ?b then _ else _] => destruct b
             end; push_append; discriminate. }
    destruct (PyStr.member ty string_types); [| discriminate].
    unfold string_meaning, discount_label.
    repeat match goal with
           | |- context [if ?b then _ else _] => destruct b
           end; discriminate. }
  destruct (PyStr.truthy (type_meaning ty (PyStr.lower c))); assumption.
Qed.

End DeadRule.

(** ** The memo *)

Section MemoCount.

Import Inference.

Variable db : comment_store.

Context {U : PyStr.Unicode}.

Lemma infer_call_count (cl : call) (self : analyzer) :
  length (comment_queries self) = size (column_semantics self) ->
  length (comment_queries (snd (infer_call db cl self)))
  = size (column_semantics (snd (infer_call db cl self))).
Proof.
  destruct cl as [[t c] ty]. intros H. simpl.
  destruct (column_semantics self !! column_key t c) as [v |] eqn:E.
  - rewrite (infer_hit _ _ _ _ _ _ E). exact H.
  - rewrite (infer_miss _ _ _ _ _ E). cbn [snd memoize log_query comment_queries
      column_semantics].
    rewrite length_app, map_size_insert_None by exact E. cbn [length]. lia.
Qed.

(** X3. Whatever the calls made on a new analyzer, the number of comment queries
    sent equals the number of entries of the memo: one query for each key,
    none for a key that is already there. *)
Theorem one_query_per_memo_entry (calls : list call) :
  length (comment_queries (snd (infer_all db calls fresh)))
  = size (column_semantics (snd (infer_all db calls fresh))).
Proof.
  assert (H : forall self,
            length (comment_queries self) = size (column_semantics self) ->
            length (comment_queries (snd (infer_all db calls self)))
            = size (column_semantics (snd (infer_all db calls self)))).
  { induction calls as [| cl calls IH]; intros self Hs; [exact Hs |].
    rewrite infer_all_cons. apply IH, infer_call_count, Hs. }
  apply H. reflexivity.
Qed.

End MemoCount.

(** ** The parts of the snapshot *)

Section SnapshotParts.

Import Snapshot.

Variable value : Type.
Variable db : catalog value.

Context {U : PyStr.Unicode}.

(** The loop of [get_primary_keys], from any dictionary. *)
Lemma primary_key_rows_fold (table : string) (rows : list (string * string))
    (acc : gmap string (list string)) :
  fold_left
    (fun (primary_keys : gmap string (list string)) (r : string * string) =>
       let (table_name, column_name) := r in
       <[table_name := default [] (primary_keys !! table_name) ++ [column_name]]>
         primary_keys) rows acc !! table
  = match key_columns rows table with
    | [] => acc !! table
    | c :: cs => Some (default [] (acc !! table) ++ c :: cs)
    end.
Proof.
  revert acc. induction rows as [| [t c] rows IH]; intros acc; [reflexivity |].
  cbn [fold_left]. rewrite IH. unfold key_columns. cbn [List.filter fst].
  destruct (String.eqb_spec t table) as [-> | Hne].
  - cbn [map snd]. rewrite lookup_insert_eq. cbn [default].
    destruct (map snd _) as [| c' cs]; [reflexivity |].
    unfold id. rewrite <- app_assoc. reflexivity.
  - rewrite lookup_insert_ne by exact Hne. reflexivity.
Qed.

(** X4. [get_primary_keys], on a transaction that takes statements, returns
    the rows grouped by table: a table with rows has its columns in the
    order of the rows, a table without rows has no entry. *)
Theorem primary_keys_group_rows (self : Inference.analyzer) (table : string) :
  exists primary_keys,
    get_primary_keys value db (running self) = (Done primary_keys, running self) /\
    primary_keys !! table
    = match key_columns (cat_primary_key_rows db) table with
      | [] => None
      | c :: cs => Some (c :: cs)
      end.
Proof.
  exists (group_primary_keys (cat_primary_key_rows db)). split; [reflexivity |].
  unfold group_primary_keys. rewrite primary_key_rows_fold, lookup_empty.
  destruct (key_columns (cat_primary_key_rows db) table); reflexivity.
Qed.

(** Processing columns and tables leaves the relationships and the primary
    keys of the snapshot under construction as they are, and keeps the
    labels non-empty. *)
Lemma process_columns_parts (table : string) (cs : list column)
    (si : schema_info value) (self : Inference.analyzer) :
  let r := fst (process_columns value db table si cs self) in
  relationships (snd r) = relationships si /\
  primary_keys (snd r) = primary_keys si /\
  (labels_not_empty (column_semantics si) ->
   labels_not_empty (column_semantics (snd r))).
Proof.
  revert si self. induction cs as [| c cs IH]; intros si self.
  - cbn. auto.
  - cbn [process_columns]. unfold bind.
    destruct (process_column value db table si c self) as [[c' si1] self1] eqn:E1.
    specialize (IH si1 self1). cbn [snd fst].
    destruct (process_columns value db table si1 cs self1) as [[cs' si2] self2].
    cbn [fst snd ret] in *. destruct IH as (Hr & Hp & Hl).
    unfold process_column, bind in E1.
    destruct (Inference.infer_column_semantics _ _ _ _ self) as [label self'].
    destruct (PyStr.truthy label) eqn:Ht; injection E1 as <- <- <-.
    + rewrite Hr, Hp. repeat split. intros Hsi. apply Hl.
      intros k v. cbn [set_semantics column_semantics].
      destruct (decide (Inference.column_key table (c_name c) = k)) as [<- | Hne].
      * rewrite lookup_insert_eq. intros [= <-]. exact Ht.
      * rewrite lookup_insert_ne by exact Hne. apply Hsi.
    + rewrite Hr, Hp. repeat split. exact Hl.
Qed.

Lemma process_table_parts (si : schema_info value) (table : string)
    (self : Inference.analyzer) :
  let si' := fst (process_table value db si table self) in
  relationships si' = relationships si /\
  primary_keys si' = primary_keys si /\
  (labels_not_empty (column_semantics si) -> labels_not_empty (column_semantics si')).
Proof.
  unfold process_table, bind.
  pose proof (process_columns_parts table (cat_columns db table) si self) as Hf.
  destruct (process_columns value db table si (cat_columns db table) self)
    as [[cs' si1] self1].
  cbn [fst snd] in Hf.
  destruct (sample_of value db table 3); exact Hf.
Qed.

Lemma process_tables_parts (ts : list string) (si : schema_info value)
    (self : Inference.analyzer) :
  let si' := fst (process_tables value db si ts self) in
  relationships si' = relationships si /\
  primary_keys si' = primary_keys si /\
  (labels_not_empty (column_semantics si) -> labels_not_empty (column_semantics si')).
Proof.
  revert si self. induction ts as [| table ts IH]; intros si self; [cbn; auto |].
  cbn [process_tables]. unfold bind.
  pose proof (process_table_parts si table self) as Hstep.
  destruct (process_table value db si table self) as [si1 self1].
  cbn [fst] in Hstep. destruct Hstep as (Hr & Hp & Hl).
  destruct (IH si1 self1) as (Hr' & Hp' & Hl'). cbn zeta.
  rewrite Hr', Hp', Hr, Hp. auto.
Qed.

Lemma add_relationships_parts (fks : list foreign_key) (si : schema_info value) :
  let si' := fold_left (fun si fk => add_relationship value fk si) fks si in
  relationships si' = relationships si ++ map relationship_of fks /\
  primary_keys si' = primary_keys si /\
  column_semantics si' = column_semantics si.
Proof.
  revert si. induction fks as [| fk fks IH]; intros si.
  - cbn. rewrite app_nil_r. auto.
  - cbn [fold_left map]. destruct (IH (add_relationship value fk si)) as (Hr & Hp & Hl).
    cbn zeta. rewrite Hr, Hp, Hl. cbn [add_relationship relationships primary_keys
      column_semantics]. rewrite <- app_assoc. auto.
Qed.

Lemma answers_relationships (self : Inference.analyzer) :
  let si := fst (snapshot_of_answers value db self) in
  relationships si = map relationship_of (cat_foreign_keys db) /\
  primary_keys si = group_primary_keys (cat_primary_key_rows db).
Proof.
  unfold snapshot_of_answers, bind.
  set (si0 := {| tables := []; relationships := []; primary_keys := group_primary_keys (cat_primary_key_rows db);
                 sample_data := ∅; column_semantics := ∅ |}).
  destruct (process_tables_parts (cat_tables db) si0 self) as (Hr & Hp & _).
  destruct (process_tables value db si0 (cat_tables db) self) as [si1 self1].
  cbn [fst snd modify ret] in *.
  destruct (add_relationships_parts (cat_foreign_keys db) si1) as (Hr' & Hp' & _).
  rewrite Hr', Hp', Hr, Hp. split; reflexivity.
Qed.

(** X5. The snapshot that [analyze_schema] returns records every foreign key
    of the catalog as a relationship, in the order of the catalog and
    whatever tables it names; its primary keys are those of
    [get_primary_keys]. *)
Theorem snapshot_relationships (st st' : build_state) (si : schema_info value) :
  analyze_schema value db st = (Done si, st') ->
  relationships si = map relationship_of (cat_foreign_keys db) /\
  primary_keys si = group_primary_keys (cat_primary_key_rows db).
Proof.
  intros Hdone.
  destruct (analyze_schema_done value db _ _ _ Hdone) as (_ & _ & -> & _).
  apply answers_relationships.
Qed.

Lemma answers_labels (self : Inference.analyzer) :
  let r := snapshot_of_answers value db self in
  Inference.column_semantics (snd r) = column_semantics (fst r) /\
  labels_not_empty (column_semantics (fst r)).
Proof.
  unfold snapshot_of_answers, bind.
  set (si0 := {| tables := []; relationships := []; primary_keys := group_primary_keys (cat_primary_key_rows db);
                 sample_data := ∅; column_semantics := ∅ |}).
  destruct (process_tables_parts (cat_tables db) si0 self) as (_ & _ & Hl).
  destruct (process_tables value db si0 (cat_tables db) self) as [si1 self1].
  cbn [fst snd modify ret set_memo Inference.column_semantics] in *.
  destruct (add_relationships_parts (cat_foreign_keys db) si1) as (_ & _ & Hl').
  split; [reflexivity |]. rewrite Hl'. apply Hl.
  intros k v H. subst si0. cbn [column_semantics] in H.
  rewrite lookup_empty in H. discriminate.
Qed.

(** X6. After a build that returns, the memo of the analyzer is the label map
    of the snapshot, and no label in it is empty: the columns without a
    label have left the memo. *)
Theorem snapshot_labels (st st' : build_state) (si : schema_info value) :
  analyze_schema value db st = (Done si, st') ->
  Inference.column_semantics (analyzer_of st') = column_semantics si /\
  labels_not_empty (column_semantics si).
Proof.
  intros Hdone.
  destruct (analyze_schema_done value db _ _ _ Hdone) as (_ & _ & -> & ->).
  apply answers_labels.
Qed.

End SnapshotParts.

(** ** The tables of the snapshot and the comments of their columns *)

Section SnapshotTables.

Import Snapshot.

Variable value : Type.
Variable db : catalog value.

Context {U : PyStr.Unicode}.

Lemma dict_set_keys {V : Type} (k : string) (v : V) (d : list (string * V)) :
  (forall t, In t (map fst (Dict.set k v d)) <-> t = k \/ In t (map fst d)) /\
  (NoDup (map fst d) -> NoDup (map fst (Dict.set k v d))).
Proof.
  induction d as [| [k' v'] d [IHin IHnd]]; cbn [Dict.set map fst].
  - split.
    + intros t. cbn. intuition auto.
    + intros _. apply NoDup_singleton.
  - destruct (String.eqb_spec k' k) as [-> | Hne]; cbn [map fst].
    + split; [intros t; cbn; intuition auto | auto].
    + split.
      * intros t. cbn [In]. rewrite IHin. intuition auto.
      * intros Hnd. apply NoDup_cons in Hnd as [Hnotin Hnd]. apply NoDup_cons. split.
        -- rewrite list_elem_of_In, IHin. rewrite list_elem_of_In in Hnotin.
           intros [-> | Hin]; [apply Hne; reflexivity | apply Hnotin, Hin].
        -- apply IHnd, Hnd.
Qed.

Lemma process_table_keys (si : schema_info value) (table : string)
    (self : Inference.analyzer) :
  tables (fst (process_table value db si table self))
  = Dict.set table
      {| t_columns := fst (fst (process_columns value db table si
                                  (cat_columns db table) self));
         t_comment := comment_text (cat_table_comment db table) |}
      (tables si).
Proof.
  unfold process_table, bind.
  pose proof (process_columns_frame value db table (cat_columns db table) si self)
    as Hf.
  destruct (process_columns value db table si (cat_columns db table) self)
    as [[cs' si1] self1].
  cbn [fst snd] in *. destruct Hf as (Ht & _ & _).
  assert (Hcomment :
    (if PyStr.truthy (comment_text (cat_table_comment db table))
     then comment_text (cat_table_comment db table) else "")
    = comment_text (cat_table_comment db table)).
  { destruct (comment_text (cat_table_comment db table)); reflexivity. }
  rewrite Hcomment.
  destruct (sample_of value db table 3); cbn; rewrite Ht; reflexivity.
Qed.

Lemma process_tables_keys (ts : list string) (si : schema_info value)
    (self : Inference.analyzer) :
  let si' := fst (process_tables value db si ts self) in
  (forall t, In t (map fst (tables si')) <-> In t ts \/ In t (map fst (tables si))) /\
  (NoDup (map fst (tables si)) -> NoDup (map fst (tables si'))).
Proof.
  revert si self. induction ts as [| table ts IH]; intros si self.
  - cbn. split; [intuition auto | auto].
  - cbn [process_tables]. unfold bind.
    pose proof (process_table_keys si table self) as Hk.
    destruct (process_table value db si table self) as [si1 self1].
    cbn [fst] in Hk. destruct (IH si1 self1) as [IHin IHnd]. cbn zeta.
    match type of Hk with _ = Dict.set _ ?i _ =>
      destruct (dict_set_keys table i (tables si)) as [Hin Hnd] end.
    rewrite <- Hk in Hin, Hnd. split.
    + intros t. rewrite IHin, Hin. cbn [In]. intuition auto.
    + intros H. apply IHnd, Hnd, H.
Qed.

Lemma answers_tables (self : Inference.analyzer) :
  let si := fst (snapshot_of_answers value db self) in
  NoDup (map fst (tables si)) /\
  forall t, In t (map fst (tables si)) <-> In t (cat_tables db).
Proof.
  unfold snapshot_of_answers, bind.
  set (si0 := {| tables := []; relationships := []; primary_keys := group_primary_keys (cat_primary_key_rows db);
                 sample_data := ∅; column_semantics := ∅ |}).
  destruct (process_tables_keys (cat_tables db) si0 self) as [Hin Hnd].
  destruct (process_tables value db si0 (cat_tables db) self) as [si1 self1].
  cbn [fst snd modify ret] in *.
  destruct (add_relationships_frame value (cat_foreign_keys db) si1) as [Ht _].
  rewrite Ht. split.
  - apply Hnd. constructor.
  - intros t. rewrite Hin. cbn. intuition auto.
Qed.

(** X7. The tables of the snapshot that [analyze_schema] returns are the
    tables that [get_tables] lists, each one once: a table listed twice has
    one entry. *)
Theorem snapshot_tables (st st' : build_state) (si : schema_info value) :
  analyze_schema value db st = (Done si, st') ->
  NoDup (map fst (tables si)) /\
  forall t, In t (map fst (tables si)) <-> In t (cat_tables db).
Proof.
  intros Hdone.
  destruct (analyze_schema_done value db _ _ _ Hdone) as (_ & _ & -> & _).
  apply answers_tables.
Qed.

(** *** Comments on the way to the snapshot *)

Lemma process_column_comment (table : string) (si : schema_info value) (c : column)
    (self : Inference.analyzer) :
  PyStr.contains "." table = false ->
  labels_in_memo db si self ->
  let r := process_column value db table si c self in
  labels_in_memo db (snd (fst r)) (snd r) /\
  (forall k v, column_semantics si !! k = Some v ->
               column_semantics (snd (fst r)) !! k = Some v) /\
  (forall comment,
     Inference.fetch_comment (cat_column_comments db) table (c_name c) = Some comment ->
     PyStr.truthy comment = true ->
     fst (fst r) = with_semantics c comment /\
     column_semantics (snd (fst r)) !! Inference.column_key table (c_name c)
       = Some comment).
Proof.
  intros Hdot [Hjust Hsub]. unfold process_column, bind.
  pose proof (memo_justified_call (cat_column_comments db)
                (table, c_name c, c_type c) self Hdot Hjust) as Hjust'.
  pose proof (infer_memoized (cat_column_comments db) table (c_name c) (c_type c) self)
    as Hmemo.
  pose proof (fun k v => infer_call_keeps (cat_column_comments db)
                           (table, c_name c, c_type c) self k v) as Hkeep.
  pose proof (fun cached => infer_hit (cat_column_comments db) table (c_name c) (c_type c)
                              cached self) as Hhit.
  cbn [Inference.infer_call] in Hjust', Hkeep.
  destruct (Inference.infer_column_semantics (cat_column_comments db) table (c_name c)
              (c_type c) self) as [label self'].
  cbn [fst snd] in *.
  assert (Hlabel : forall comment,
    Inference.fetch_comment (cat_column_comments db) table (c_name c) = Some comment ->
    PyStr.truthy comment = true -> label = comment).
  { intros comment Hf Ht.
    destruct (Hjust' _ _ Hmemo) as (t' & c' & ty' & Hdot' & Hk & ->).
    destruct (column_key_inj _ _ _ _ Hdot Hdot' Hk) as [<- <-].
    apply computed_label_comment; assumption. }
  destruct (PyStr.truthy label) eqn:Ht; unfold ret, set_semantics, labels_in_memo;
    cbn [fst snd column_semantics].
  - split; [split; [exact Hjust' |] | split].
    + intros k v. destruct (decide (Inference.column_key table (c_name c) = k)) as [<- | Hne].
      * rewrite lookup_insert_eq. intros [= <-]. exact Hmemo.
      * rewrite lookup_insert_ne by exact Hne. intros H. apply Hkeep, Hsub, H.
    + intros k v H.
      destruct (decide (Inference.column_key table (c_name c) = k)) as [<- | Hne].
      * rewrite lookup_insert_eq. apply Hsub in H.
        specialize (Hhit _ H). injection Hhit as -> _. reflexivity.
      * rewrite lookup_insert_ne by exact Hne. exact H.
    + intros comment Hf Hc. rewrite (Hlabel comment Hf Hc).
      split; [reflexivity | apply lookup_insert_eq].
  - split; [split; [exact Hjust' |] | split].
    + intros k v H. apply Hkeep, Hsub, H.
    + auto.
    + intros comment Hf Hc. rewrite <- (Hlabel comment Hf Hc) in Hc. congruence.
Qed.

Lemma process_columns_comment (table : string) (cs : list column) (si : schema_info value)
    (self : Inference.analyzer) :
  PyStr.contains "." table = false ->
  labels_in_memo db si self ->
  let r := process_columns value db table si cs self in
  labels_in_memo db (snd (fst r)) (snd r) /\
  (forall k v, column_semantics si !! k = Some v ->
               column_semantics (snd (fst r)) !! k = Some v) /\
  (forall col comment,
     In col cs ->
     Inference.fetch_comment (cat_column_comments db) table (c_name col) = Some comment ->
     PyStr.truthy comment = true ->
     In (with_semantics col comment) (fst (fst r)) /\
     column_semantics (snd (fst r)) !! Inference.column_key table (c_name col)
       = Some comment).
Proof.
  intros Hdot. revert si self. induction cs as [| c cs IH]; intros si self Hinv.
  - cbn. split; [exact Hinv | split; [auto | intros col comment []]].
  - cbn [process_columns]. unfold bind.
    pose proof (process_column_comment table si c self Hdot Hinv) as Hstep.
    destruct (process_column value db table si c self) as [[c' si1] self1].
    cbn [fst snd] in Hstep. destruct Hstep as (Hinv1 & Hmono1 & Hc1).
    specialize (IH si1 self1 Hinv1). cbn [fst snd].
    destruct (process_columns value db table si1 cs self1) as [[cs' si2] self2].
    cbn [fst snd ret] in *. destruct IH as (Hinv2 & Hmono2 & Hc2).
    split; [exact Hinv2 | split].
    + intros k v H. apply Hmono2, Hmono1, H.
    + intros col comment [<- | Hin] Hf Ht.
      * destruct (Hc1 comment Hf Ht) as [-> Hl]. split; [left; reflexivity |].
        apply Hmono2, Hl.
      * destruct (Hc2 col comment Hin Hf Ht) as [Hi Hl]. split; [right; exact Hi | exact Hl].
Qed.

Lemma process_table_comment (si : schema_info value) (table : string)
    (self : Inference.analyzer) :
  PyStr.contains "." table = false ->
  labels_in_memo db si self ->
  let r := process_table value db si table self in
  labels_in_memo db (fst r) (snd r) /\
  comments_carried db (fst r) table /\
  (forall t, comments_carried db si t -> comments_carried db (fst r) t).
Proof.
  intros Hdot Hinv. unfold process_table, bind.
  pose proof (process_columns_comment table (cat_columns db table) si self
                Hdot Hinv) as Hstep.
  pose proof (process_columns_frame value db table (cat_columns db table) si self)
    as Hf.
  destruct (process_columns value db table si (cat_columns db table) self)
    as [[cs' si1] self1].
  cbn [fst snd] in *. destruct Hstep as (Hinv1 & Hmono & Hc). destruct Hf as (Ht & _ & _).
  set (info := {| t_columns := cs'; t_comment := _ |}).
  assert (Hgoal : forall sd,
    let si' := {| tables := Dict.set table info (tables si1);
                  relationships := relationships si1; primary_keys := primary_keys si1;
                  sample_data := sd; column_semantics := column_semantics si1 |} in
    labels_in_memo db si' self1 /\
    comments_carried db si' table /\
    (forall t, comments_carried db si t -> comments_carried db si' t)).
  { intros sd si'. split; [exact Hinv1 | split].
    - exists info. subst si'. cbn [tables column_semantics].
      rewrite dict_get_set_eq. split; [reflexivity |].
      intros col comment Hin Hfetch Htruthy. apply (Hc col comment Hin Hfetch Htruthy).
    - intros t Hcar. destruct (decide (table = t)) as [<- | Hne].
      + exists info. subst si'. cbn [tables column_semantics].
        rewrite dict_get_set_eq. split; [reflexivity |].
        intros col comment Hin Hfetch Htruthy. apply (Hc col comment Hin Hfetch Htruthy).
      + destruct Hcar as (info' & Hg & Hrest). exists info'. subst si'.
        cbn [tables column_semantics]. rewrite dict_get_set_ne by exact Hne. rewrite Ht.
        split; [exact Hg |]. intros col comment Hin Hfetch Htruthy.
        destruct (Hrest col comment Hin Hfetch Htruthy) as [Hi Hl].
        split; [exact Hi | apply Hmono, Hl]. }
  destruct (sample_of value db table 3) as [| r rows];
    unfold ret, set_sample, set_table; cbn [fst snd tables sample_data column_semantics
      relationships primary_keys]; apply Hgoal.
Qed.

Lemma process_tables_comment (ts : list string) (si : schema_info value)
    (self : Inference.analyzer) :
  (forall t, In t ts -> PyStr.contains "." t = false) ->
  labels_in_memo db si self ->
  let si' := fst (process_tables value db si ts self) in
  (forall t, In t ts -> comments_carried db si' t) /\
  (forall t, comments_carried db si t -> comments_carried db si' t).
Proof.
  revert si self. induction ts as [| table ts IH]; intros si self Hdots Hinv.
  - cbn. split; [intros t [] | auto].
  - cbn [process_tables]. unfold bind.
    pose proof (process_table_comment si table self (Hdots table (or_introl eq_refl)) Hinv)
      as Hstep.
    destruct (process_table value db si table self) as [si1 self1].
    cbn [fst snd] in Hstep. destruct Hstep as (Hinv1 & Hdone & Hkeep).
    destruct (IH si1 self1 (fun t H => Hdots t (or_intror H)) Hinv1) as [IHin IHkeep].
    cbn zeta. split.
    + intros t [<- | Hin]; [apply IHkeep, Hdone | apply IHin, Hin].
    + intros t H. apply IHkeep, Hkeep, H.
Qed.

Lemma answers_carry_comments (table : string) :
  (forall t, In t (cat_tables db) -> PyStr.contains "." t = false) ->
  In table (cat_tables db) ->
  comments_carried db (fst (snapshot_of_answers value db Inference.fresh)) table.
Proof.
  intros Hdots Hin. unfold snapshot_of_answers, bind.
  set (si0 := {| tables := []; relationships := []; primary_keys := group_primary_keys (cat_primary_key_rows db);
                 sample_data := ∅; column_semantics := ∅ |}).
  assert (Hinv : labels_in_memo db si0 Inference.fresh).
  { split; [apply memo_justified_fresh |]. intros k v H. subst si0.
    cbn [column_semantics] in H. rewrite lookup_empty in H. discriminate. }
  destruct (process_tables_comment (cat_tables db) si0 Inference.fresh Hdots Hinv)
    as [Hdone _].
  destruct (process_tables value db si0 (cat_tables db) Inference.fresh) as [si1 self1].
  cbn [fst snd modify ret] in *.
  destruct (add_relationships_frame value (cat_foreign_keys db) si1) as [Ht _].
  destruct (add_relationships_parts value (cat_foreign_keys db) si1) as (_ & _ & Hl).
  destruct (Hdone table Hin) as (info & Hg & Hrest).
  exists info. rewrite Ht, Hl. split; [exact Hg | exact Hrest].
Qed.

(** X8. A build by a new analyzer, over tables without a dot in their names,
    carries every stored, non-empty column comment into the snapshot that it
    returns: the column of the table's entry has it as its label, and so has
    the label map, whatever the name and the type of the column. *)
Theorem stored_comments_reach_the_snapshot (table : string) (st' : build_state)
    (si : schema_info value) :
  (forall t, In t (cat_tables db) -> PyStr.contains "." t = false) ->
  In table (cat_tables db) ->
  analyze_schema value db (running Inference.fresh) = (Done si, st') ->
  comments_carried db si table.
Proof.
  intros Hdots Hin Hdone.
  destruct (analyze_schema_done value db _ _ _ Hdone) as (_ & _ & -> & _).
  apply answers_carry_comments; assumption.
Qed.

End SnapshotTables.

(** ** The fenced block of a response *)

Section FencedBlock.

Import Extract.

Lemma extract_direct (response : string) :
  extract_sql_from_response response
  = remove_backticks (strip_label (query_text response)).
Proof.
  unfold extract_sql_from_response, query_text.
  rewrite replace_backticks, sub_label. do 2 f_equal.
  pose proof (findall_first_block true response) as H.
  unfold Re.findall. destruct (Re.findall_from false sql_block_pattern true 0 response);
    cbn [head] in H; rewrite <- H; reflexivity.
Qed.

Lemma prefix_cons_nil (a : ascii) (p : string) : String.prefix (String a p) "" = false.
Proof. reflexivity. Qed.

Ltac decide_chars :=
  repeat match goal with
         | |- context [ascii_dec ?x ?y] =>
             destruct (ascii_dec x y) as [? | ?]; try discriminate; subst
         end.

Lemma contains_backtick_cons (c : ascii) (s : string) :
  PyStr.contains "`" (String c s) = false
  <-> c <> "`"%char /\ PyStr.contains "`" s = false.
Proof.
  rewrite contains_cons, prefix_cons, prefix_nil.
  destruct (ascii_dec "`" c) as [<- | Hne]; cbn [orb]; split.
  - discriminate.
  - intros [H _]. contradiction H. reflexivity.
  - intros H. split; [congruence | exact H].
  - intros [_ H]. exact H.
Qed.

Lemma contains_backtick_append (s1 s2 : string) :
  PyStr.contains "`" (s1 +:+ s2) = false
  <-> PyStr.contains "`" s1 = false /\ PyStr.contains "`" s2 = false.
Proof.
  induction s1 as [| c s1 IH]; push_append.
  - split; [intros H; split; [reflexivity | exact H] | intros [_ H]; exact H].
  - rewrite !contains_backtick_cons, IH. tauto.
Qed.

Lemma contains_backtick_drop (n : nat) (s : string) :
  PyStr.contains "`" s = false -> PyStr.contains "`" (PyStr.drop n s) = false.
Proof.
  revert s. induction n as [| n IH]; intros [| c s] H; cbn [PyStr.drop]; try exact H.
  apply IH. apply contains_backtick_cons in H. apply H.
Qed.

(** A text without a backtick before a fence: the fence is the first one. *)
Lemma find_fence_first (pre rest : string) :
  PyStr.contains "`" pre = false ->
  find_fence (pre +:+ fence +:+ rest) = Some (pre, rest).
Proof.
  induction pre as [| a pre IH]; intros H.
  - unfold fence. push_append. cbn [find_fence]. unfold fence.
    rewrite !prefix_cons, prefix_nil. decide_chars; try contradiction. reflexivity.
  - apply contains_backtick_cons in H as [Ha H]. push_append. cbn [find_fence].
    unfold fence at 1. rewrite prefix_cons.
    destruct (ascii_dec "`" a) as [E | _]; [congruence |]. rewrite (IH H). reflexivity.
Qed.

(** The tag is looked for in the interior: a fence that follows does not
    complete it. *)
Lemma skip_tag_append (body rest : string) :
  skip_tag (body +:+ fence +:+ rest) = skip_tag body +:+ fence +:+ rest.
Proof.
  unfold skip_tag, fence. destruct body as [| a [| b [| c body]]]; push_append;
    repeat (rewrite prefix_cons || rewrite prefix_nil || rewrite prefix_cons_nil);
    decide_chars; cbn [PyStr.drop]; push_append; reflexivity.
Qed.

Lemma first_block_of_fenced (pre body post : string) :
  PyStr.contains "`" pre = false ->
  PyStr.contains "`" body = false ->
  first_block (pre +:+ fence +:+ body +:+ fence +:+ post) = Some (skip_tag body).
Proof.
  intros Hpre Hbody. unfold first_block.
  rewrite (find_fence_first _ _ Hpre), skip_tag_append, find_fence_first; [reflexivity |].
  unfold skip_tag. destruct (String.prefix "sql" body); [| exact Hbody].
  apply contains_backtick_drop, Hbody.
Qed.

Lemma remove_backticks_clean (s : string) :
  PyStr.contains "`" (remove_backticks s) = false.
Proof.
  induction s as [| c s IH]; [reflexivity |]. cbn [remove_backticks].
  destruct (Ascii.eqb c "`") eqn:E; [exact IH |].
  apply contains_backtick_cons. split; [apply Ascii.eqb_neq, E | exact IH].
Qed.

Lemma remove_backticks_id (s : string) :
  PyStr.contains "`" s = false -> remove_backticks s = s.
Proof.
  induction s as [| c s IH]; [reflexivity |]. intros H.
  apply contains_backtick_cons in H as [Hc H]. cbn [remove_backticks].
  apply Ascii.eqb_neq in Hc. rewrite Hc, (IH H). reflexivity.
Qed.

(** *** Trimming *)

Lemma lstrip_length (s : string) : String.length (PyStr.lstrip s) <= String.length s.
Proof.
  induction s as [s IH] using space_run_ind. rewrite lstrip_unfold.
  destruct (PyStr.drop_space s) as [rest |] eqn:E; [| lia].
  destruct (drop_space_suffix _ _ E) as (pre & _ & Hlt).
  specialize (IH rest eq_refl). lia.
Qed.

Lemma rstrip_length (s : string) : String.length (PyStr.rstrip s) <= String.length s.
Proof.
  induction s as [| c s IH]; [reflexivity |]. cbn [PyStr.rstrip].
  destruct (PyStr.all_space (String c s)); cbn [String.length]; lia.
Qed.

(** A text that trimming leaves alone has no white space at either end. *)
Lemma strip_fixed (s : string) :
  PyStr.strip s = s -> PyStr.rstrip s = s /\ PyStr.drop_space s = None.
Proof.
  unfold PyStr.strip. intros H.
  assert (Hd : PyStr.drop_space s = None).
  { destruct (PyStr.drop_space s) as [rest |] eqn:E; [| reflexivity]. exfalso.
    pose proof (rstrip_length (PyStr.lstrip s)) as H1. rewrite H in H1.
    rewrite lstrip_unfold, E in H1. pose proof (lstrip_length rest) as H2.
    destruct (drop_space_suffix _ _ E) as (pre & _ & Hlt). lia. }
  rewrite lstrip_unfold, Hd in H. split; [exact H | exact Hd].
Qed.

(** An ASCII white-space character is one byte below 128: it completes no
    longer white-space character. *)
Lemma space1_small (c : ascii) : PyStr.space1 c = true -> nat_of_ascii c <= 32.
Proof.
  unfold PyStr.space1. intros H. apply orb_true_iff in H as [H | H];
    apply andb_true_iff in H as [_ H]; apply Nat.leb_le in H; lia.
Qed.

Lemma space2_second (c1 c : ascii) : PyStr.space1 c = true -> PyStr.space2 c1 c = false.
Proof.
  intros H. apply space1_small in H. unfold PyStr.space2.
  destruct (nat_of_ascii c =? 133) eqn:E1; [apply Nat.eqb_eq in E1; lia |].
  destruct (nat_of_ascii c =? 160) eqn:E2; [apply Nat.eqb_eq in E2; lia |].
  apply andb_false_r.
Qed.

Lemma space3_second (c1 c c3 : ascii) :
  PyStr.space1 c = true -> PyStr.space3 c1 c c3 = false.
Proof.
  intros H. apply space1_small in H. unfold PyStr.space3.
  destruct (nat_of_ascii c =? 154) eqn:E1; [apply Nat.eqb_eq in E1; lia |].
  destruct (nat_of_ascii c =? 128) eqn:E2; [apply Nat.eqb_eq in E2; lia |].
  destruct (nat_of_ascii c =? 129) eqn:E3; [apply Nat.eqb_eq in E3; lia |].
  rewrite !andb_false_r. reflexivity.
Qed.

Lemma space3_third (c1 c2 c : ascii) :
  PyStr.space1 c = true -> PyStr.space3 c1 c2 c = false.
Proof.
  intros H. apply space1_small in H. unfold PyStr.space3.
  destruct (nat_of_ascii c =? 128) eqn:E1; [apply Nat.eqb_eq in E1; lia |].
  destruct (nat_of_ascii c =? 159) eqn:E2; [apply Nat.eqb_eq in E2; lia |].
  destruct (nat_of_ascii c =? 168) eqn:E3; [apply Nat.eqb_eq in E3; lia |].
  destruct (nat_of_ascii c =? 169) eqn:E4; [apply Nat.eqb_eq in E4; lia |].
  destruct (nat_of_ascii c =? 175) eqn:E5; [apply Nat.eqb_eq in E5; lia |].
  destruct (128 <=? nat_of_ascii c) eqn:E6; [apply Nat.leb_le in E6; lia |].
  cbn [andb orb]. rewrite !andb_false_r. reflexivity.
Qed.

(** The white-space character at the start of a text is the same with an
    ASCII white-space character added at its end. *)
Lemma drop_space_snoc (x : string) (c : ascii) :
  PyStr.space1 c = true ->
  PyStr.drop_space (x +:+ String c "")
  = match x with
    | EmptyString => Some EmptyString
    | String _ _ =>
        match PyStr.drop_space x with
        | Some rest => Some (rest +:+ String c "")
        | None => None
        end
    end.
Proof.
  intros Hc. destruct x as [| c1 [| c2 [| c3 x3]]]; push_append;
    cbn [PyStr.drop_space]; rewrite ?Hc, ?(space2_second _ _ Hc),
      ?(space3_second _ _ _ Hc), ?(space3_third _ _ _ Hc);
    try reflexivity.
  - destruct (PyStr.space1 c1); reflexivity.
  - destruct (PyStr.space1 c1); [reflexivity |].
    destruct (PyStr.space2 c1 c2); reflexivity.
  - destruct (PyStr.space1 c1); [reflexivity |].
    destruct (PyStr.space2 c1 c2); [reflexivity |].
    destruct (PyStr.space3 c1 c2 c3); reflexivity.
Qed.

Lemma lstrip_snoc (x : string) (c : ascii) :
  PyStr.space1 c = true ->
  PyStr.lstrip (x +:+ String c "")
  = if PyStr.all_space x then EmptyString else PyStr.lstrip x +:+ String c "".
Proof.
  intros Hc. induction x as [x IH] using space_run_ind.
  unfold PyStr.all_space. rewrite (lstrip_unfold (x +:+ _)), (lstrip_unfold x).
  rewrite (drop_space_snoc x c Hc). destruct x as [| c1 x1]; [reflexivity |].
  destruct (PyStr.drop_space (String c1 x1)) as [rest |] eqn:E.
  - rewrite (IH rest eq_refl). reflexivity.
  - reflexivity.
Qed.

Lemma rstrip_snoc (s : string) (c : ascii) :
  PyStr.space1 c = true -> PyStr.rstrip (s +:+ String c "") = PyStr.rstrip s.
Proof.
  intros Hc. induction s as [| a s IH]; push_append.
  - cbn [PyStr.rstrip]. unfold PyStr.all_space. cbn [PyStr.lstrip]. rewrite Hc.
    reflexivity.
  - cbn [PyStr.rstrip]. rewrite IH.
    assert (Hall : PyStr.all_space (String a (s +:+ String c ""))
                   = PyStr.all_space (String a s)).
    { rewrite <- append_cons. unfold PyStr.all_space at 1.
      rewrite (lstrip_snoc _ c Hc). unfold PyStr.all_space.
      destruct (PyStr.lstrip (String a s)); reflexivity. }
    rewrite Hall. reflexivity.
Qed.

(** The line feeds around a trimmed text are trimmed away. *)
Lemma strip_between_newlines (q : string) :
  PyStr.strip q = q -> PyStr.strip (Render.nl +:+ q +:+ Render.nl) = q.
Proof.
  intros H. destruct (strip_fixed q H) as [Hr Hhead].
  unfold PyStr.strip, Render.nl. rewrite (lstrip_unfold (_ +:+ _)). push_append.
  cbn [PyStr.drop_space]. change (PyStr.space1 "010") with true. cbv iota.
  rewrite lstrip_snoc by reflexivity. unfold PyStr.all_space.
  rewrite (lstrip_unfold q), Hhead.
  destruct q as [| c q]; [reflexivity |]. cbn [PyStr.truthy negb].
  rewrite rstrip_snoc by reflexivity. exact Hr.
Qed.

Lemma lit_match_app (ic : bool) (p1 p2 s : string) :
  Re.lit_match ic (p1 +:+ p2) s
  = match Re.lit_match ic p1 s with
    | Some rest => Re.lit_match ic p2 rest
    | None => None
    end.
Proof.
  revert s. induction p1 as [| a p1 IH]; intros s; push_append; [reflexivity |].
  cbn [Re.lit_match]. destruct (Re.char_match ic a s); [apply IH | reflexivity].
Qed.

Lemma iprefix_longer_label (s : string) :
  iprefix "SQL" s = false -> after_iprefix "SQL query" s = None.
Proof.
  unfold iprefix, after_iprefix. intros H.
  change "SQL query" with ("SQL" +:+ " query"). rewrite lit_match_app.
  destruct (Re.lit_match true "SQL" s); [discriminate H | reflexivity].
Qed.

Lemma iprefix_false (p s : string) : iprefix p s = false -> after_iprefix p s = None.
Proof. unfold iprefix. destruct (after_iprefix p s); [discriminate | reflexivity]. Qed.

(** X9. The text returned by [extract_sql_from_response] holds no backtick. *)
Theorem extraction_has_no_backtick (response : string) :
  PyStr.contains "`" (extract_sql_from_response response) = false.
Proof. rewrite extract_direct. apply remove_backticks_clean. Qed.

(** X10. When the first fence of a response is followed by a second one, with no
    single backtick before or between them, what comes before the block and
    what comes after it does not count: the extraction is that of the block
    alone. *)
Theorem text_outside_the_block_is_ignored (pre body post : string) :
  PyStr.contains "`" pre = false ->
  PyStr.contains "`" body = false ->
  extract_sql_from_response (pre +:+ fence +:+ body +:+ fence +:+ post)
  = extract_sql_from_response (fence +:+ body +:+ fence).
Proof.
  intros Hpre Hbody. rewrite !extract_direct. unfold query_text.
  rewrite (first_block_of_fenced pre body post Hpre Hbody).
  pose proof (first_block_of_fenced "" body "" eq_refl Hbody) as H.
  rewrite append_nil, append_empty_r in H. rewrite H. reflexivity.
Qed.

(** X11. The format that the prompt asks for gives the query back: a response
    with the query on the lines between [```sql] and [```] is extracted to
    the query itself, when the query is trimmed, holds no backtick and does
    not begin with [SQL] or [Query] in any letter case. *)
Theorem requested_format_round_trip (pre q post : string) :
  PyStr.contains "`" pre = false ->
  PyStr.contains "`" q = false ->
  PyStr.strip q = q ->
  iprefix "SQL" q = false ->
  iprefix "Query" q = false ->
  extract_sql_from_response
    (pre +:+ "```sql" +:+ Render.nl +:+ q +:+ Render.nl +:+ "```" +:+ post)
  = q.
Proof.
  intros Hpre Hq Hstrip Hsql Hquery.
  assert (Hshape :
    pre +:+ "```sql" +:+ Render.nl +:+ q +:+ Render.nl +:+ "```" +:+ post
    = pre +:+ fence +:+ ("sql" +:+ Render.nl +:+ q +:+ Render.nl) +:+ fence +:+ post).
  { unfold fence, Render.nl. push_append. rewrite append_assoc. reflexivity. }
  rewrite Hshape, extract_direct. unfold query_text.
  rewrite first_block_of_fenced; [| exact Hpre |].
  - cbn [default]. unfold skip_tag. rewrite prefix_append.
    change 3 with (String.length "sql"). rewrite drop_append. unfold id.
    rewrite (strip_between_newlines q Hstrip).
    unfold strip_label.
    rewrite (iprefix_longer_label q Hsql), (iprefix_false _ _ Hquery),
      (iprefix_false _ _ Hsql).
    apply remove_backticks_id, Hq.
  - rewrite !contains_backtick_append. repeat split; try reflexivity. exact Hq.
Qed.

Lemma requested_format_round_trip_witness :
  extract_sql_from_response
    ("Here is the query:" +:+ Render.nl +:+
     "```sql" +:+ Render.nl +:+ "SELECT * FROM table WHERE condition;" +:+ Render.nl +:+
     "```" +:+ (Render.nl +:+ "It lists every row."))
  = "SELECT * FROM table WHERE condition;".
Proof.
  apply (requested_format_round_trip ("Here is the query:" +:+ Render.nl)
           "SELECT * FROM table WHERE condition;" (Render.nl +:+ "It lists every row."));
    reflexivity.
Defined.

Lemma text_outside_the_block_is_ignored_witness :
  extract_sql_from_response
    ("Sure." +:+ fence +:+ "sql SELECT 1; " +:+ fence +:+ " and ```SELECT 2;```")
  = extract_sql_from_response (fence +:+ "sql SELECT 1; " +:+ fence).
Proof.
  apply (text_outside_the_block_is_ignored "Sure." "sql SELECT 1; "
           " and ```SELECT 2;```"); reflexivity.
Defined.

End FencedBlock.

(** ** The history of a run *)

Section HistoryOfARun.

Variable env : collaborators.

Lemma successes_app (before tr1 tr2 : list event) :
  successes env before (tr1 ++ tr2)
  = successes env before tr1 ++ successes env (before ++ tr1) tr2.
Proof.
  revert before. induction tr1 as [| e tr1 IH]; intros before.
  - rewrite app_nil_r. reflexivity.
  - cbn [app successes]. rewrite IH, <- !app_assoc. reflexivity.
Qed.

Lemma silent_fret {A : Type} (a : A) : silent (fret a).
Proof. intros w. exists []. cbn. rewrite app_nil_r. split; reflexivity. Qed.

Lemma silent_raise {A : Type} (e : string) : silent (@raise A e).
Proof. intros w. exists []. cbn. rewrite app_nil_r. split; reflexivity. Qed.

Lemma silent_stop {A : Type} : silent (@stop A).
Proof. intros w. exists []. cbn. rewrite app_nil_r. split; reflexivity. Qed.

Lemma silent_emit (e : event) : silent (emit e).
Proof. intros w. exists [e]. split; reflexivity. Qed.

Lemma silent_set_connection (c : conn) : silent (set_connection c).
Proof. intros w. exists []. cbn. rewrite app_nil_r. split; reflexivity. Qed.

Lemma silent_bind {A B : Type} (m : Flow A) (k : A -> Flow B) :
  silent m -> (forall a, silent (k a)) -> silent (fbind m k).
Proof.
  intros Hm Hk w. unfold fbind. destruct (Hm w) as (l1 & Ht1 & Hh1).
  destruct (m w) as [[a | e |] w1]; cbn [snd] in *.
  - destruct (Hk a w1) as (l2 & Ht2 & Hh2). exists (l1 ++ l2).
    rewrite Ht2, Ht1, Hh2, Hh1, <- app_assoc. split; reflexivity.
  - exists l1. split; assumption.
  - exists l1. split; assumption.
Qed.

Lemma silent_get_world {B : Type} (k : world -> Flow B) :
  (forall w0, silent (k w0)) -> silent (fbind get_world k).
Proof. intros Hk w. unfold fbind, get_world. apply Hk. Qed.

Lemma silent_when (cond : bool) (body : Flow unit) : silent body -> silent (when cond body).
Proof. intros H. destruct cond; [exact H | apply silent_fret]. Qed.

Lemma silent_answer {A : Type} (r : string + A) : silent (answer r).
Proof. destruct r; [apply silent_raise | apply silent_fret]. Qed.

Ltac silent_step :=
  lazymatch goal with
  | |- silent (fret _) => apply silent_fret
  | |- silent (raise _) => apply silent_raise
  | |- silent stop => apply silent_stop
  | |- silent (set_connection _) => apply silent_set_connection
  | |- silent (answer _) => apply silent_answer
  | |- silent (emit _) => apply silent_emit
  | |- silent (fbind get_world _) => apply silent_get_world; intros ?
  | |- silent (fbind _ _) => apply silent_bind; [| intros ?]
  | |- silent (when _ _) => apply silent_when
  | |- silent (match ?x with _ => _ end) => destruct x
  end.

Lemma silent_connect : silent (connect env).
Proof. unfold connect. repeat silent_step. Qed.

Lemma silent_generate_response (question : string) :
  silent (generate_response env question).
Proof. unfold generate_response. repeat silent_step. Qed.

Lemma silent_explain_results (question sql_query : string) (results : list row)
    (error : option string) :
  silent (explain_results env question sql_query results error).
Proof. unfold explain_results. repeat silent_step. Qed.

(** [execute_query] adds no entry, and when it returns rows the database
    has answered the query with these rows in the events that it added. *)
Lemma execute_query_answered (query : string) (w : world) :
  exists tr,
    trace (snd (execute_query env query w)) = trace w ++ tr /\
    query_history (snd (execute_query env query w)) = query_history w /\
    match fst (execute_query env query w) with
    | Return r => sublist [(query, length (fst r))] (successes env (trace w) tr)
    | _ => True
    end.
Proof.
  destruct w as [cn li sch qh [c |] tr0];
    unfold execute_query, connect, fbind, get_world, emit, set_connection, fret, raise,
      record; cbn [connection trace query_history fst snd].
  - destruct (drv_cursor env tr0 c); cbn [connection trace query_history fst snd].
    + exists []. rewrite app_nil_r. auto.
    + exists [DbExecute c query]. cbn [successes app].
      destruct (drv_execute env tr0 c query) as [e | r];
        cbn [connection trace query_history fst snd]; repeat split; reflexivity.
  - destruct (drv_connect env tr0) as [e | c]; cbn [connection trace query_history fst snd].
    + exists [DbConnect]. auto.
    + destruct (drv_cursor env (tr0 ++ [DbConnect]) c);
        cbn [connection trace query_history fst snd].
      * exists [DbConnect]. auto.
      * exists [DbConnect; DbExecute c query]. cbn [successes app].
        destruct (drv_execute env (tr0 ++ [DbConnect]) c query) as [e | r];
          cbn [connection trace query_history fst snd]; rewrite <- app_assoc;
          repeat split; reflexivity.
Qed.

Lemma logs_silent {A : Type} (credit : list (string * nat)) (m : Flow A) :
  silent m -> logs env credit m.
Proof.
  intros H w. destruct (H w) as (tr & Ht & Hh). exists tr, [].
  rewrite app_nil_r. repeat split; [exact Ht | exact Hh | apply sublist_nil_l].
Qed.

Lemma grows_after (credit : list (string * nat)) (w w1 w2 : world) (tr : list event) :
  trace w1 = trace w ++ tr ->
  query_history w1 = query_history w ->
  grows env credit w1 w2 ->
  grows env credit w w2.
Proof.
  intros Ht Hh (tr2 & hs & Ht2 & Hh2 & Hsub). exists (tr ++ tr2), hs.
  rewrite Ht2, Hh2, Ht, Hh, <- app_assoc, successes_app. repeat split.
  etransitivity; [exact Hsub |]. rewrite Ht. apply sublist_app; [reflexivity |].
  apply sublist_inserts_l. reflexivity.
Qed.

Lemma logs_after_silent {A B : Type} (credit : list (string * nat)) (m : Flow A)
    (k : A -> Flow B) :
  silent m -> (forall a, logs env credit (k a)) -> logs env credit (fbind m k).
Proof.
  intros Hm Hk w. unfold fbind. destruct (Hm w) as (tr & Ht & Hh).
  destruct (m w) as [[a | e |] w1]; cbn [snd] in *.
  - exact (grows_after credit w w1 _ tr Ht Hh (Hk a w1)).
  - exists tr, []. rewrite app_nil_r. repeat split; try assumption. apply sublist_nil_l.
  - exists tr, []. rewrite app_nil_r. repeat split; try assumption. apply sublist_nil_l.
Qed.

Lemma grows_trans (w w1 w2 : world) :
  grows env [] w w1 -> grows env [] w1 w2 -> grows env [] w w2.
Proof.
  intros (tr1 & hs1 & Ht1 & Hh1 & Hs1) (tr2 & hs2 & Ht2 & Hh2 & Hs2).
  exists (tr1 ++ tr2), (hs1 ++ hs2).
  rewrite Ht2, Hh2, Ht1, Hh1, <- !app_assoc, successes_app, map_app. repeat split.
  cbn [app] in *. rewrite Ht1 in Hs2. apply sublist_app; assumption.
Qed.

Lemma logs_bind {A B : Type} (m : Flow A) (k : A -> Flow B) :
  logs env [] m -> (forall a, logs env [] (k a)) -> logs env [] (fbind m k).
Proof.
  intros Hm Hk w. unfold fbind. pose proof (Hm w) as H1.
  destruct (m w) as [[a | e |] w1]; cbn [snd] in *; [| exact H1 | exact H1].
  exact (grows_trans w w1 _ H1 (Hk a w1)).
Qed.

Lemma logs_try_except {A : Type} (m : Flow A) (handler : string -> Flow A) :
  logs env [] m -> (forall e, logs env [] (handler e)) ->
  logs env [] (try_except m handler).
Proof.
  intros Hm Hh w. unfold try_except. pose proof (Hm w) as H1.
  destruct (m w) as [[a | e |] w1]; cbn [snd] in *; [exact H1 | | exact H1].
  exact (grows_trans w w1 _ H1 (Hh e w1)).
Qed.

Lemma logs_when (credit : list (string * nat)) (cond : bool) (body : Flow unit) :
  logs env credit body -> logs env credit (when cond body).
Proof. intros H. destruct cond; [exact H | apply logs_silent, silent_fret]. Qed.

Lemma logs_get_world {B : Type} (credit : list (string * nat)) (k : world -> Flow B) :
  (forall w0, logs env credit (k w0)) -> logs env credit (fbind get_world k).
Proof. intros Hk w. unfold fbind, get_world. apply Hk. Qed.

(** An entry appended after its execution is accounted for. *)
Lemma logs_append_history (entry : history_entry) :
  logs env [logged_pair entry] (append_history entry).
Proof.
  intros w. exists [], [entry]. cbn. rewrite app_nil_r. repeat split. reflexivity.
Qed.

Lemma logs_execute_query {B : Type} (query : string)
    (k : list row * list string -> Flow B) :
  (forall r, logs env [(query, length (fst r))] (k r)) ->
  logs env [] (fbind (execute_query env query) k).
Proof.
  intros Hk w. unfold fbind. destruct (execute_query_answered query w) as (tr & Ht & Hh & Hr).
  destruct (execute_query env query w) as [[r | e |] w1]; cbn [fst snd] in *.
  - destruct (Hk r w1) as (tr2 & hs & Ht2 & Hh2 & Hsub). exists (tr ++ tr2), hs.
    rewrite Ht2, Hh2, Ht, Hh, <- app_assoc, successes_app. repeat split.
    etransitivity; [exact Hsub |]. rewrite Ht. cbn [app].
    apply (sublist_app [_]); [exact Hr | reflexivity].
  - exists tr, []. rewrite app_nil_r. repeat split; try assumption. apply sublist_nil_l.
  - exists tr, []. rewrite app_nil_r. repeat split; try assumption. apply sublist_nil_l.
Qed.

Ltac logs_step :=
  lazymatch goal with
  | |- logs _ _ (append_history _) => apply logs_append_history
  | |- logs _ _ (emit _) => apply logs_silent, silent_emit
  | |- logs _ _ (fret _) => apply logs_silent, silent_fret
  | |- logs _ _ (fbind get_world _) => apply logs_get_world; intros ?
  | |- logs _ _ (fbind (execute_query _ _) _) => apply logs_execute_query; intros [? ?]
  | |- logs _ _ (fbind (explain_results _ _ _ _ _) _) =>
      apply logs_after_silent; [apply silent_explain_results | intros ?]
  | |- logs _ _ (fbind (generate_response _ _) _) =>
      apply logs_after_silent; [apply silent_generate_response | intros ?]
  | |- logs _ _ (fbind (emit _) _) =>
      apply logs_after_silent; [apply silent_emit | intros ?]
  | |- logs _ _ (fbind (when _ (emit _)) _) =>
      apply logs_after_silent; [apply silent_when, silent_emit | intros ?]
  | |- logs _ _ (fbind (if _ then emit _ else emit _) _) =>
      apply logs_after_silent; [repeat silent_step | intros ?]
  | |- logs _ _ (try_except _ _) => apply logs_try_except; [| intros ?]
  | |- logs _ _ (when _ _) => apply logs_when
  | |- logs _ _ (if ?c then _ else _) => destruct c
  end.

Lemma logs_process_question (wd : widgets) : logs env [] (Main.process_question env wd).
Proof.
  unfold Main.process_question, Main.run_generated_query, Main.on_query_error,
    Main.run_fixed_query.
  repeat logs_step.
Qed.

Lemma logs_manual_block (wd : widgets) : logs env [] (Main.manual_block env wd).
Proof. unfold Main.manual_block. repeat logs_step. Qed.

(** X12. One run of the question block and of the manual block never removes or
    changes an entry of the history, and every entry that it appends
    records a query that the database answered in this run, with the number
    of rows of the answer; the entries are in the order of the executions.
    A query that failed leaves no entry. *)
Theorem history_records_answered_queries (wd : widgets) (w : world) :
  exists tr hs,
    trace (snd (Main.main env wd w)) = trace w ++ tr /\
    query_history (snd (Main.main env wd w)) = query_history w ++ hs /\
    sublist (map logged_pair hs) (successes env (trace w) tr).
Proof.
  assert (H : logs env [] (Main.main env wd)).
  { unfold Main.main. apply logs_bind; [apply logs_process_question | intros _].
    apply logs_manual_block. }
  exact (H w).
Qed.

End HistoryOfARun.

(** ** What a run sends to the database *)

Section WhatIsSent.

Variable env : collaborators.

Ltac run_flow :=
  unfold Main.main, Main.process_question, Main.manual_block, execute_query, connect,
    try_except, when, fbind, get_world, emit, set_connection, append_history, fret, raise,
    record, with_entry;
  cbn [connected llm_initialized schema_for_llm query_history connection trace fst snd
       negb orb andb].

(** X13. When the analyzer has no connection object and the server refuses the
    connection, [execute_query] raises the error of the missing object: the
    message of [connect] is dropped and no statement is sent. *)
Theorem refused_connection_surfaces_as_missing_object (query e : string) (w : world) :
  connection w = None ->
  drv_connect env (trace w) = inl e ->
  execute_query env query w
  = (Raise "'NoneType' object has no attribute 'cursor'", record [DbConnect] w).
Proof.
  intros Hc He. destruct w as [cn li sch qh c tr0]. cbn [connection trace] in Hc, He.
  subst c. run_flow. rewrite He. cbn [connection trace fst snd]. reflexivity.
Qed.

(** X14. A run of a session that is not connected only reports: it sends nothing
    to the database or to the language model, and adds no entry. *)
Theorem disconnected_run_only_reports (wd : widgets) (w : world) :
  connected w = false ->
  Main.main env wd w
  = (Return tt,
     record
       ((if submit_button wd && PyStr.truthy (question wd)
         then [UiError "Please make sure the LLM Runtime interface is initialized and you're connected to a database."]
         else []) ++
        [UiInfo "Connect to a database to manually execute SQL queries."]) w).
Proof.
  intros Hc. destruct w as [cn li sch qh c tr0]. cbn [connected] in Hc. subst cn.
  run_flow. destruct (submit_button wd && PyStr.truthy (question wd)); run_flow.
  - rewrite <- app_assoc. reflexivity.
  - reflexivity.
Qed.

(** X15. The manual block sends to the database nothing but the text of its text
    area, and never an empty text. *)
Theorem manual_block_guards_the_empty_query (wd : widgets) (w : world) :
  exists tr,
    trace (snd (Main.manual_block env wd w)) = trace w ++ tr /\
    forall c query,
      In (DbExecute c query) tr ->
      query = manual_query wd /\ PyStr.truthy query = true.
Proof.
  destruct w as [cn li sch qh c tr0]. run_flow.
  destruct cn; [| eexists; split; [reflexivity | intros c0 q [H | []]; discriminate H]].
  destruct (execute_manual_button wd);
    [| exists []; rewrite app_nil_r; split; [reflexivity | intros c0 q []]].
  destruct (PyStr.truthy (manual_query wd)) eqn:Hq; run_flow;
    [| eexists; split; [reflexivity | intros c0 q [H | []]; discriminate H]].
  assert (Hin : forall l c0 q,
            Forall (fun e => match e with
                             | DbExecute _ q' => q' = manual_query wd
                             | _ => True
                             end) l ->
            In (DbExecute c0 q) l -> q = manual_query wd /\ PyStr.truthy q = true).
  { intros l c0 q Hall H. rewrite Forall_forall in Hall.
    apply list_elem_of_In in H. specialize (Hall _ H). cbn in Hall. subst q. auto. }
  destruct c as [c |]; run_flow;
    repeat match goal with
           | |- context [drv_connect env ?h] =>
               destruct (drv_connect env h) as [e | c]; run_flow
           | |- context [drv_cursor env ?h ?c] => destruct (drv_cursor env h c); run_flow
           | |- context [drv_execute env ?h ?c ?q] =>
               destruct (drv_execute env h c q) as [e' | [results columns]]; run_flow
           | |- context [nonempty ?r && nonempty ?cs] =>
               destruct (nonempty r && nonempty cs); run_flow
           end;
    rewrite <- ?app_assoc; cbn [app];
    (eexists; split; [reflexivity | intros c0 q; apply Hin; repeat constructor]).
Qed.

End WhatIsSent.

Lemma refused_connection_surfaces_as_missing_object_witness :
  execute_query unreachable_server "SELECT 1;" no_connection
  = (Raise "'NoneType' object has no attribute 'cursor'", record [DbConnect] no_connection).
Proof.
  apply (refused_connection_surfaces_as_missing_object unreachable_server "SELECT 1;"
           "could not connect to server: Connection refused" no_connection);
    reflexivity.
Defined.

Lemma disconnected_run_only_reports_witness :
  Main.main unreachable_server Scenario.no_click disconnected
  = (Return tt,
     record [UiInfo "Connect to a database to manually execute SQL queries."]
       disconnected).
Proof.
  apply (disconnected_run_only_reports unreachable_server Scenario.no_click disconnected).
  reflexivity.
Defined.


(** ** Instances of the further properties *)

Section FurtherInstances.

Import Scenario.

Local Existing Instance ascii_only.

Lemma numeric_columns_skip_the_fallback_witness :
  fst (Inference.infer_column_semantics [] "orders" "id" "integer" Inference.fresh)
  = Inference.numeric_meaning (PyStr.lower "id") /\
  (forall relation,
     fst (Inference.infer_column_semantics [] "orders" "id" "integer" Inference.fresh)
     <> "Identifier for a " +:+ relation) /\
  fst (Inference.infer_column_semantics [] "orders" "id" "integer" Inference.fresh)
  <> "Primary identifier".
Proof.
  apply (numeric_columns_skip_the_fallback [] Inference.fresh "orders" "id" "integer").
  - apply lookup_empty.
  - left. reflexivity.
  - reflexivity.
Defined.

Lemma discount_label_is_unreachable_witness :
  fst (Inference.infer_column_semantics [] "orders" "discount" "numeric" Inference.fresh)
  <> discount_label.
Proof.
  apply (discount_label_is_unreachable [] Inference.fresh "orders" "discount" "numeric").
  - apply lookup_empty.
  - left. reflexivity.
Defined.

Lemma stored_comments_reach_the_snapshot_witness :
  comments_carried annotated_shop
    (default no_tables (returned (Snapshot.analyze_schema string annotated_shop new_analyzer)))
    "orders".
Proof.
  apply (stored_comments_reach_the_snapshot string annotated_shop "orders"
           (snd (Snapshot.analyze_schema string annotated_shop new_analyzer))).
  - intros t [<- | []]. reflexivity.
  - left. reflexivity.
  - vm_compute. reflexivity.
Defined.

Lemma snapshot_relationships_witness :
  Snapshot.relationships shop_snapshot = [shop_relationship] /\
  Snapshot.primary_keys shop_snapshot
  = Snapshot.group_primary_keys [("customers", "code"); ("orders", "order_id")].
Proof.
  apply (snapshot_relationships string shop new_analyzer
           (snd (Snapshot.analyze_schema string shop new_analyzer)) shop_snapshot).
  vm_compute. reflexivity.
Defined.

Lemma snapshot_labels_witness :
  Inference.column_semantics
    (Snapshot.analyzer_of (snd (Snapshot.analyze_schema string shop new_analyzer)))
  = Snapshot.column_semantics shop_snapshot /\
  labels_not_empty (Snapshot.column_semantics shop_snapshot).
Proof.
  apply (snapshot_labels string shop new_analyzer
           (snd (Snapshot.analyze_schema string shop new_analyzer)) shop_snapshot).
  vm_compute. reflexivity.
Defined.

Lemma snapshot_tables_witness :
  NoDup (map fst (Snapshot.tables shop_snapshot)) /\
  forall t, In t (map fst (Snapshot.tables shop_snapshot)) <-> In t ["orders"; "customers"].
Proof.
  apply (snapshot_tables string shop new_analyzer
           (snd (Snapshot.analyze_schema string shop new_analyzer)) shop_snapshot).
  vm_compute. reflexivity.
Defined.

End FurtherInstances.

(** ** The chunks of a response *)

Section ResponseStream.

Import Llama.

Variable chunk : Type.
Variable loads : chunk -> attempt json.

Lemma loop_body_appends (full_response : string) (c : chunk) :
  loop_body chunk loads full_response c = full_response +:+ content_of loads c.
Proof.
  unfold loop_body, content_of, getitem, is_False, add_content.
  destruct (loads c) as [e | data]; [rewrite append_empty_r; reflexivity |].
  destruct data as [| b | n | s | items | members]; try (rewrite append_empty_r; reflexivity).
  destruct (Dict.get "stop" members) as [[| [] | n | s | items | members'] |];
    try (rewrite append_empty_r; reflexivity).
  destruct (Dict.get "content" members) as [[| b | n | s | items | members'] |];
    try (rewrite append_empty_r; reflexivity).
  reflexivity.
Qed.

Lemma loop_appends (chunks : list chunk) (full_response : string) :
  fold_left (loop_body chunk loads) chunks full_response
  = full_response +:+ String.concat "" (map (content_of loads) chunks).
Proof.
  revert full_response. induction chunks as [| c chunks IH]; intros full_response.
  - cbn. rewrite append_empty_r. reflexivity.
  - cbn [fold_left map]. rewrite IH, loop_body_appends, concat_cons, append_assoc.
    reflexivity.
Qed.

(** X16. The response is the concatenation, in the order of arrival, of the
    texts under [content] of the chunks that parse to an object with [stop]
    equal to [false]; a chunk that does not decode or parse, that is no
    object, that lacks a key, whose [stop] is anything but [false] or whose
    [content] is no text adds nothing, and the reading goes on after it. *)
Theorem response_concatenates_the_open_chunks (chunks : list chunk) :
  get_llama_response chunk loads chunks
  = String.concat "" (map (content_of loads) chunks).
Proof. unfold get_llama_response. rewrite loop_appends. apply append_nil. Qed.

(** X17. The response to a stream is the response to its first part followed by
    the response to the rest, wherever the stream is cut between chunks. *)
Theorem response_of_a_cut_stream (chunks1 chunks2 : list chunk) :
  get_llama_response chunk loads (chunks1 ++ chunks2)
  = get_llama_response chunk loads chunks1 +:+ get_llama_response chunk loads chunks2.
Proof.
  unfold get_llama_response. rewrite fold_left_app, !loop_appends, !append_nil.
  reflexivity.
Qed.

(** X18. The chunk that announces the end, with [stop] equal to [true], does not
    end the reading and its own [content] is dropped: the response is that
    of the stream without it. *)
Theorem stop_chunk_is_dropped (chunks1 chunks2 : list chunk) (c : chunk)
    (members : list (string * json)) :
  loads c = inr (JObject members) ->
  Dict.get "stop" members = Some (JBool true) ->
  get_llama_response chunk loads (chunks1 ++ c :: chunks2)
  = get_llama_response chunk loads (chunks1 ++ chunks2).
Proof.
  intros Hl Hs. unfold get_llama_response.
  rewrite !fold_left_app. cbn [fold_left]. rewrite loop_body_appends.
  unfold content_of. rewrite Hl, Hs, append_empty_r. reflexivity.
Qed.

End ResponseStream.

Lemma stop_chunk_is_dropped_witness :
  Llama.get_llama_response (Llama.attempt Llama.json) (fun c => c)
    [inr (Llama.JObject [("content", Llama.JString "SELECT"); ("stop", Llama.JBool false)]);
     inr (Llama.JObject [("content", Llama.JString " 1;"); ("stop", Llama.JBool true)]);
     inl "JSONDecodeError"]
  = Llama.get_llama_response (Llama.attempt Llama.json) (fun c => c)
      [inr (Llama.JObject [("content", Llama.JString "SELECT"); ("stop", Llama.JBool false)]);
       inl "JSONDecodeError"].
Proof.
  apply (stop_chunk_is_dropped (Llama.attempt Llama.json) (fun c => c)
           [inr (Llama.JObject [("content", Llama.JString "SELECT");
                                ("stop", Llama.JBool false)])]
           [inl "JSONDecodeError"]
           (inr (Llama.JObject [("content", Llama.JString " 1;"); ("stop", Llama.JBool true)]))
           [("content", Llama.JString " 1;"); ("stop", Llama.JBool true)]);
    reflexivity.
Defined.

(** ** The tabs of the history *)

Section HistoryTabs.

Import Display.

(** X19. The tabs show the history from the newest entry to the oldest, and
    number it in that order: the entry at position [k] of a history of [n]
    entries is under the label [Query n-k], so the newest is [Query 1] and
    the number of an entry grows with each query that is added. *)
Theorem tabs_count_from_the_newest (query_history : list history_entry) (k : nat)
    (entry : history_entry) :
  query_history !! k = Some entry ->
  history_items query_history !! (length query_history - S k) = Some entry /\
  tab_labels query_history !! (length query_history - S k)
  = Some ("Query " +:+ pretty (length query_history - k) +:+ ": " +:+ h_timestamp entry).
Proof.
  intros H. pose proof (lookup_lt_Some _ _ _ H) as Hk.
  assert (Hitem : history_items query_history !! (length query_history - S k) = Some entry).
  { unfold history_items. rewrite reverse_lookup by lia.
    replace (length query_history - S (length query_history - S k)) with k by lia.
    exact H. }
  split; [exact Hitem |].
  unfold tab_labels. rewrite list_lookup_imap, Hitem. cbn [fmap option_fmap option_map].
  replace (length query_history - S k + 1) with (length query_history - k) by lia.
  reflexivity.
Qed.

Lemma tabs_count_from_the_newest_witness :
  history_items two_entries !! 0 = nth_error two_entries 1 /\
  tab_labels two_entries !! 0 = Some "Query 1: 2025-01-01 12:05:00".
Proof.
  destruct (tabs_count_from_the_newest two_entries 1
              {| h_question := "MANUAL QUERY"; h_sql_query := "SELECT 1;";
                 h_results_count := 1; h_explanation := "Manually entered query";
                 h_timestamp := "2025-01-01 12:05:00" |} eq_refl) as [Hi Hl].
  split; [exact Hi | exact Hl].
Defined.

End HistoryTabs.

(** ** The model brief of a built snapshot *)

Section BriefOfASnapshot.

Import Snapshot.

Variable value : Type.
Variable db : catalog value.

Context {U : PyStr.Unicode}.

Lemma in_key_columns (rows : list (string * string)) (table col : string) :
  In col (key_columns rows table) <-> In (table, col) rows.
Proof.
  unfold key_columns. rewrite in_map_iff. split.
  - intros ([t c] & <- & H). apply filter_In in H as [H Heq]. cbn [fst snd] in *.
    apply String.eqb_eq in Heq. subst t. exact H.
  - intros H. exists (table, col). split; [reflexivity |].
    apply filter_In. split; [exact H | apply String.eqb_refl].
Qed.

Lemma In_member (x : string) (xs : list string) : In x xs -> PyStr.member x xs = true.
Proof.
  intros H. unfold PyStr.member. apply existsb_exists. exists x.
  split; [exact H | apply String.eqb_refl].
Qed.

(** X20. The column [Primary Key] of the model brief says [YES] for a column
    exactly when the primary key query has a row for the table and the
    column: the test of [brief_column] on the snapshot that [analyze_schema]
    returns is membership among the rows. *)
Theorem primary_key_flag_follows_the_rows (st st' : build_state)
    (si : schema_info value) (table col : string) :
  analyze_schema value db st = (Done si, st') ->
  PyStr.member col (default [] (primary_keys si !! table)) = true
  <-> In (table, col) (cat_primary_key_rows db).
Proof.
  intros Hdone.
  destruct (analyze_schema_done value db _ _ _ Hdone) as (_ & _ & -> & _).
  assert (Hpk : primary_keys (fst (snapshot_of_answers value db (analyzer_of st)))
                = group_primary_keys (cat_primary_key_rows db)).
  { unfold snapshot_of_answers, bind.
    set (si0 := {| tables := []; relationships := [];
                   primary_keys := group_primary_keys (cat_primary_key_rows db);
                   sample_data := ∅; column_semantics := ∅ |}).
    destruct (process_tables_parts value db (cat_tables db) si0 (analyzer_of st))
      as (_ & Hp & _).
    destruct (process_tables value db si0 (cat_tables db) (analyzer_of st))
      as [si1 self1].
    cbn [fst snd modify ret] in *.
    destruct (add_relationships_parts value (cat_foreign_keys db) si1) as (_ & Hp' & _).
    rewrite Hp', Hp. reflexivity. }
  rewrite Hpk. unfold group_primary_keys.
  rewrite primary_key_rows_fold, lookup_empty, <- in_key_columns.
  destruct (key_columns (cat_primary_key_rows db) table) as [| c cs]; cbn [default app].
  - split; [discriminate | intros []].
  - split; [apply member_In | apply In_member].
Qed.

End BriefOfASnapshot.

Lemma primary_key_flag_follows_the_rows_witness :
  PyStr.member "order_id"
    (default [] (Snapshot.primary_keys Scenario.shop_snapshot !! "orders")) = true
  <-> In ("orders", "order_id") [("customers", "code"); ("orders", "order_id")].
Proof.
  apply (primary_key_flag_follows_the_rows string Scenario.shop
           (U := Scenario.ascii_only) Scenario.new_analyzer
           (snd (Snapshot.analyze_schema string Scenario.shop (U := Scenario.ascii_only)
                   Scenario.new_analyzer))
           Scenario.shop_snapshot "orders" "order_id").
  vm_compute. reflexivity.
Defined.

(** ** The date/time reference of the model brief *)

Section DateReference.

Import Snapshot.

Variable value : Type.

Lemma dict_set_in {V : Type} (k : string) (v : V) (d : list (string * V))
    (kv : string * V) :
  In kv (Dict.set k v d) -> kv = (k, v) \/ In kv d.
Proof.
  induction d as [| [k' v'] d IH]; cbn [Dict.set].
  - intros [<- | []]. left. reflexivity.
  - destruct (String.eqb k' k).
    + intros [<- | H]; [left; reflexivity | right; right; exact H].
    + intros [<- | H]; [right; left; reflexivity |].
      destruct (IH H) as [-> | Hin]; [left; reflexivity | right; right; exact Hin].
Qed.

(** The step of the inner loop of the date/time reference. *)
Lemma date_column_step (table : string) (c : column) (acc : list (string * string)) :
  let acc' :=
    if PyStr.member (c_type c) Inference.date_types then
      if PyStr.truthy (default "" (c_semantics c))
      then Dict.set (Render.dotted table (c_name c)) (default "" (c_semantics c)) acc
      else acc
    else acc in
  (forall kv, In kv acc' ->
     In kv acc \/
     (kv = (Render.dotted table (c_name c), default "" (c_semantics c)) /\
      PyStr.member (c_type c) Inference.date_types = true /\
      PyStr.truthy (default "" (c_semantics c)) = true)) /\
  (forall k, In k (map fst acc) -> In k (map fst acc')) /\
  (PyStr.member (c_type c) Inference.date_types = true ->
   PyStr.truthy (default "" (c_semantics c)) = true ->
   In (Render.dotted table (c_name c)) (map fst acc')).
Proof.
  cbn zeta.
  destruct (PyStr.member (c_type c) Inference.date_types);
    [destruct (PyStr.truthy (default "" (c_semantics c))) |].
  - split; [| split].
    + intros kv H. apply dict_set_in in H as [-> | H]; [right; auto | left; exact H].
    + intros k H. apply dict_set_keys. right. exact H.
    + intros _ _. apply dict_set_keys. left. reflexivity.
  - split; [auto | split; [auto | discriminate]].
  - split; [auto | split; [auto | discriminate]].
Qed.

Lemma date_columns_of_table_spec (table : string) (info : table_info)
    (acc : list (string * string)) :
  let acc' := Render.date_columns_of_table (table, info) acc in
  (forall kv, In kv acc' ->
     In kv acc \/
     exists c,
       In c (t_columns info) /\
       kv = (Render.dotted table (c_name c), default "" (c_semantics c)) /\
       PyStr.member (c_type c) Inference.date_types = true /\
       PyStr.truthy (default "" (c_semantics c)) = true) /\
  (forall k, In k (map fst acc) -> In k (map fst acc')) /\
  (forall c,
     In c (t_columns info) ->
     PyStr.member (c_type c) Inference.date_types = true ->
     PyStr.truthy (default "" (c_semantics c)) = true ->
     In (Render.dotted table (c_name c)) (map fst acc')).
Proof.
  unfold Render.date_columns_of_table. revert acc.
  induction (t_columns info) as [| c cs IH]; intros acc.
  - cbn. split; [auto | split; [auto | intros c []]].
  - cbn [fold_left]. destruct (date_column_step table c acc) as (Hs & Hk & Hc).
    cbn zeta in Hs, Hk, Hc.
    match goal with |- context [fold_left _ cs ?a] => destruct (IH a) as (IHs & IHk & IHc) end.
    cbn zeta in IHs, IHk, IHc. cbn zeta. split; [| split].
    + intros kv H. destruct (IHs kv H) as [H1 | (c' & Hin & Hrest)].
      * destruct (Hs kv H1) as [H2 | Hnew]; [left; exact H2 |].
        right. exists c. split; [left; reflexivity | exact Hnew].
      * right. exists c'. split; [right; exact Hin | exact Hrest].
    + intros k H. apply IHk, Hk, H.
    + intros c' [<- | Hin] Hd Ht; [apply IHk, Hc; assumption | apply IHc; assumption].
Qed.

(** X21. The date/time reference of the model brief lists labelled date/time
    columns and nothing else: each of its entries is the key
    [table.column] and the label of a column of the snapshot whose type is
    a date/time type and whose label is not empty, and every such column
    has its key in the reference. *)
Theorem date_reference_lists_the_labelled_date_columns (si : schema_info value) :
  (forall k v,
     In (k, v) (Render.date_columns value si) ->
     exists table info c,
       In (table, info) (tables si) /\ In c (t_columns info) /\
       PyStr.member (c_type c) Inference.date_types = true /\
       c_semantics c = Some v /\ PyStr.truthy v = true /\
       k = Render.dotted table (c_name c)) /\
  (forall table info c v,
     In (table, info) (tables si) -> In c (t_columns info) ->
     PyStr.member (c_type c) Inference.date_types = true ->
     c_semantics c = Some v -> PyStr.truthy v = true ->
     In (Render.dotted table (c_name c)) (map fst (Render.date_columns value si))).
Proof.
  unfold Render.date_columns.
  assert (H : forall ts acc,
    let acc' := fold_left (fun acc t => Render.date_columns_of_table t acc) ts acc in
    (forall kv, In kv acc' ->
       In kv acc \/
       exists table info c,
         In (table, info) ts /\ In c (t_columns info) /\
         kv = (Render.dotted table (c_name c), default "" (c_semantics c)) /\
         PyStr.member (c_type c) Inference.date_types = true /\
         PyStr.truthy (default "" (c_semantics c)) = true) /\
    (forall k, In k (map fst acc) -> In k (map fst acc')) /\
    (forall table info c,
       In (table, info) ts -> In c (t_columns info) ->
       PyStr.member (c_type c) Inference.date_types = true ->
       PyStr.truthy (default "" (c_semantics c)) = true ->
       In (Render.dotted table (c_name c)) (map fst acc'))).
  { induction ts as [| [table info] ts IH]; intros acc.
    - cbn. split; [auto | split; [auto | intros table info c []]].
    - cbn [fold_left]. destruct (date_columns_of_table_spec table info acc) as (Hs & Hk & Hc).
      cbn zeta in Hs, Hk, Hc.
      destruct (IH (Render.date_columns_of_table (table, info) acc)) as (IHs & IHk & IHc).
      cbn zeta in IHs, IHk, IHc. cbn zeta. split; [| split].
      + intros kv H. destruct (IHs kv H) as [H1 | (t' & i' & c' & Hin & Hrest)].
        * destruct (Hs kv H1) as [H2 | (c' & Hin & Hrest)]; [left; exact H2 |].
          right. exists table, info, c'. split; [left; reflexivity | split; [exact Hin | exact Hrest]].
        * right. exists t', i', c'. split; [right; exact Hin | exact Hrest].
      + intros k H. apply IHk, Hk, H.
      + intros t' i' c' [Heq | Hin] Hc' Hd Ht.
        * injection Heq as <- <-. apply IHk, Hc; assumption.
        * apply (IHc t' i' c'); assumption. }
  destruct (H (tables si) []) as (Hs & _ & Hc). cbn zeta in Hs, Hc. split.
  - intros k v Hin. destruct (Hs _ Hin) as [[] | (table & info & c & Ht & Hcol & Heq & Hd & Htr)].
    injection Heq as -> ->. exists table, info, c.
    destruct (c_semantics c) as [s |]; [| discriminate Htr]. cbn [default] in *.
    repeat split; assumption.
  - intros table info c v Ht Hcol Hd Hsem Htr. apply (Hc table info c Ht Hcol Hd).
    rewrite Hsem. exact Htr.
Qed.

End DateReference.

(** ** The reconnection of [pg-query/ui/streamlit.py] *)

Section Reconnection.

Variable env : collaborators.
Variable wd : widgets.

Lemma executed_queries_app (tr1 tr2 : list event) :
  executed_queries (tr1 ++ tr2) = executed_queries tr1 ++ executed_queries tr2.
Proof. unfold executed_queries. apply flat_map_app. Qed.

(** X22. When the connection does not pass the health check and the server
    refuses a new connection, the run of a generated query is stopped: the
    query is not sent, nothing is appended to the history, and the handler
    for query errors does not run. *)
Theorem failed_reconnection_stops_the_run (sql_query e : string) (w : world) :
  (forall c, connection w = Some c -> drv_alive env (trace w) c = false) ->
  drv_connect env
    (trace w ++
     match connection w with Some c => [DbPing c] | None => [] end ++
     [UiWarning "Database connection issue detected. Attempting to reconnect..."])
  = inl e ->
  let run := try_except (UiMain.run_generated_query env wd sql_query)
               (UiMain.on_query_error env wd sql_query) w in
  fst run = Stopped /\
  executed_queries (trace (snd run)) = executed_queries (trace w) /\
  query_history (snd run) = query_history w /\
  Forall (fun ev => match ev with LlmExplain _ _ _ => False | _ => True end)
    (skipn (length (trace w)) (trace (snd run))).
Proof.
  intros Hdead He. destruct w as [cn li sch qh c tr0].
  cbn [connection trace] in Hdead, He.
  unfold UiMain.run_generated_query, UiMain.ensure_connection,
    UiMain.check_connection_health, connect, try_except, when, stop, fbind, get_world, emit,
    fret, record.
  cbn [connected llm_initialized schema_for_llm query_history connection trace fst snd].
  destruct c as [c |].
  - rewrite (Hdead c eq_refl).
    cbn [connected llm_initialized schema_for_llm query_history connection trace fst snd
         negb].
    rewrite <- !app_assoc. cbn [app] in He |- *. rewrite He.
    cbn [connected llm_initialized schema_for_llm query_history connection trace fst snd
         negb].
    rewrite <- ?app_assoc, executed_queries_app, skipn_app, Nat.sub_diag, skipn_all.
    cbn. rewrite app_nil_r. repeat split. repeat constructor.
  - cbn [app negb] in He |- *.
    cbn [connected llm_initialized schema_for_llm query_history connection trace fst snd
         negb].
    rewrite He.
    cbn [connected llm_initialized schema_for_llm query_history connection trace fst snd
         negb].
    rewrite <- ?app_assoc, executed_queries_app, skipn_app, Nat.sub_diag, skipn_all.
    cbn. rewrite app_nil_r. repeat split. repeat constructor.
Qed.

End Reconnection.

Lemma failed_reconnection_stops_the_run_witness :
  let run := try_except (UiMain.run_generated_query refusing_server Scenario.ask "SELECT 1;")
               (UiMain.on_query_error refusing_server Scenario.ask "SELECT 1;")
               Scenario.ready in
  fst run = Stopped /\
  executed_queries (trace (snd run)) = executed_queries (trace Scenario.ready) /\
  query_history (snd run) = query_history Scenario.ready /\
  Forall (fun ev => match ev with LlmExplain _ _ _ => False | _ => True end)
    (skipn (length (trace Scenario.ready)) (trace (snd run))).
Proof.
  apply (failed_reconnection_stops_the_run refusing_server Scenario.ask "SELECT 1;"
           "could not connect to server: Connection refused" Scenario.ready).
  - intros c _. reflexivity.
  - reflexivity.
Defined.

(** ** The connection object of a session *)

Section ConnectionObject.

Variable env : collaborators.
Variable c : conn.

Lemma stays_fret {A : Type} (a : A) : stays_on c (fret a).
Proof.
  intros w H. split; [exact H |]. exists []. cbn. rewrite app_nil_r. split; constructor.
Qed.

Lemma stays_raise {A : Type} (e : string) : stays_on c (@raise A e).
Proof.
  intros w H. split; [exact H |]. exists []. cbn. rewrite app_nil_r. split; constructor.
Qed.

Lemma stays_emit (e : event) : on_connection c e -> stays_on c (emit e).
Proof.
  intros He w H. split; [exact H |]. exists [e]. split; [reflexivity |].
  constructor; [exact He | constructor].
Qed.

Lemma stays_append_history (entry : history_entry) : stays_on c (append_history entry).
Proof.
  intros w H. split; [exact H |]. exists []. cbn. rewrite app_nil_r. split; constructor.
Qed.

Lemma stays_bind {A B : Type} (m : Flow A) (k : A -> Flow B) :
  stays_on c m -> (forall a, stays_on c (k a)) -> stays_on c (fbind m k).
Proof.
  intros Hm Hk w H. unfold fbind. destruct (Hm w H) as (Hc1 & tr1 & Ht1 & Hf1).
  destruct (m w) as [[a | e |] w1]; cbn [snd] in *.
  - destruct (Hk a w1 Hc1) as (Hc2 & tr2 & Ht2 & Hf2). split; [exact Hc2 |].
    exists (tr1 ++ tr2). rewrite Ht2, Ht1, <- app_assoc. split; [reflexivity |].
    apply Forall_app. split; assumption.
  - split; [exact Hc1 |]. exists tr1. split; assumption.
  - split; [exact Hc1 |]. exists tr1. split; assumption.
Qed.

Lemma stays_get_world {B : Type} (k : world -> Flow B) :
  (forall w0, stays_on c (k w0)) -> stays_on c (fbind get_world k).
Proof. intros Hk w. unfold fbind, get_world. apply Hk. Qed.

Lemma stays_try_except {A : Type} (m : Flow A) (handler : string -> Flow A) :
  stays_on c m -> (forall e, stays_on c (handler e)) -> stays_on c (try_except m handler).
Proof.
  intros Hm Hh w H. unfold try_except. destruct (Hm w H) as (Hc1 & tr1 & Ht1 & Hf1).
  destruct (m w) as [[a | e |] w1]; cbn [snd] in *.
  - split; [exact Hc1 |]. exists tr1. split; assumption.
  - destruct (Hh e w1 Hc1) as (Hc2 & tr2 & Ht2 & Hf2). split; [exact Hc2 |].
    exists (tr1 ++ tr2). rewrite Ht2, Ht1, <- app_assoc. split; [reflexivity |].
    apply Forall_app. split; assumption.
  - split; [exact Hc1 |]. exists tr1. split; assumption.
Qed.

Lemma stays_when (cond : bool) (body : Flow unit) :
  stays_on c body -> stays_on c (when cond body).
Proof. intros H. destruct cond; [exact H | apply stays_fret]. Qed.

Lemma stays_answer {A : Type} (r : string + A) : stays_on c (answer r).
Proof. destruct r; [apply stays_raise | apply stays_fret]. Qed.

(** With a connection object at hand [execute_query] opens no connection
    and sends its statement on that object. *)
Lemma stays_execute_query (query : string) : stays_on c (execute_query env query).
Proof.
  intros w H. destruct w as [cn li sch qh c0 tr0]. cbn [connection] in H. subst c0.
  unfold execute_query, fbind, get_world, emit, fret, raise, record.
  cbn [connection trace fst snd].
  destruct (drv_cursor env tr0 c); cbn [connection trace fst snd].
  - split; [reflexivity |]. exists []. rewrite app_nil_r. split; constructor.
  - destruct (drv_execute env tr0 c query); cbn [connection trace fst snd];
      (split; [reflexivity |]; exists [DbExecute c query]; split; [reflexivity |];
       repeat constructor).
Qed.

Ltac stays_step :=
  lazymatch goal with
  | |- stays_on _ (fret _) => apply stays_fret
  | |- stays_on _ (raise _) => apply stays_raise
  | |- stays_on _ (append_history _) => apply stays_append_history
  | |- stays_on _ (answer _) => apply stays_answer
  | |- stays_on _ (emit _) => apply stays_emit; exact I
  | |- stays_on _ (execute_query _ _) => apply stays_execute_query
  | |- stays_on _ (fbind get_world _) => apply stays_get_world; intros ?
  | |- stays_on _ (fbind _ _) => apply stays_bind; [| intros ?]
  | |- stays_on _ (try_except _ _) => apply stays_try_except; [| intros ?]
  | |- stays_on _ (when _ _) => apply stays_when
  | |- stays_on _ (match ?x with _ => _ end) => destruct x
  end.

(** X23. A run of the question block and of the manual block of
    [pg-query/streamlit.py] that starts with a connection object ends with
    the same object: whatever the database and the model answer, it opens no
    connection and sends every statement on that object. *)
Theorem main_keeps_the_connection_object (wd : widgets) (w : world) :
  connection w = Some c ->
  connection (snd (Main.main env wd w)) = Some c /\
  exists tr,
    trace (snd (Main.main env wd w)) = trace w ++ tr /\
    Forall (on_connection c) tr.
Proof.
  assert (H : stays_on c (Main.main env wd)).
  { unfold Main.main, Main.process_question, Main.manual_block, Main.run_generated_query,
      Main.on_query_error, Main.run_fixed_query, generate_response, explain_results.
    repeat stays_step. }
  exact (H w).
Qed.

End ConnectionObject.

Lemma main_keeps_the_connection_object_witness :
  connection (snd (Main.main Scenario.dead_connection Scenario.ask Scenario.ready)) = Some 1 /\
  exists tr,
    trace (snd (Main.main Scenario.dead_connection Scenario.ask Scenario.ready))
    = trace Scenario.ready ++ tr /\
    Forall (on_connection 1) tr.
Proof.
  apply (main_keeps_the_connection_object Scenario.dead_connection 1 Scenario.ask
           Scenario.ready).
  reflexivity.
Defined.

(** ** A failure of the explanation *)

Section ExplanationFailure.

Variable env : collaborators.
Variable wd : widgets.

(** X24. When the database answers the generated query and the explanation call
    then fails, the run reports the failure as an error of the query: it
    shows [Error executing the query: ...] with the error of the model, asks
    the model to explain the failure of a query that succeeded (or, when the
    error text is empty, to explain an empty result), and the answered query
    leaves no entry in the history. *)
Theorem explanation_failure_is_reported_as_query_failure (sql_query e : string)
    (results : list row) (columns : list string) (w : world) (c : conn) :
  connection w = Some c ->
  drv_cursor env (trace w) c = None ->
  drv_execute env (trace w) c sql_query = inr (results, columns) ->
  llm_explain env (question wd) sql_query results None = inl e ->
  execute_fixed_button wd = false ->
  let run := try_except (Main.run_generated_query env wd sql_query)
               (Main.on_query_error env wd sql_query) w in
  query_history (snd run) = query_history w /\
  exists rest,
    trace (snd run)
    = trace w ++
      [DbExecute c sql_query;
       LlmExplain (question wd) sql_query None;
       UiError ("Error executing the query: " +:+ e);
       LlmExplain (question wd) sql_query (effective_error (Some e))] ++ rest.
Proof.
  intros Hc Hcur Hx Hl Hb. destruct w as [cn li sch qh c0 tr0].
  cbn [connection trace] in Hc, Hcur, Hx. subst c0.
  unfold Main.run_generated_query, Main.on_query_error, execute_query, explain_results,
    try_except, when, answer, fbind, get_world, emit, fret, raise, record.
  change (effective_error None) with (@None string).
  cbn [connected llm_initialized schema_for_llm query_history connection trace fst snd].
  rewrite Hcur.
  cbn [connected llm_initialized schema_for_llm query_history connection trace fst snd].
  rewrite Hx.
  cbn [connected llm_initialized schema_for_llm query_history connection trace fst snd].
  rewrite Hl.
  cbn [connected llm_initialized schema_for_llm query_history connection trace fst snd].
  rewrite Hb.
  destruct (llm_explain env (question wd) sql_query [] (effective_error (Some e)))
    as [e' | explanation];
    cbn [connected llm_initialized schema_for_llm query_history connection trace fst snd];
    (split; [reflexivity |]); rewrite <- !app_assoc; cbn [app];
    eexists; reflexivity.
Qed.

End ExplanationFailure.

Lemma explanation_failure_is_reported_as_query_failure_witness :
  let run := try_except
               (Main.run_generated_query failing_explainer Scenario.ask
                  "SELECT count(*) FROM orders;")
               (Main.on_query_error failing_explainer Scenario.ask
                  "SELECT count(*) FROM orders;") Scenario.ready in
  query_history (snd run) = query_history Scenario.ready /\
  exists rest,
    trace (snd run)
    = trace Scenario.ready ++
      [DbExecute 1 "SELECT count(*) FROM orders;";
       LlmExplain "How many orders are there?" "SELECT count(*) FROM orders;" None;
       UiError ("Error executing the query: " +:+ "");
       LlmExplain "How many orders are there?" "SELECT count(*) FROM orders;"
         (effective_error (Some ""))] ++ rest.
Proof.
  apply (explanation_failure_is_reported_as_query_failure failing_explainer Scenario.ask
           "SELECT count(*) FROM orders;" "" [[("count", "42")]] ["count"]
           Scenario.ready 1); reflexivity.
Defined.
